(** * kubric_gpu: scene-generation scripts

    A shallow embedding of [challenges/multicapture/run.py] and
    [challenges/gso/run.py].

    Conventions of the embedding:
    - Python [int] is [Z]; pixel labels and pixel counts are [nat].
    - Python and NumPy [float] (IEEE double) is idealised as a real number
      [R]; [np.pi] is [PI]. The power [**] is not idealised: it goes
      through the [pow] of the C library, which rounds, overflows and
      is a parameter of the embedding, and the literal [1/3.] is the
      double it denotes.
    - A Python exception is a [Raise] in the [result] monad.
    - The shared random generator [rng] is an explicit [RandomState],
      threaded through every sampling call in call order.
    - Python objects live in a store ([heap]) addressed by references;
      the scene holds references, so an assignment through one name is
      seen through every other name of the same object. *)

From Stdlib Require Import Reals Lra Lia ZArith List Bool String.
From Stdlib Require Import Permutation Sorted.
From stdpp Require Import base list list_numbers functions.
Import ListNotations.

(* ===================================================================== *)
(** ** Python: exceptions, [range], indexing *)
(* ===================================================================== *)

Module Py.

Inductive exn : Set :=
| ZeroDivisionError
| KeyError
| IndexError
| ValueError
| OverflowError
| TypeError.

Inductive result (A : Type) : Type :=
| Ok (a : A)
| Raise (e : exn).

Arguments Ok {A} a.
Arguments Raise {A} e.

Definition bind {A B : Type} (c : result A) (k : A -> result B) : result B :=
  match c with
  | Ok a => k a
  | Raise e => Raise e
  end.

(** [for x in xs: body], the loop state threaded through the iterations;
    an exception leaves the loop. *)
Fixpoint for_each {A S : Type} (xs : list A) (body : A -> S -> result S)
    (s : S) : result S :=
  match xs with
  | [] => Ok s
  | x :: xs' => bind (body x s) (for_each xs' body)
  end.

(** [range(a, b)] *)
Definition range (a b : Z) : list Z := seqZ a (b - a).

(** [l[i]] with Python's negative indices. *)
Definition getitem {A : Type} (l : list A) (i : Z) : result A :=
  let n := Z.of_nat (List.length l) in
  let j := if (i <? 0)%Z then (i + n)%Z else i in
  if ((0 <=? j) && (j <? n))%Z%bool then
    match l !! Z.to_nat j with
    | Some x => Ok x
    | None => Raise IndexError
    end
  else Raise IndexError.

(** [x / n] for a float [x] and an int [n]. *)
Definition truediv (x : R) (n : Z) : result R :=
  if (n =? 0)%Z then Raise ZeroDivisionError else Ok (x / IZR n)%R.

(** A Python number as [**] returns it: a float, or a complex number
    with its real and its imaginary part. *)
Inductive number : Type :=
| Float (x : R)
| Complex (re im : R).

(** The [pow] of the C library, which Python calls for [**] on floats
    with a positive base: the double it returns, [None] where the result
    is too large for a double. The library rounds its result and is not
    part of the sources. *)
Class Libm : Type := {
  c_pow : R -> R -> option R
}.

Section Power.
Context `{Libm}.

(** The call of the C library and the check Python makes of it: a base
    of [1.0] gives [1.0] without a call, a result too large for a double
    raises OverflowError, and the result is negated for a negative base
    with an odd exponent. *)
Definition checked_pow (x y : R) (negate_result : bool) : result number :=
  if Req_dec_T x 1 then Ok (Float (if negate_result then -1 else 1)%R)
  else
    match c_pow x y with
    | Some r => Ok (Float (if negate_result then - r else r)%R)
    | None => Raise OverflowError
    end.

(** [x ** y] on floats: [x ** 0] is [1.0]; [0.0 ** y] is [0.0], or raises
    for a negative [y]; a negative base with an exponent that is not
    integral gives a complex number, of modulus [(-x) ** y] and argument
    [pi * y], and no exception. *)
Definition pow (x y : R) : result number :=
  if Req_dec_T y 0 then Ok (Float 1%R)
  else if Req_dec_T x 0 then
    if Rlt_dec y 0 then Raise ZeroDivisionError else Ok (Float 0%R)
  else if Rlt_dec x 0 then
    if Req_dec_T (IZR (Int_part y)) y then
      checked_pow (- x)%R y (Z.odd (Int_part y))
    else
      match c_pow (- x)%R y with
      | Some len =>
          Ok (Complex (len * cos (PI * y))%R (len * sin (PI * y))%R)
      | None => Raise OverflowError
      end
  else checked_pow x y false.
End Power.

(** A number where a float is required, as in the bounds of
    [rng.uniform]. *)
Definition as_float (n : number) : result R :=
  match n with
  | Float x => Ok x
  | Complex _ _ => Raise TypeError
  end.

End Py.

Import Py.

Declare Scope py_scope.
Delimit Scope py_scope with py.
Notation "'let*' x ':=' c 'in' k" := (Py.bind c (fun x => k))
  (at level 10, x pattern, c at level 100, k at level 200) : py_scope.
Open Scope py_scope.

(* ===================================================================== *)
(** ** NumPy: vectors, reductions, the random generator *)
(* ===================================================================== *)

Module Np.

Open Scope R_scope.

Definition Vec3 : Type := R * R * R.

Definition vx (v : Vec3) : R := fst (fst v).
Definition vy (v : Vec3) : R := snd (fst v).
Definition vz (v : Vec3) : R := snd v.

(** [v * s] *)
Definition vscale (v : Vec3) (s : R) : Vec3 :=
  (vx v * s, vy v * s, vz v * s).

(** [v - w] *)
Definition vsub (v w : Vec3) : Vec3 :=
  (vx v - vx w, vy v - vy w, vz v - vz w).

(** [np.deg2rad(d)] *)
Definition deg2rad (d : R) : R := d * (PI / 180).

(** The generator: an infinite sequence of draws from [[0, 1)] and the
    number of draws consumed so far. *)
Record RandomState : Type := {
  draws : nat -> R;
  cursor : nat
}.

(** Every draw of the generator lies in [[0, 1)]. *)
Definition unit_draws (rng : RandomState) : Prop :=
  forall n, 0 <= draws rng n < 1.

Definition random_sample (rng : RandomState) : R * RandomState :=
  (draws rng (cursor rng), {| draws := draws rng; cursor := S (cursor rng) |}).

(** [rng.uniform(low, high)] on scalars: [low + (high - low) * u]. *)
Definition uniform (low high : R) (rng : RandomState) : R * RandomState :=
  let (u, rng') := random_sample rng in
  (low + (high - low) * u, rng').

(** [rng.uniform(low, high)] on 3-tuples: one draw per component. *)
Definition uniform3 (low high : Vec3) (rng : RandomState)
  : Vec3 * RandomState :=
  let (x, rng1) := uniform (vx low) (vx high) rng in
  let (y, rng2) := uniform (vy low) (vy high) rng1 in
  let (z, rng3) := uniform (vz low) (vz high) rng2 in
  ((x, y, z), rng3).

(** [np.max] of an array of counts: an empty array has no maximum. *)
Definition amax (a : list nat) : result nat :=
  match a with
  | [] => Raise ValueError
  | x :: a' => Ok (fold_left Nat.max a' x)
  end.

(** [np.sum] of an array of counts. *)
Definition asum (a : list nat) : nat := fold_left Nat.add a 0%nat.

(** [np.max(v)] and [np.abs(v)] on a 3-vector. *)
Definition vmax (v : Vec3) : R := Rmax (Rmax (vx v) (vy v)) (vz v).
Definition vabs (v : Vec3) : Vec3 := (Rabs (vx v), Rabs (vy v), Rabs (vz v)).

End Np.

Import Np.

(* ===================================================================== *)
(** ** Kubric: cameras, assets, the scene and its collaborators *)
(* ===================================================================== *)

Module Kubric.

Open Scope R_scope.

Definition Quat : Type := R * R * R * R.

Inductive value : Type :=
| VVec3 (v : Vec3)
| VQuat (q : Quat).

(** One committed keyframe: attribute name, frame index, committed value. *)
Definition Keyframe : Type := string * Z * value.

Module Camera.
Record t : Type := mk {
  position : Vec3;
  quaternion : Quat;
  keyframes : list Keyframe   (* commits, the latest first *)
}.
End Camera.

Module Asset.
(** The entries of [obj.metadata] the scripts write or read. *)
Record Metadata : Type := mkMetadata {
  visibility : option (list nat);   (* metadata["visibility"] *)
  target_scale : option R;          (* metadata["scale"] *)
  is_dynamic : option bool          (* metadata["is_dynamic"] *)
}.

(** An object of the scene; an attribute an object does not expose
    is [None]. *)
Record t : Type := mk {
  asset_id : string;
  background : bool;
  scale : R;
  position : Vec3;
  bounds : Vec3 * Vec3;
  velocity : option Vec3;
  friction : option R;
  restitution : option R;
  metadata : Metadata
}.

Definition set_scale (x : R) (o : t) : t :=
  mk (asset_id o) (background o) x (position o) (bounds o) (velocity o)
     (friction o) (restitution o) (metadata o).
Definition set_position (x : Vec3) (o : t) : t :=
  mk (asset_id o) (background o) (scale o) x (bounds o) (velocity o)
     (friction o) (restitution o) (metadata o).
Definition set_velocity (x : Vec3) (o : t) : t :=
  mk (asset_id o) (background o) (scale o) (position o) (bounds o) (Some x)
     (friction o) (restitution o) (metadata o).
Definition set_friction (x : R) (o : t) : t :=
  mk (asset_id o) (background o) (scale o) (position o) (bounds o)
     (velocity o) (Some x) (restitution o) (metadata o).
Definition set_restitution (x : R) (o : t) : t :=
  mk (asset_id o) (background o) (scale o) (position o) (bounds o)
     (velocity o) (friction o) (Some x) (metadata o).
Definition set_metadata (m : Metadata) (o : t) : t :=
  mk (asset_id o) (background o) (scale o) (position o) (bounds o)
     (velocity o) (friction o) (restitution o) m.

Definition set_visibility (v : list nat) (o : t) : t :=
  set_metadata (mkMetadata (Some v) (target_scale (metadata o))
                           (is_dynamic (metadata o))) o.
Definition set_target_scale (x : R) (o : t) : t :=
  set_metadata (mkMetadata (visibility (metadata o)) (Some x)
                           (is_dynamic (metadata o))) o.
Definition set_is_dynamic (b : bool) (o : t) : t :=
  set_metadata (mkMetadata (visibility (metadata o))
                           (target_scale (metadata o)) (Some b)) o.

(** [hasattr(obj, "velocity")] *)
Definition has_velocity (o : t) : bool :=
  match velocity o with Some _ => true | None => false end.

(** [obj.metadata["visibility"]] *)
Definition get_visibility (o : t) : result (list nat) :=
  match visibility (metadata o) with
  | Some v => Ok v
  | None => Raise KeyError
  end.
Definition set_background (b : bool) (o : t) : t :=
  mk (asset_id o) b (scale o) (position o) (bounds o) (velocity o)
     (friction o) (restitution o) (metadata o).

End Asset.

(** A reference to an object of the store. *)
Definition ref : Type := nat.

(** Segmentation maps: one per rendered frame, each a sequence of pixel
    labels; label [0] is the background. *)
Definition Segmentation : Type := list (list nat).

(** The interfaces the scripts consume and whose implementation is not
    part of the sources: the toolkit's camera constructor and orientation,
    its own sampler, the asset source, the physics placement, the integer
    sampling of the generator and the metadata export. *)
Class Collaborators : Type := {
  (** [kb.PerspectiveCamera(focal_length, sensor_width)]: a new camera. *)
  PerspectiveCamera : R -> R -> Camera.t;
  PerspectiveCamera_keyframes :
    forall focal_length sensor_width,
      Camera.keyframes (PerspectiveCamera focal_length sensor_width) = [];
  (** the orientation that makes a camera at a position face a target *)
  look_at_quaternion : Vec3 -> Vec3 -> Quat;
  (** [kb.sample_point_in_half_sphere_shell(inner, outer, offset)], which
      draws from the toolkit's own generator: the result of its k-th call *)
  sample_point_in_half_sphere_shell : R -> R -> R -> nat -> Vec3;
  (** [rng.choice(ids)] *)
  choice : list string -> RandomState -> result (string * RandomState);
  (** [source.create(asset_id=...)] before its keyword arguments apply *)
  create : string -> Asset.t;
  (** [obj.aabbox] *)
  aabbox : Asset.t -> Vec3 * Vec3;
  (** [kb.move_until_no_overlap(obj, simulator, spawn_region, rng)]: the
      collision-free position it moves the object to *)
  move_until_no_overlap :
    (ref -> Asset.t) -> list ref -> ref -> Vec3 * Vec3 -> RandomState ->
    result (Vec3 * RandomState);
  (** [kb.post_processing.compute_bboxes(segmentation, assets)] *)
  compute_bboxes :
    Segmentation -> list ref -> (ref -> Asset.t) -> (ref -> Asset.t);
  (** one entry of [kb.get_instance_info] *)
  InstanceInfo : Type;
  instance_info : Asset.t -> InstanceInfo
}.

Section Camera_methods.
Context `{Collaborators}.

(** [camera.position = p] *)
Definition set_position (p : Vec3) (c : Camera.t) : Camera.t :=
  Camera.mk p (Camera.quaternion c) (Camera.keyframes c).

(** Modelled from the spec: [Camera.look_at] of the toolkit is not part
    of the sources; it derives the orientation by orienting the camera,
    at its current position, to face the look-at target. *)
Definition look_at (target : Vec3) (c : Camera.t) : Camera.t :=
  Camera.mk (Camera.position c)
            (look_at_quaternion (Camera.position c) target)
            (Camera.keyframes c).

(** [getattr(camera, member)] for the keyframed attributes *)
Definition getattr (member : string) (c : Camera.t) : result value :=
  if String.eqb member "position" then Ok (VVec3 (Camera.position c))
  else if String.eqb member "quaternion" then Ok (VQuat (Camera.quaternion c))
  else Raise KeyError.

(** Modelled from the spec: [keyframe_insert] of the toolkit is not part
    of the sources; it commits the current value of the attribute as a
    keyframe at the frame index. *)
Definition keyframe_insert (member : string) (frame : Z) (c : Camera.t)
  : result Camera.t :=
  let* v := getattr member c in
  Ok (Camera.mk (Camera.position c) (Camera.quaternion c)
                ((member, frame, v) :: Camera.keyframes c)).
End Camera_methods.

Definition keyframe_matches (member : string) (frame : Z) (k : Keyframe)
  : bool :=
  String.eqb (fst (fst k)) member && Z.eqb (snd (fst k)) frame.

(** The number of commits of an attribute at a frame. *)
Definition keyframe_commits (member : string) (frame : Z) (c : Camera.t)
  : nat :=
  List.length (List.filter (keyframe_matches member frame) (Camera.keyframes c)).

(** The keyframe the renderer reads for an attribute at a frame: the
    latest commit. *)
Definition keyframe_at (member : string) (frame : Z) (c : Camera.t)
  : option value :=
  match List.find (keyframe_matches member frame) (Camera.keyframes c) with
  | Some k => Some (snd k)
  | None => None
  end.

(** The scene: the object store, the next free reference, the references
    of the assets of the scene in insertion order, the camera and
    [scene.metadata["num_instances"]]. The camera is kept in a field of
    its own: [assets] lists the objects that are not cameras, where the
    toolkit lists an assigned camera among [scene.assets] as well. *)
Record Scene : Type := mkScene {
  heap : ref -> Asset.t;
  next_ref : ref;
  assets : list ref;
  camera : Camera.t;
  num_instances : option nat
}.

Definition set_heap (h : ref -> Asset.t) (s : Scene) : Scene :=
  mkScene h (next_ref s) (assets s) (camera s) (num_instances s).
Definition set_camera (c : Camera.t) (s : Scene) : Scene :=
  mkScene (heap s) (next_ref s) (assets s) c (num_instances s).
Definition set_num_instances (n : nat) (s : Scene) : Scene :=
  mkScene (heap s) (next_ref s) (assets s) (camera s) (Some n).

(** A newly created object gets the next free reference. *)
Definition new (o : Asset.t) (s : Scene) : ref * Scene :=
  (next_ref s,
   mkScene (<[next_ref s := o]> (heap s)) (S (next_ref s)) (assets s)
           (camera s) (num_instances s)).

(** [obj.attr = x]: the object behind the reference changes in the store. *)
Definition setattr (r : ref) (f : Asset.t -> Asset.t) (s : Scene) : Scene :=
  set_heap (alter f r (heap s)) s.

(** [scene += obj], [scene.add(obj)] *)
Definition add (r : ref) (s : Scene) : Scene :=
  mkScene (heap s) (next_ref s) (assets s ++ [r]) (camera s) (num_instances s).

(** [scene.foreground_assets] *)
Definition foreground_assets (s : Scene) : list ref :=
  List.filter (fun r => negb (Asset.background (heap s r))) (assets s).

(** The number of pixels of a frame that carry a label. *)
Definition count_pixels (label : nat) (frame : list nat) : nat :=
  List.length (List.filter (Nat.eqb label) frame).

(** Modelled from the spec: [kb.compute_visibility] is not part of the
    sources; for each object of the given list it computes the count of
    pixels labeled with that object's index in each frame, the object at
    position [i] of the list having index [i + 1] (index 0 is the
    background), and stores the counts in [metadata["visibility"]]. *)
Fixpoint compute_visibility_from (i : nat) (seg : Segmentation)
    (objs : list ref) (h : ref -> Asset.t) : ref -> Asset.t :=
  match objs with
  | [] => h
  | r :: objs' =>
      compute_visibility_from (S i) seg objs'
        (alter (Asset.set_visibility (List.map (count_pixels (S i)) seg)) r h)
  end.

Definition compute_visibility (seg : Segmentation) (objs : list ref)
    (h : ref -> Asset.t) : ref -> Asset.t :=
  compute_visibility_from 0 seg objs h.

(** The position of a reference in a list. *)
Fixpoint index_of (r : ref) (l : list ref) : option nat :=
  match l with
  | [] => None
  | x :: l' => if Nat.eqb x r then Some 0%nat
               else option_map S (index_of r l')
  end.

(** Modelled from the spec: the remap of [kb.adjust_segmentation_idxs],
    which is not part of the sources: from each original index to the new
    rank-based index of its object; the background stays index 0 and any
    index not corresponding to a retained object is mapped to the
    background sentinel 0. *)
Definition remap (old_assets new_assets : list ref) (label : nat) : nat :=
  match label with
  | O => O
  | S i =>
      match old_assets !! i with
      | Some r =>
          match index_of r new_assets with
          | Some j => S j
          | None => O
          end
      | None => O
      end
  end.

(** Modelled from the spec: [kb.adjust_segmentation_idxs] rewrites every
    pixel in every segmentation frame through the remap. *)
Definition adjust_segmentation_idxs (seg : Segmentation)
    (old_assets new_assets : list ref) : Segmentation :=
  List.map (List.map (remap old_assets new_assets)) seg.

Section Metadata_export.
Context `{Collaborators}.

(** Modelled from the spec: [kb.get_instance_info] is not part of the
    sources; it gives the per-instance info, one entry per object of the
    given subset. *)
Definition get_instance_info (s : Scene) (assets_subset : list ref)
  : list InstanceInfo :=
  List.map (fun r => instance_info (heap s r)) assets_subset.
End Metadata_export.

End Kubric.

Import Kubric.

(* ===================================================================== *)
(** ** challenges/multicapture/run.py *)
(* ===================================================================== *)

Module Multicapture.

Open Scope R_scope.

(** The region in which to place objects [(min), (max)]. *)
Definition STATIC_SPAWN_REGION : Vec3 * Vec3 := ((-7, -7, 0), (7, 7, 10)).
Definition DYNAMIC_SPAWN_REGION : Vec3 * Vec3 := ((-5, -5, 1), (5, 5, 5)).
Definition VELOCITY_RANGE : Vec3 * Vec3 := ((-4, -4, 0), (4, 4, 0)).

(** The command-line flags the modelled parts of the script read. *)
Record Flags : Type := mkFlags {
  frame_start : Z;
  frame_end : Z;
  min_radius : R;
  max_radius : R;
  floor_friction : R;
  floor_restitution : R
}.

(** [num_frames = FLAGS.frame_end - FLAGS.frame_start + 1] *)
Definition num_frames (F : Flags) : Z := (frame_end F - frame_start F + 1)%Z.

(** [range(FLAGS.frame_start - 1, FLAGS.frame_end + 2)] *)
Definition padded_range (F : Flags) : list Z :=
  Py.range (frame_start F - 1) (frame_end F + 2).

(** The direction of azimuth [th] and polar angle [ph]. *)
Definition direction (th ph : R) : Vec3 :=
  (cos th * sin ph, sin th * sin ph, cos ph).

(** [theta_curr = theta + (frame - FLAGS.frame_start + 1) * 2 * np.pi
                   / num_frames] *)
Definition theta_curr (F : Flags) (theta : R) (frame : Z) : result R :=
  let* turn := Py.truediv (IZR ((frame - frame_start F + 1) * 2) * PI)
                          (num_frames F) in
  Ok (theta + turn).

(** [phi_curr = phi] *)
Definition phi_curr (phi : R) (frame : Z) : R := phi.

(** [xyz_curr], after [xyz_curr = xyz_curr * radius] *)
Definition xyz_curr (th ph radius : R) : Vec3 :=
  vscale (direction th ph) radius.

(** [1/3.]: the double nearest to one third, which is below it. *)
Definition one_third : R := 6004799503160661 / 18014398509481984.

(** The three draws of the linear orbit: [theta], [phi], [radius]. The
    cubes of the radius flags are taken before the generator is drawn
    from. *)
Definition sample_orbit `{Libm} (F : Flags) (rng : RandomState)
  : result (R * R * number * RandomState) :=
  let (theta, rng1) := uniform 0 (2 * PI) rng in
  let (phi, rng2) := uniform (deg2rad 30) (deg2rad 60) rng1 in
  let* low := Py.pow (min_radius F) 3 in
  let* high := Py.pow (max_radius F) 3 in
  let* low := Py.as_float low in
  let* high := Py.as_float high in
  let (volume, rng3) := uniform low high rng2 in
  let* radius := Py.pow volume one_third in
  Ok (theta, phi, radius, rng3).

Section Script.
Context `{Collaborators}.

(** The body of the loop that keyframes the train camera. *)
Definition orbit_body (F : Flags) (theta phi radius : R) (frame : Z)
    (c : Camera.t) : result Camera.t :=
  let* th := theta_curr F theta frame in
  let ph := phi_curr phi frame in
  let c := set_position (xyz_curr th ph radius) c in
  let c := look_at (0, 0, 0) c in
  let* c := keyframe_insert "position" frame c in
  keyframe_insert "quaternion" frame c.

Definition linear_orbit (F : Flags) (theta phi radius : R) (c : Camera.t)
  : result Camera.t :=
  for_each (padded_range F) (orbit_body F theta phi radius) c.

(** Stop an object that is still moving and reset its friction and
    restitution. *)
Definition stop_and_reset (s : Scene) (obj : ref) : Scene :=
  if Asset.has_velocity (heap s obj) then
    let s := setattr obj (Asset.set_velocity (0, 0, 0)) s in
    let s := setattr obj (Asset.set_friction 0.5) s in
    setattr obj (Asset.set_restitution 0.5) s
  else s.

(** The transition between the settle simulation and the placement of
    the dynamic objects. *)
Definition resetting (F : Flags) (dome : ref) (s : Scene) : Scene :=
  let s := fold_left stop_and_reset (foreground_assets s) s in
  let s := setattr dome (Asset.set_friction (floor_friction F)) s in
  setattr dome (Asset.set_restitution (floor_restitution F)) s.

(** The body of the loop that adds the dynamic objects. *)
Definition add_dynamic_object (active_split : list string)
    (st : Scene * RandomState) : result (Scene * RandomState) :=
  let (s, rng) := st in
  let* (id, rng) := choice active_split rng in
  let (obj, s) := new (create id) s in
  let (scale, rng) := uniform 0.75 3.0 rng in
  let b := Asset.bounds (heap s obj) in
  let s := setattr obj (Asset.set_scale (scale / vmax (vsub (snd b) (fst b)))) s in
  let s := setattr obj (Asset.set_target_scale scale) s in
  let s := add obj s in
  let* (p, rng) := move_until_no_overlap (heap s) (assets s) obj
                     DYNAMIC_SPAWN_REGION rng in
  let s := setattr obj (Asset.set_position p) s in
  let (v, rng) := uniform3 (fst VELOCITY_RANGE) (snd VELOCITY_RANGE) rng in
  let pos := Asset.position (heap s obj) in
  let s := setattr obj (Asset.set_velocity (vsub v (vx pos, vy pos, 0))) s in
  let s := setattr obj (Asset.set_is_dynamic true) s in
  Ok (s, rng).

Definition add_dynamic_objects (num_dynamic_objects : Z)
    (active_split : list string) (st : Scene * RandomState)
  : result (Scene * RandomState) :=
  for_each (Py.range 0 num_dynamic_objects)
           (fun _ => add_dynamic_object active_split) st.

(** [np.max(asset.metadata["visibility"]) > 0] *)
Definition is_visible (h : ref -> Asset.t) (asset : ref) : result bool :=
  let* v := Asset.get_visibility (h asset) in
  let* m := amax v in
  Ok (0 <? m)%nat.

(** [[asset for asset in l if ...]] *)
Fixpoint visible_only (h : ref -> Asset.t) (l : list ref)
  : result (list ref) :=
  match l with
  | [] => Ok []
  | asset :: l' =>
      let* b := is_visible h asset in
      let* rest := visible_only h l' in
      Ok (if b then asset :: rest else rest)
  end.

(** [key=lambda asset: np.sum(asset.metadata["visibility"])] *)
Definition total_visibility (h : ref -> Asset.t) (asset : ref)
  : result nat :=
  let* v := Asset.get_visibility (h asset) in
  Ok (asum v).

(** The keys of [sorted], computed once per element. *)
Fixpoint decorate (h : ref -> Asset.t) (l : list ref)
  : result (list (nat * ref)) :=
  match l with
  | [] => Ok []
  | asset :: l' =>
      let* k := total_visibility h asset in
      let* rest := decorate h l' in
      Ok ((k, asset) :: rest)
  end.

(** [sorted(..., reverse=True)] is stable: of two elements with equal
    keys the one that came first stays first. *)
Fixpoint insert_reverse (x : nat * ref) (l : list (nat * ref))
  : list (nat * ref) :=
  match l with
  | [] => [x]
  | y :: l' => if (fst y <=? fst x)%nat then x :: y :: l'
               else y :: insert_reverse x l'
  end.

Definition sort_reverse (l : list (nat * ref)) : list (nat * ref) :=
  fold_right insert_reverse [] l.

Definition sorted_by_visibility (h : ref -> Asset.t) (l : list ref)
  : result (list ref) :=
  let* keyed := decorate h l in
  Ok (List.map snd (sort_reverse keyed)).

(** What the postprocessing hands on: the rewritten segmentation, the
    retained objects in their order, and the ["instances"] entry of the
    metadata document. *)
Record Output : Type := mkOutput {
  segmentation : Segmentation;
  visible_foreground_assets : list ref;
  instances : list InstanceInfo;
  scene : Scene
}.

(** The postprocessing of a rendered scene. *)
Definition postprocess (seg : Segmentation) (s : Scene) : result Output :=
  let s := set_heap (compute_visibility seg (assets s) (heap s)) s in
  let* visible := visible_only (heap s) (foreground_assets s) in
  let* visible := sorted_by_visibility (heap s) visible in
  let seg' := adjust_segmentation_idxs seg (assets s) visible in
  let s := set_num_instances (List.length visible) s in
  let s := set_heap (compute_bboxes seg' visible (heap s)) s in
  Ok (mkOutput seg' visible (get_instance_info s visible) s).

(** The first loop over the test camera: a random azimuth per frame. *)
Definition random_lookat_body (phi radius : R) (frame : Z)
    (st : Camera.t * RandomState) : result (Camera.t * RandomState) :=
  let (c, rng) := st in
  let (th, rng) := uniform 0 (2 * PI) rng in
  let ph := phi_curr phi frame in
  let c := set_position (vscale (direction th ph) radius) c in
  let c := look_at (0, 0, 0) c in
  let* c := keyframe_insert "position" frame c in
  let* c := keyframe_insert "quaternion" frame c in
  Ok (c, rng).

(** The second loop over the test camera: a point of the half-sphere
    shell per frame; [calls] counts the calls of the toolkit's sampler. *)
Definition shell_body (F : Flags) (frame : Z) (st : Camera.t * nat)
  : result (Camera.t * nat) :=
  let (c, calls) := st in
  let p := sample_point_in_half_sphere_shell (min_radius F) (max_radius F)
                                             0.1 calls in
  let c := set_position p c in
  let c := look_at (0, 0, 0) c in
  let* c := keyframe_insert "position" frame c in
  let* c := keyframe_insert "quaternion" frame c in
  Ok (c, S calls).

(** The camera block of the test scene. *)
Definition test_camera (F : Flags) (phi radius : R) (rng : RandomState)
    (calls : nat) (s : Scene) : result (Scene * RandomState * nat) :=
  let s := set_camera (PerspectiveCamera 35 32) s in
  let* (c, rng) := for_each (padded_range F) (random_lookat_body phi radius)
                            (camera s, rng) in
  let* (c, calls) := for_each (padded_range F) (shell_body F) (c, calls) in
  Ok (set_camera c s, rng, calls).

(** The dome: [kubasic.create(asset_id="dome", name="dome", friction=1.0,
    restitution=0.0, static=True, background=True)], then [scene += dome].
    The name and the static flag are read by the simulator only. *)
Definition add_dome (s : Scene) : ref * Scene :=
  let (dome, s) :=
    new (Asset.set_background true
           (Asset.set_restitution 0.0
              (Asset.set_friction 1.0 (create "dome")))) s in
  (dome, add dome s).

(** The body of the loop that adds the static objects. *)
Definition add_static_object (active_split : list string)
    (st : Scene * RandomState) : result (Scene * RandomState) :=
  let (s, rng) := st in
  let* (id, rng) := choice active_split rng in
  let (obj, s) := new (create id) s in
  let (scale, rng) := uniform 0.75 3.0 rng in
  let b := Asset.bounds (heap s obj) in
  let s := setattr obj (Asset.set_scale (scale / vmax (vsub (snd b) (fst b)))) s in
  let s := setattr obj (Asset.set_target_scale scale) s in
  let s := add obj s in
  let* (p, rng) := move_until_no_overlap (heap s) (assets s) obj
                     STATIC_SPAWN_REGION rng in
  let s := setattr obj (Asset.set_position p) s in
  let s := setattr obj (Asset.set_friction 1.0) s in
  let s := setattr obj (Asset.set_restitution 0.0) s in
  let s := setattr obj (Asset.set_is_dynamic false) s in
  Ok (s, rng).

Definition add_static_objects (num_static_objects : Z)
    (active_split : list string) (st : Scene * RandomState)
  : result (Scene * RandomState) :=
  for_each (Py.range 0 num_static_objects)
           (fun _ => add_static_object active_split) st.

End Script.

End Multicapture.

(* ===================================================================== *)
(** ** challenges/gso/run.py *)
(* ===================================================================== *)

Module Gso.

Open Scope R_scope.

(** [math.radians] *)
Definition radians (d : R) : R := d * (PI / 180).

Definition azimuth_elevation_to_cartesian (azimuth elevation radius : R)
  : Vec3 :=
  (* Convert azimuth and elevation from degrees to radians *)
  let azimuth_rad := radians azimuth in
  let elevation_rad := radians elevation in
  (* Calculate the Cartesian coordinates *)
  let x := radius * cos elevation_rad * cos azimuth_rad in
  let y := radius * cos elevation_rad * sin azimuth_rad in
  let z := radius * sin elevation_rad in
  (x, y, z).

Definition get_zero123pp_camera : list Vec3 :=
  let azimuths := [30; 90; 150; 210; 270; 330] in
  let elevations := [30; -20; 30; -20; 30; -20] in
  List.map (fun '(azimuth, elevation) =>
              azimuth_elevation_to_cartesian azimuth elevation 1.3)
           (combine azimuths elevations).

(** [np.abs(box).max()] of the two corners of a box. *)
Definition abs_max (box : Vec3 * Vec3) : R :=
  Rmax (vmax (vabs (fst box))) (vmax (vabs (snd box))).

Section Script.
Context `{Collaborators}.

(** The body of the loop of [set_cameras]. *)
Definition set_cameras_body (all_frames : list Vec3) (frame_idx : Z)
    (c : Camera.t) : result Camera.t :=
  let* p := Py.getitem all_frames (frame_idx - 1) in
  let c := set_position p c in
  let c := look_at (0, 0, 0) c in
  let* c := keyframe_insert "position" frame_idx c in
  keyframe_insert "quaternion" frame_idx c.

(** [set_cameras(scene)]; [sync_dreamer_camera] is what
    [read_syncdreamer_camera()] returns from the stored pose archive,
    an array of 16 positions. *)
Definition set_cameras (sync_dreamer_camera : list Vec3) (s : Scene)
  : result Scene :=
  let s := set_camera (PerspectiveCamera 35 32) s in
  let zero123pp_camera := get_zero123pp_camera in
  let all_frames := sync_dreamer_camera ++ zero123pp_camera in
  let* c := for_each (Py.range 1 23) (set_cameras_body all_frames)
                     (camera s) in
  Ok (set_camera c s).

(** [scene.add(objs)] for a list of newly created objects. *)
Definition add_all (objs : list Asset.t) (s : Scene) : Scene :=
  fold_left (fun s o => let (r, s) := new o s in add r s) objs s.

(** [render(args)] up to the call of the renderer. [lights] is what
    [get_clevr_lights] returns, [asset_ids] the sorted identifiers of the
    asset source and [asset_index] the number the job directory names.
    The result is the scene and the object bound to [obj]. *)
Definition render (lights : list Asset.t) (sync_dreamer_camera : list Vec3)
    (asset_ids : list string) (asset_index : Z) (s : Scene)
  : result (Scene * ref) :=
  let s := add_all lights s in
  let* s := set_cameras sync_dreamer_camera s in
  let* id := Py.getitem asset_ids asset_index in
  let (obj, s) := new (Asset.set_scale 1 (create id)) s in
  let bbox_max := abs_max (aabbox (heap s obj)) in
  let scale := 1.3 / bbox_max * 0.30 in
  let* id := Py.getitem asset_ids asset_index in
  let (obj, s) := new (Asset.set_scale scale (create id)) s in
  let s := add obj s in
  Ok (s, obj).
End Script.

End Gso.

(* ===================================================================== *)
(** ** Vocabulary of the statements *)
(* ===================================================================== *)

Import Multicapture.

Close Scope R_scope.

Section Poses.
Context `{Collaborators}.

(** The camera after a pose is committed at a frame: the position and
    the orientation facing the origin, both keyframed. *)
Definition commit_pose (p : Vec3) (frame : Z) (c : Camera.t) : Camera.t :=
  Camera.mk p (look_at_quaternion p (0, 0, 0)%R)
    (("quaternion"%string, frame, VQuat (look_at_quaternion p (0, 0, 0)%R))
     :: ("position"%string, frame, VVec3 p) :: Camera.keyframes c).

(** The keyframes after a sequence of poses is committed in order. *)
Fixpoint pose_log (poses : list (Z * Vec3)) (log : list Keyframe)
  : list Keyframe :=
  match poses with
  | [] => log
  | (f, p) :: rest =>
      pose_log rest
        (("quaternion"%string, f, VQuat (look_at_quaternion p (0, 0, 0)%R))
         :: ("position"%string, f, VVec3 p) :: log)
  end.

(** The pose the second loop over the test camera commits at its [i]-th
    frame. *)
Definition shell_pose (F : Flags) (calls : nat) (i : nat) : Vec3 :=
  sample_point_in_half_sphere_shell (min_radius F) (max_radius F) 0.1%R
                                    (calls + i)%nat.

(** Placement succeeds: the generator can choose from the split and the
    physics finds a collision-free position. *)
Definition placement_succeeds (active_split : list string) : Prop :=
  (forall rng, exists id rng', choice active_split rng = Ok (id, rng')) /\
  (forall h objs obj rng, exists p rng',
      move_until_no_overlap h objs obj DYNAMIC_SPAWN_REGION rng
      = Ok (p, rng')).
End Poses.

(** The azimuth of the linear orbit at a frame, in closed form. *)
Definition orbit_azimuth (F : Flags) (theta : R) (f : Z) : R :=
  (theta + IZR (f - frame_start F + 1) * (2 * PI) / IZR (num_frames F))%R.

(** The position [set_cameras] gives the camera at a frame. *)
Definition listed_position (sync_dreamer_camera : list Vec3) (f : Z) : Vec3 :=
  List.nth (Z.to_nat (f - 1))
           (sync_dreamer_camera ++ Gso.get_zero123pp_camera) (0, 0, 0)%R.

(** The generator after [n] more draws. *)
Definition advance (n : nat) (rng : RandomState) : RandomState :=
  {| draws := draws rng; cursor := (n + cursor rng)%nat |}.

(** The pose the first loop over the test camera commits at its [i]-th
    frame. *)
Definition azimuth_pose (phi radius : R) (rng : RandomState) (i : nat)
  : Vec3 :=
  vscale (direction (0 + (2 * PI - 0) * draws rng (cursor rng + i)%nat) phi)%R
         radius.

(** The frames of a loop paired with the poses of their iterations. *)
Fixpoint poses_from (pose : nat -> Vec3) (i : nat) (xs : list Z)
  : list (Z * Vec3) :=
  match xs with
  | [] => []
  | f :: xs' => (f, pose i) :: poses_from pose (S i) xs'
  end.

(** What the reset does to one object. *)
Definition reset_object (o : Asset.t) : Asset.t :=
  if Asset.has_velocity o then
    Asset.set_restitution 0.5
      (Asset.set_friction 0.5 (Asset.set_velocity (0, 0, 0)%R o))
  else o.

(** A generator is a later state of another: the same sequence of draws,
    of which it has consumed at least as many. *)
Definition drawn_after (rng g : RandomState) : Prop :=
  draws g = draws rng /\ (cursor rng <= cursor g)%nat.

(** The velocity of an object is the draw from the velocity range that a
    generator gives next, its three draws from the cursor on, minus the
    horizontal position of the object. *)
Definition tossed (g : RandomState) (o : Asset.t) : Prop :=
  let sample := fst (uniform3 (fst VELOCITY_RANGE) (snd VELOCITY_RANGE) g) in
  Asset.velocity o
  = Some (vsub sample (vx (Asset.position o), vy (Asset.position o), 0)%R).

(** Some count of an array is not zero. *)
Definition seen (a : list nat) : Prop := exists c, In c a /\ c <> 0%nat.

Section Sorting.
Variable key : ref -> nat.

(** [sorted(l, key=key, reverse=True)], without the decoration. *)
Fixpoint insert_by (r : ref) (l : list ref) : list ref :=
  match l with
  | [] => [r]
  | y :: l' => if (key y <=? key r)%nat then r :: y :: l'
               else y :: insert_by r l'
  end.

Definition sort_by (l : list ref) : list ref := fold_right insert_by [] l.

Definition decorated (r : ref) : nat * ref := (key r, r).

(** Descending order of the keys. *)
Definition descending (r1 r2 : ref) : Prop := (key r2 <= key r1)%nat.

(** The objects of a list whose key is [t], in the order of the list. *)
Definition with_key (t : nat) (l : list ref) : list ref :=
  List.filter (fun r => (key r =? t)%nat) l.
End Sorting.

(** [metadata["visibility"]] of an object of a store, [[]] when absent. *)
Definition counts_of (h : ref -> Asset.t) (r : ref) : list nat :=
  match Asset.visibility (Asset.metadata (h r)) with
  | Some v => v
  | None => []
  end.

(** The per-frame counts of an object once the visibility of the scene is
    computed from the segmentation, and their total. *)
Definition counts (seg : Segmentation) (s : Scene) (r : ref) : list nat :=
  counts_of (compute_visibility seg (assets s) (heap s)) r.

Definition total (seg : Segmentation) (s : Scene) (r : ref) : nat :=
  asum (counts seg s r).

(** The total of an object of a store is not zero. *)
Definition in_view (h : ref -> Asset.t) (r : ref) : bool :=
  (0 <? asum (counts_of h r))%nat.

(** *** Inputs to run the scripts on *)

(** The flags of the multicapture script with its defaults: frames 1 to
    24, radius between 15 and 20, floor friction 0.3 and restitution
    0.5. *)
Definition default_flags : Flags := mkFlags 1 24 15 20 0.3 0.5.

(** A generator whose every draw is one half. *)
Definition half_rng : RandomState :=
  {| draws := fun _ => (1 / 2)%R; cursor := 0 |}.

(** Collaborators to run the scripts with: a camera at the origin, an
    orientation that records the direction to the target, the shell point
    straight above the origin, the first identifier of a split, a unit
    cube for every asset, placement at the lower corner of the region. *)
Definition reference_collaborators : Collaborators := {|
  PerspectiveCamera := fun _ _ => Camera.mk (0, 0, 0)%R (1, 0, 0, 0)%R [];
  PerspectiveCamera_keyframes := fun _ _ => eq_refl;
  look_at_quaternion := fun p t =>
    let d := vsub t p in (0, vx d, vy d, vz d)%R;
  sample_point_in_half_sphere_shell := fun inner outer offset k =>
    (0, 0, (inner + outer) / 2)%R;
  choice := fun ids rng =>
    match ids with [] => Raise ValueError | id :: _ => Ok (id, rng) end;
  create := fun id =>
    Asset.mk id false 1 (0, 0, 0)%R ((0, 0, 0), (1, 1, 1))%R
             (Some (0, 0, 0)%R) (Some 1%R) (Some 0%R)
             (Asset.mkMetadata None None None);
  aabbox := fun o =>
    (vscale (fst (Asset.bounds o)) (Asset.scale o),
     vscale (snd (Asset.bounds o)) (Asset.scale o));
  move_until_no_overlap := fun _ _ _ region rng => Ok (fst region, rng);
  compute_bboxes := fun _ _ h => h;
  InstanceInfo := string;
  instance_info := Asset.asset_id
|}.

(** A scene without objects. *)
Definition empty_scene : Scene :=
  mkScene (fun _ => @create reference_collaborators "") 0%nat []
          (@PerspectiveCamera reference_collaborators 35 32) None.

(** A dome and a moving object: the dome is a background object with
    friction 1 and restitution 0, the object moves with velocity
    (1, 2, 3). *)
Definition settled_scene : Scene :=
  mkScene
    (fun r =>
       match r with
       | O => Asset.mk "dome" true 1 (0, 0, 0)%R ((0, 0, 0), (1, 1, 1))%R
                       (Some (0, 0, 0)%R) (Some 1%R) (Some 0%R)
                       (Asset.mkMetadata None None None)
       | _ => Asset.mk "shoe" false 1 (0, 0, 1)%R ((0, 0, 0), (1, 1, 1))%R
                       (Some (1, 2, 3)%R) (Some 1%R) (Some 0%R)
                       (Asset.mkMetadata None None (Some false))
       end)
    2 [0; 1]%nat (@PerspectiveCamera reference_collaborators 35 32) None.

(** A scene of three objects, none of them background, and one frame in
    which the first covers 50 pixels, the second none, the third 120. *)
Definition three_objects : Scene :=
  mkScene (fun _ => @create reference_collaborators "object") 3 [0; 1; 2]%nat
          (@PerspectiveCamera reference_collaborators 35 32) None.

Definition one_frame : Segmentation :=
  [List.repeat 1%nat 50 ++ List.repeat 0%nat 30 ++ List.repeat 3%nat 120].

(** Two frames that show the background only. *)
Definition empty_frames : Segmentation :=
  [List.repeat 0%nat 8; List.repeat 0%nat 8].

(** *** Vocabulary of the further properties *)

(** The square of the distance of a point from the origin. *)
Definition norm2 (v : Vec3) : R :=
  (vx v * vx v + vy v * vy v + vz v * vz v)%R.

(** A box scaled about the origin. *)
Definition scale_box (k : R) (box : Vec3 * Vec3) : Vec3 * Vec3 :=
  (vscale (fst box) k, vscale (snd box) k).

(** The bounding box of a created object grows in proportion to its
    scale, as for an object that is neither moved nor rotated. *)
Definition aabbox_scales `{Collaborators} (id : string) : Prop :=
  forall k, (0 <= k)%R ->
    aabbox (Asset.set_scale k (create id))
    = scale_box k (aabbox (Asset.set_scale 1 (create id))).

(** The longest side of the bounds of an object. *)
Definition longest_side (o : Asset.t) : R :=
  vmax (vsub (snd (Asset.bounds o)) (fst (Asset.bounds o))).

Section Placement.
Context `{Collaborators}.

(** Placement in a region succeeds: the generator can choose from the
    split and the physics finds a collision-free position. *)
Definition placement_succeeds_in (region : Vec3 * Vec3)
    (active_split : list string) : Prop :=
  (forall rng, exists id rng', choice active_split rng = Ok (id, rng')) /\
  (forall h objs obj rng, exists p rng',
      move_until_no_overlap h objs obj region rng = Ok (p, rng')).

(** The collaborators draw from the one generator: they return it with
    the sequence of draws it had. *)
Definition generator_kept : Prop :=
  (forall ids rng id rng',
      choice ids rng = Ok (id, rng') -> draws rng' = draws rng) /\
  (forall h objs obj region rng p rng',
      move_until_no_overlap h objs obj region rng = Ok (p, rng') ->
      draws rng' = draws rng).

(** The collaborators draw from the one generator of the script: they
    return it with the sequence of draws it had, and do not rewind it. *)
Definition generator_threaded : Prop :=
  (forall ids rng id rng',
      choice ids rng = Ok (id, rng') -> drawn_after rng rng') /\
  (forall h objs obj region rng p rng',
      move_until_no_overlap h objs obj region rng = Ok (p, rng') ->
      drawn_after rng rng').

(** An object as the loop over the dynamic objects leaves it, run from
    the generator [rng] and leaving the generator [rng']: the object is
    at the position its placement found, and its velocity is tossed from
    the generator as that placement returned it, a later state of [rng]
    whose three draws [rng'] has consumed. *)
Definition tossed_at_placement (rng rng' : RandomState) (obj : ref)
    (o : Asset.t) : Prop :=
  exists h objs g0 g,
    move_until_no_overlap h objs obj DYNAMIC_SPAWN_REGION g0
    = Ok (Asset.position o, g) /\
    drawn_after rng g /\ (cursor g + 3 <= cursor rng')%nat /\
    tossed g o.

(** The asset source creates foreground objects that can move and whose
    bounds have a side that is not zero. *)
Definition creates_objects : Prop :=
  forall id,
    Asset.background (create id) = false /\
    Asset.has_velocity (create id) = true /\
    longest_side (create id) <> 0%R.

(** An object as the placement loops scale it: the scale in its metadata
    lies in [[0.75, 3.0)] and its longest side, scaled, has that size. *)
Definition scaled_to_target (o : Asset.t) : Prop :=
  exists target,
    Asset.target_scale (Asset.metadata o) = Some target /\
    (0.75 <= target < 3.0)%R /\
    (Asset.scale o * longest_side o = target)%R.

(** A static object as its loop leaves it. *)
Definition placed_static (o : Asset.t) : Prop :=
  Asset.friction o = Some 1.0%R /\
  Asset.restitution o = Some 0.0%R /\
  Asset.is_dynamic (Asset.metadata o) = Some false /\
  Asset.background o = false /\
  Asset.has_velocity o = true /\
  scaled_to_target o.

(** A dynamic object as its loop leaves it: the loop sets neither its
    friction nor its restitution. *)
Definition placed_dynamic (o : Asset.t) : Prop :=
  (exists id,
      Asset.friction o = Asset.friction (create id) /\
      Asset.restitution o = Asset.restitution (create id)) /\
  Asset.is_dynamic (Asset.metadata o) = Some true /\
  Asset.background o = false /\
  Asset.has_velocity o = true /\
  scaled_to_target o.
End Placement.

(** What the settle simulation may change of a scene: the state of its
    objects, but not the assets of the scene, nor which of them are
    background, nor which expose a velocity. *)
Definition settles (s1 s2 : Scene) : Prop :=
  assets s2 = assets s1 /\
  forall r,
    Asset.background (heap s2 r) = Asset.background (heap s1 r) /\
    Asset.has_velocity (heap s2 r) = Asset.has_velocity (heap s1 r).

(** The bounding-box pass leaves the background flag of every object as
    it was. *)
Definition bboxes_keep_background `{Collaborators} : Prop :=
  forall seg objs h r,
    Asset.background (compute_bboxes seg objs h r) = Asset.background (h r).

(** *** Vocabulary of the radius in double arithmetic *)

(** One unit in the last place of a double is at most [2^-52] of its
    value. *)
Definition pow_ulp : R := (/ 4503599627370496)%R.

(** The C library's [pow] is finite and accurate to one unit in the last
    place where the exact power is of moderate size, between [2^-256] and
    [2^256]. *)
Definition pow_accurate `{Libm} : Prop :=
  forall x y, (0 < x)%R -> (/ 2 ^ 256 <= Rpower x y <= 2 ^ 256)%R ->
    exists r, c_pow x y = Some r /\
              (Rabs (r - Rpower x y) <= pow_ulp * Rpower x y)%R.

(** [2^-40], the relative tolerance of the radius about its bounds. *)
Definition radius_tolerance : R := (/ 1099511627776)%R.

(** A C library whose [pow] is exact. *)
Definition exact_libm : Libm := {| c_pow := fun x y => Some (Rpower x y) |}.

(** The flags with both radius bounds at 4. *)
Definition tight_flags : Flags := mkFlags 1 24 4 4 0.3 0.5.

(** A store whose first object has no visibility entry, and one whose
    first object has an empty visibility array. *)
Definition unlabelled_store : ref -> Asset.t :=
  fun _ => @create reference_collaborators "shoe".

Definition frameless_store : ref -> Asset.t :=
  fun _ => Asset.set_visibility [] (@create reference_collaborators "shoe").

(* ===================================================================== *)
(** ** Python and NumPy lemmas *)
(* ===================================================================== *)

Lemma for_each_ok {A S : Type} (xs : list A) (body : A -> S -> result S)
    (g : A -> S -> S) (s : S) :
  (forall x s', In x xs -> body x s' = Ok (g x s')) ->
  for_each xs body s = Ok (fold_left (fun s' x => g x s') xs s).
Proof.
  revert s. induction xs as [|x xs IH]; intros s Hbody; simpl.
  - reflexivity.
  - rewrite Hbody by (left; reflexivity). simpl.
    apply IH. intros y s' Hy. apply Hbody. right; exact Hy.
Qed.

Lemma in_range (a b f : Z) : In f (Py.range a b) <-> (a <= f < b)%Z.
Proof.
  unfold Py.range. rewrite <- list_elem_of_In, elem_of_seqZ. lia.
Qed.

Lemma NoDup_range (a b : Z) : List.NoDup (Py.range a b).
Proof. apply NoDup_ListNoDup, NoDup_seqZ. Qed.

Lemma half_rng_unit : unit_draws half_rng.
Proof. intros n. simpl. lra. Qed.

(* ===================================================================== *)
(** ** The power in double arithmetic *)
(* ===================================================================== *)

Section Double_power.
Local Open Scope R_scope.

Lemma Rabs_le_between (x a : R) : Rabs x <= a -> - a <= x <= a.
Proof. unfold Rabs. destruct (Rcase_abs x); lra. Qed.

Lemma ln_2_le_1 : ln 2 <= 1.
Proof.
  rewrite <- (ln_exp 1). left. apply ln_increasing; [lra|].
  pose proof (exp_ineq1 1). lra.
Qed.

(** The logarithm of a float between [2^-64] and [2^64]. *)
Lemma ln_bounded (x : R) :
  / 2 ^ 64 <= x <= 2 ^ 64 -> - 64 <= ln x <= 64.
Proof.
  intros [Hlo Hhi].
  assert (0 < 2 ^ 64) as Hp by (apply pow_lt; lra).
  assert (0 < / 2 ^ 64) as Hip by (apply Rinv_0_lt_compat; exact Hp).
  assert (0 < x) as Hx by lra.
  assert (ln (2 ^ 64) <= 64) as Hln.
  { rewrite ln_pow by lra. rewrite INR_IZR_INZ.
    change (Z.of_nat 64) with 64%Z.
    pose proof ln_2_le_1. lra. }
  split.
  - destruct Hlo as [Hlo|Hlo].
    + apply ln_increasing in Hlo; [|exact Hip].
      rewrite ln_Rinv in Hlo by exact Hp. lra.
    + rewrite <- Hlo, ln_Rinv by exact Hp. lra.
  - destruct Hhi as [Hhi|Hhi].
    + apply ln_increasing in Hhi; [|exact Hx]. lra.
    + rewrite Hhi. lra.
Qed.

Lemma exp_le_compat (a b : R) : a <= b -> exp a <= exp b.
Proof.
  intros [Hlt | ->]; [left; apply exp_increasing; exact Hlt | right; reflexivity].
Qed.

(** The exponential of a small number. *)
Lemma exp_small (t d : R) :
  0 <= d <= 1 / 2 -> - d <= t <= d -> 1 - d <= exp t <= 1 + 2 * d.
Proof.
  intros Hd Ht. split.
  - pose proof (exp_ineq1_le t). lra.
  - pose proof (exp_ineq1_le (- t)) as Hneg. rewrite exp_Ropp in Hneg.
    pose proof (exp_pos t) as Hpos.
    assert (0 < / exp t) as Hipos by (apply Rinv_0_lt_compat; exact Hpos).
    assert (exp t * / exp t = 1) as Hinv by (apply Rinv_r; lra).
    nra.
Qed.

(** The power [1/3.] of a cube: the exponent is below one third by
    [2^-54 / 3], so that the power of [m^3] is [m ** (1 - 2^-54)]. *)
Lemma Rpower_cube_third (m : R) :
  0 < m ->
  Rpower (m ^ 3) one_third = m * exp (- / 18014398509481984 * ln m).
Proof.
  intros Hm. unfold Rpower. rewrite ln_pow by exact Hm.
  rewrite INR_IZR_INZ. change (Z.of_nat 3) with 3%Z.
  replace (one_third * (3 * ln m))
    with (ln m + - / 18014398509481984 * ln m)
    by (unfold one_third; field).
  rewrite exp_plus, exp_ln by exact Hm. reflexivity.
Qed.

Lemma cube_third_bounds (m : R) :
  / 2 ^ 64 <= m <= 2 ^ 64 ->
  m * (1 - / 281474976710656) <= Rpower (m ^ 3) one_third
  <= m * (1 + / 140737488355328).
Proof.
  intros Hm.
  assert (0 < / 2 ^ 64) as Hip by (apply Rinv_0_lt_compat, pow_lt; lra).
  assert (0 < m) as Hpos by lra.
  rewrite Rpower_cube_third by exact Hpos.
  pose proof (ln_bounded m Hm) as Hln.
  pose proof (exp_small (- / 18014398509481984 * ln m) (/ 281474976710656))
    as Hexp.
  destruct Hexp as [Hlo Hhi]; [lra|lra|].
  split.
  - apply Rmult_le_compat_l; lra.
  - apply Rmult_le_compat_l; lra.
Qed.

(** A power with an exponent between 0 and 1 lies between 1 and its
    base. *)
Lemma Rpower_toward_one (x t : R) :
  0 < x -> 0 <= t <= 1 ->
  (x <= 1 -> x <= Rpower x t <= 1) /\ (1 <= x -> 1 <= Rpower x t <= x).
Proof.
  intros Hx Ht. unfold Rpower.
  assert (exp (ln x) = x) as Hexp by (apply exp_ln; exact Hx).
  split; intros Hone.
  - assert (ln x <= 0) as Hln.
    { rewrite <- ln_1. destruct Hone as [Hlt | ->]; [|lra].
      left. apply ln_increasing; assumption. }
    split.
    + rewrite <- Hexp at 1. apply exp_le_compat. nra.
    + rewrite <- exp_0. apply exp_le_compat. nra.
  - assert (0 <= ln x) as Hln.
    { rewrite <- ln_1. destruct Hone as [Hlt | <-]; [|lra].
      left. apply ln_increasing; lra. }
    split.
    + rewrite <- exp_0. apply exp_le_compat. nra.
    + rewrite <- Hexp at 2. apply exp_le_compat. nra.
Qed.

(** The power [1/3.] of a volume between the cubes of two radii, the
    cubes taken up to one unit in the last place. *)
Lemma third_power_between (m M v : R) :
  / 2 ^ 64 <= m -> m <= M -> M <= 2 ^ 64 ->
  m ^ 3 * (1 - pow_ulp) <= v <= M ^ 3 * (1 + pow_ulp) ->
  0 < v /\
  m * (1 - / 281474976710656) * (1 - pow_ulp) <= Rpower v one_third
  <= M * (1 + / 140737488355328) * (1 + pow_ulp).
Proof.
  intros Hlo Hle Hhi [Hvlo Hvhi].
  assert (0 < / 2 ^ 64) as Hip by (apply Rinv_0_lt_compat, pow_lt; lra).
  assert (0 < m) as Hm by lra. assert (0 < M) as HM by lra.
  assert (0 < m ^ 3) as Hm3 by (apply pow_lt; exact Hm).
  assert (0 < M ^ 3) as HM3 by (apply pow_lt; exact HM).
  assert (0 < 1 - pow_ulp <= 1) as Hdown by (unfold pow_ulp; lra).
  assert (1 <= 1 + pow_ulp) as Hup by (unfold pow_ulp; lra).
  assert (0 < m ^ 3 * (1 - pow_ulp)) as Hbase
    by (apply Rmult_lt_0_compat; lra).
  assert (0 < v) as Hv by lra.
  split; [exact Hv|].
  assert (0 <= one_third <= 1) as Ht by (unfold one_third; lra).
  pose proof (cube_third_bounds m (conj Hlo (Rle_trans _ _ _ Hle Hhi)))
    as [Hmlo _].
  pose proof (cube_third_bounds M (conj (Rle_trans _ _ _ Hlo Hle) Hhi))
    as [_ HMhi].
  destruct (Rpower_toward_one (1 - pow_ulp) one_third) as [Hd _];
    [lra|exact Ht|].
  destruct (Rpower_toward_one (1 + pow_ulp) one_third) as [_ Hu];
    [lra|exact Ht|].
  specialize (Hd (proj2 Hdown)). specialize (Hu Hup).
  split.
  - apply Rle_trans with (Rpower (m ^ 3 * (1 - pow_ulp)) one_third).
    + rewrite <- Rpower_mult_distr by lra.
      apply Rmult_le_compat; lra.
    + apply Rle_Rpower_l; lra.
  - apply Rle_trans with (Rpower (M ^ 3 * (1 + pow_ulp)) one_third).
    + apply Rle_Rpower_l; lra.
    + rewrite <- Rpower_mult_distr by lra.
      assert (0 < Rpower (M ^ 3) one_third) by apply exp_pos.
      apply Rmult_le_compat; lra.
Qed.

(** [x ** y] for a positive base and an exponent that is not zero goes
    to the C library. *)
Lemma pow_positive `{Libm} (x y : R) :
  0 < x -> y <> 0 -> Py.pow x y = Py.checked_pow x y false.
Proof.
  intros Hx Hy. unfold Py.pow.
  destruct (Req_dec_T y 0) as [|_]; [contradiction|].
  destruct (Req_dec_T x 0) as [|_]; [lra|].
  destruct (Rlt_dec x 0) as [|_]; [lra|]. reflexivity.
Qed.

Lemma pow_positive_accurate `{Libm} (x y : R) :
  pow_accurate -> 0 < x -> y <> 0 ->
  / 2 ^ 256 <= Rpower x y <= 2 ^ 256 ->
  exists r, Py.pow x y = Ok (Float r) /\
            Rabs (r - Rpower x y) <= pow_ulp * Rpower x y.
Proof.
  intros Hacc Hx Hy Hrange. rewrite pow_positive by assumption.
  unfold Py.checked_pow. destruct (Req_dec_T x 1) as [->|_].
  - exists 1. split; [reflexivity|].
    unfold Rpower. rewrite ln_1, Rmult_0_r, exp_0.
    replace (1 - 1) with 0 by ring. rewrite Rabs_R0. unfold pow_ulp. lra.
  - destruct (Hacc x y Hx Hrange) as (r & -> & Hr).
    exists r. split; [reflexivity|exact Hr].
Qed.

(** With an exact library the power of a positive base is the exact
    power. *)
Lemma pow_positive_exact (x y : R) :
  0 < x -> y <> 0 -> @Py.pow exact_libm x y = Ok (Float (Rpower x y)).
Proof.
  intros Hx Hy. rewrite pow_positive by assumption.
  unfold Py.checked_pow. destruct (Req_dec_T x 1) as [->|_]; [|reflexivity].
  unfold Rpower. rewrite ln_1, Rmult_0_r, exp_0. reflexivity.
Qed.

Lemma exact_libm_accurate : @pow_accurate exact_libm.
Proof.
  intros x y Hx Hrange. exists (Rpower x y). split; [reflexivity|].
  replace (Rpower x y - Rpower x y) with 0 by ring. rewrite Rabs_R0.
  pose proof (exp_pos (y * ln x)). unfold pow_ulp, Rpower. nra.
Qed.

Lemma Rpower_cube (x : R) : 0 < x -> Rpower x 3 = x ^ 3.
Proof.
  intros Hx. rewrite <- (Rpower_pow 3 x Hx).
  rewrite INR_IZR_INZ. reflexivity.
Qed.

(** The radius of the linear orbit, where the radius flags are between
    [2^-64] and [2^64] and the C library is accurate: the cubes of the
    flags, the volume drawn between them and its power [1/3.]. *)
Lemma sample_orbit_radius `{Libm} (F : Flags) (rng : RandomState) :
  unit_draws rng -> pow_accurate ->
  / 2 ^ 64 <= min_radius F -> min_radius F <= max_radius F ->
  max_radius F <= 2 ^ 64 ->
  exists low high radius,
    Py.pow (min_radius F) 3 = Ok (Float low) /\
    Py.pow (max_radius F) 3 = Ok (Float high) /\
    Rabs (low - min_radius F ^ 3) <= pow_ulp * min_radius F ^ 3 /\
    Rabs (high - max_radius F ^ 3) <= pow_ulp * max_radius F ^ 3 /\
    Py.pow (low + (high - low) * draws rng (S (S (cursor rng)))) one_third
    = Ok (Float radius) /\
    Rabs (radius
          - Rpower (low + (high - low) * draws rng (S (S (cursor rng))))
                   one_third)
    <= pow_ulp * Rpower (low + (high - low) * draws rng (S (S (cursor rng))))
                        one_third /\
    min_radius F * (1 - radius_tolerance) <= radius
    <= max_radius F * (1 + radius_tolerance) /\
    sample_orbit F rng
    = Ok (0 + (2 * PI - 0) * draws rng (cursor rng),
          deg2rad 30 + (deg2rad 60 - deg2rad 30) * draws rng (S (cursor rng)),
          Float radius, advance 3 rng).
Proof.
  intros Hu Hacc Hlo Hle Hhi.
  set (m := min_radius F) in *. set (M := max_radius F) in *.
  assert (0 < / 2 ^ 64) as Hip by lra.
  assert (0 < m) as Hm by lra. assert (0 < M) as HM by lra.
  assert ((/ 2 ^ 64) ^ 3 <= m ^ 3) as Hm3lo by (apply pow_incr; lra).
  assert (m ^ 3 <= M ^ 3) as Hcubes by (apply pow_incr; lra).
  assert (M ^ 3 <= (2 ^ 64) ^ 3) as HM3hi by (apply pow_incr; lra).
  destruct (pow_positive_accurate m 3 Hacc Hm) as (low & Hlow & Hlowacc);
    [lra|rewrite Rpower_cube by exact Hm; lra|].
  destruct (pow_positive_accurate M 3 Hacc HM) as (high & Hhigh & Hhighacc);
    [lra|rewrite Rpower_cube by exact HM; lra|].
  rewrite Rpower_cube in Hlowacc by exact Hm.
  rewrite Rpower_cube in Hhighacc by exact HM.
  set (u := draws rng (S (S (cursor rng)))).
  assert (0 <= u < 1) as Hunit by apply Hu.
  set (v := low + (high - low) * u).
  apply Rabs_le_between in Hlowacc as Hlowb.
  apply Rabs_le_between in Hhighacc as Hhighb.
  assert (m ^ 3 * (1 - pow_ulp) <= v <= M ^ 3 * (1 + pow_ulp)) as Hv.
  { assert (0 <= pow_ulp <= 1) as Hulp by (unfold pow_ulp; lra).
    assert (m ^ 3 * (1 - pow_ulp) <= low) by lra.
    assert (m ^ 3 * (1 - pow_ulp) <= high) by nra.
    assert (low <= M ^ 3 * (1 + pow_ulp)) by nra.
    assert (high <= M ^ 3 * (1 + pow_ulp)) by lra.
    unfold v. split; nra. }
  destruct (third_power_between m M v Hlo Hle Hhi Hv) as (Hvpos & Hplo & Hphi).
  destruct (pow_positive_accurate v one_third Hacc Hvpos)
    as (radius & Hradius & Hradiusacc);
    [unfold one_third; lra|unfold pow_ulp in Hplo, Hphi; lra|].
  exists low, high, radius.
  split; [exact Hlow|]. split; [exact Hhigh|].
  split; [exact Hlowacc|]. split; [exact Hhighacc|].
  split; [exact Hradius|]. split; [exact Hradiusacc|].
  apply Rabs_le_between in Hradiusacc as Hradiusb.
  split.
  - unfold pow_ulp, radius_tolerance in *. lra.
  - unfold sample_orbit, uniform, random_sample. cbn [draws cursor].
    fold m M. rewrite Hlow, Hhigh. cbn [Py.bind Py.as_float].
    fold u. fold v. rewrite Hradius. reflexivity.
Qed.

(** A cube of a radius flag that is too large for a double makes the
    draws raise. *)
Lemma sample_orbit_overflow `{Libm} (F : Flags) (rng : RandomState) :
  0 < min_radius F -> min_radius F <> 1 -> c_pow (min_radius F) 3 = None ->
  sample_orbit F rng = Raise OverflowError.
Proof.
  intros Hpos Hne Hnone. unfold sample_orbit, uniform, random_sample.
  cbn [draws cursor]. rewrite pow_positive by lra.
  unfold Py.checked_pow. destruct (Req_dec_T (min_radius F) 1) as [|_];
    [contradiction|].
  rewrite Hnone. reflexivity.
Qed.
End Double_power.

(* ===================================================================== *)
(** ** The linear orbit of the train camera *)
(* ===================================================================== *)

Lemma theta_curr_closed_form (F : Flags) (theta : R) (f : Z) :
  num_frames F <> 0%Z ->
  theta_curr F theta f = Ok (orbit_azimuth F theta f).
Proof.
  intros Hn. unfold theta_curr, Py.truediv, orbit_azimuth.
  destruct (Z.eqb_spec (num_frames F) 0) as [|_]; [contradiction|].
  simpl. f_equal. rewrite mult_IZR. simpl. lra.
Qed.

(** *** The keyframe log *)

Section Keyframe_log.
Context `{Collaborators}.

Lemma keyframes_fold_commit (pose : Z -> Vec3) (xs : list Z) (c : Camera.t) :
  Camera.keyframes (fold_left (fun c' f => commit_pose (pose f) f c') xs c)
  = pose_log (List.map (fun f => (f, pose f)) xs) (Camera.keyframes c).
Proof.
  revert c. induction xs as [|f xs IH]; intros c; simpl.
  - reflexivity.
  - rewrite IH. reflexivity.
Qed.

Lemma matches_other_frame (m m' : string) (f f' : Z) (v : value) :
  f' <> f -> keyframe_matches m f (m', f', v) = false.
Proof.
  intros Hne. unfold keyframe_matches. simpl.
  destruct (Z.eqb_spec f' f) as [|_]; [contradiction|].
  apply andb_false_r.
Qed.

Lemma filter_pose_log_other (m : string) (f : Z) (poses : list (Z * Vec3))
    (log : list Keyframe) :
  ~ In f (List.map fst poses) ->
  List.filter (keyframe_matches m f) (pose_log poses log)
  = List.filter (keyframe_matches m f) log.
Proof.
  revert log. induction poses as [|[f' p'] poses IH]; intros log Hnot; simpl.
  - reflexivity.
  - simpl in Hnot. rewrite IH by tauto. simpl.
    rewrite !matches_other_frame by tauto. reflexivity.
Qed.

Lemma filter_pose_log_position (f : Z) (p : Vec3) (poses : list (Z * Vec3))
    (log : list Keyframe) :
  List.NoDup (List.map fst poses) -> In (f, p) poses ->
  List.filter (keyframe_matches "position" f) (pose_log poses log)
  = ("position"%string, f, VVec3 p)
    :: List.filter (keyframe_matches "position" f) log.
Proof.
  revert log. induction poses as [|[f' p'] poses IH]; intros log Hnd Hin.
  - destruct Hin.
  - simpl in Hnd. apply List.NoDup_cons_iff in Hnd as [Hfresh Hnd].
    destruct Hin as [Heq|Hin].
    + inversion Heq; subst f' p'. simpl.
      rewrite filter_pose_log_other by exact Hfresh. simpl.
      unfold keyframe_matches at 1 2. simpl. rewrite Z.eqb_refl. reflexivity.
    + assert (f' <> f) as Hne.
      { intros ->. apply Hfresh. apply (in_map fst) in Hin. exact Hin. }
      simpl. rewrite (IH _ Hnd Hin). simpl.
      rewrite !matches_other_frame by exact Hne. reflexivity.
Qed.

Lemma filter_pose_log_quaternion (f : Z) (p : Vec3)
    (poses : list (Z * Vec3)) (log : list Keyframe) :
  List.NoDup (List.map fst poses) -> In (f, p) poses ->
  List.filter (keyframe_matches "quaternion" f) (pose_log poses log)
  = ("quaternion"%string, f, VQuat (look_at_quaternion p (0, 0, 0)%R))
    :: List.filter (keyframe_matches "quaternion" f) log.
Proof.
  revert log. induction poses as [|[f' p'] poses IH]; intros log Hnd Hin.
  - destruct Hin.
  - simpl in Hnd. apply List.NoDup_cons_iff in Hnd as [Hfresh Hnd].
    destruct Hin as [Heq|Hin].
    + inversion Heq; subst f' p'. simpl.
      rewrite filter_pose_log_other by exact Hfresh. simpl.
      unfold keyframe_matches at 1 2. simpl. rewrite Z.eqb_refl. reflexivity.
    + assert (f' <> f) as Hne.
      { intros ->. apply Hfresh. apply (in_map fst) in Hin. exact Hin. }
      simpl. rewrite (IH _ Hnd Hin). simpl.
      rewrite !matches_other_frame by exact Hne. reflexivity.
Qed.

Lemma find_filter {A : Type} (P : A -> bool) (l : list A) :
  List.find P l = List.hd_error (List.filter P l).
Proof.
  induction l as [|x l IH]; simpl; [reflexivity|].
  destruct (P x); [reflexivity|exact IH].
Qed.

Lemma keyframe_at_filter (m : string) (f : Z) (c : Camera.t) :
  keyframe_at m f c
  = option_map snd
      (List.hd_error (List.filter (keyframe_matches m f) (Camera.keyframes c))).
Proof.
  unfold keyframe_at. rewrite find_filter.
  destruct (List.hd_error _); reflexivity.
Qed.

Lemma keyframe_commits_filter (m : string) (f : Z) (c : Camera.t) :
  keyframe_commits m f c
  = List.length (List.filter (keyframe_matches m f) (Camera.keyframes c)).
Proof. reflexivity. Qed.

Lemma orbit_body_commit (F : Flags) (theta phi radius : R) (f : Z)
    (c : Camera.t) :
  num_frames F <> 0%Z ->
  orbit_body F theta phi radius f c
  = Ok (commit_pose (xyz_curr (orbit_azimuth F theta f) phi radius) f c).
Proof.
  intros Hn. unfold orbit_body.
  rewrite (theta_curr_closed_form F theta f Hn). reflexivity.
Qed.

Lemma linear_orbit_log (F : Flags) (theta phi radius : R) (c : Camera.t) :
  num_frames F <> 0%Z ->
  exists c',
    linear_orbit F theta phi radius c = Ok c' /\
    Camera.keyframes c'
    = pose_log
        (List.map (fun f => (f, xyz_curr (orbit_azimuth F theta f) phi radius))
                  (padded_range F))
        (Camera.keyframes c).
Proof.
  intros Hn. unfold linear_orbit.
  rewrite (for_each_ok _ _
             (fun f => commit_pose
                         (xyz_curr (orbit_azimuth F theta f) phi radius) f)).
  - eexists. split; [reflexivity|]. apply keyframes_fold_commit.
  - intros f c' _. apply orbit_body_commit. exact Hn.
Qed.

Lemma map_fst_graph {A : Type} (g : Z -> A) (xs : list Z) :
  List.map fst (List.map (fun f => (f, g f)) xs) = xs.
Proof.
  induction xs as [|x xs IH]; simpl; [reflexivity|]. rewrite IH. reflexivity.
Qed.

Lemma in_padded_range (F : Flags) (f : Z) :
  In f (padded_range F) <-> (frame_start F - 1 <= f <= frame_end F + 1)%Z.
Proof. unfold padded_range. rewrite in_range. lia. Qed.

End Keyframe_log.

(** C1, as stated, fails: with the default frames 1 to 24 and a start
    azimuth of 0, the azimuth keyframed at frame 1, the first requested
    frame, is not [0 + (1 - 1) * 2 * pi / 24]. *)
Lemma azimuth_at_first_frame_is_advanced :
  exists th,
    theta_curr default_flags 0 1 = Ok th /\
    th <> (0 + IZR (1 - frame_start default_flags) * (2 * PI)
             / IZR (num_frames default_flags))%R.
Proof.
  exists (orbit_azimuth default_flags 0 1). split.
  - apply theta_curr_closed_form. cbv. discriminate.
  - unfold orbit_azimuth. cbn [frame_start default_flags].
    replace (num_frames default_flags) with 24%Z by reflexivity.
    replace (1 - 1 + 1)%Z with 1%Z by reflexivity.
    replace (1 - 1)%Z with 0%Z by reflexivity.
    pose proof PI_RGT_0 as Hpi. lra.
Qed.

(** C1 (amended): in the linear orbit over a frame range with
    [start <= end], for every frame [f] of the padded range
    [[start - 1, end + 1]] the keyframed azimuth is
    [theta + (f - start + 1) * 2 * pi / num_frames], so that the orbit
    starts from [theta] at the first padded frame, and the position
    keyframed at [f] has this azimuth and the same elevation [phi] and
    radius at every frame. *)
Theorem linear_orbit_azimuth `{Collaborators} (F : Flags)
    (theta phi radius : R) (c : Camera.t) :
  (frame_start F <= frame_end F)%Z ->
  exists c',
    linear_orbit F theta phi radius c = Ok c' /\
    forall f, (frame_start F - 1 <= f <= frame_end F + 1)%Z ->
      let th := (theta + IZR (f - frame_start F + 1) * (2 * PI)
                         / IZR (num_frames F))%R in
      theta_curr F theta f = Ok th /\
      phi_curr phi f = phi /\
      keyframe_at "position" f c' = Some (VVec3 (xyz_curr th phi radius)).
Proof.
  intros Hrange.
  assert (num_frames F <> 0%Z) as Hn by (unfold num_frames; lia).
  destruct (linear_orbit_log F theta phi radius c Hn) as (c' & Hrun & Hlog).
  exists c'. split; [exact Hrun|]. intros f Hf th.
  split; [|split].
  - apply theta_curr_closed_form. exact Hn.
  - reflexivity.
  - rewrite keyframe_at_filter, Hlog.
    rewrite (filter_pose_log_position f (xyz_curr th phi radius)).
    + reflexivity.
    + rewrite map_fst_graph. apply NoDup_range.
    + apply in_map_iff. exists f. split; [reflexivity|].
      apply in_padded_range. exact Hf.
Qed.

Lemma linear_orbit_azimuth_witness :
  (frame_start default_flags <= frame_end default_flags)%Z /\
  exists c',
    @linear_orbit reference_collaborators default_flags 0 (PI / 4) 15
                  (@PerspectiveCamera reference_collaborators 35 32) = Ok c' /\
    forall f, (frame_start default_flags - 1 <= f
               <= frame_end default_flags + 1)%Z ->
      let th := (0 + IZR (f - frame_start default_flags + 1) * (2 * PI)
                     / IZR (num_frames default_flags))%R in
      theta_curr default_flags 0 f = Ok th /\
      phi_curr (PI / 4) f = (PI / 4)%R /\
      keyframe_at "position" f c' = Some (VVec3 (xyz_curr th (PI / 4) 15)).
Proof.
  split.
  - simpl. lia.
  - apply (@linear_orbit_azimuth reference_collaborators default_flags).
    simpl. lia.
Defined.

(** C7: over a frame range with [start <= end] the linear orbit keyframes,
    at every frame of the padded range, the position of the azimuth
    [theta_curr] of that frame; this keyframed azimuth is strictly
    increasing in the frame index, the azimuth of the last requested frame
    exceeds that of the first by [2 * pi * (num_frames - 1) / num_frames],
    and the frame after the last completes the revolution of [2 * pi]. *)
Theorem linear_orbit_azimuth_increasing `{Collaborators} (F : Flags)
    (theta phi radius : R) (c : Camera.t) :
  (frame_start F <= frame_end F)%Z ->
  exists c' (azimuth : Z -> R),
    linear_orbit F theta phi radius c = Ok c' /\
    (forall f, (frame_start F - 1 <= f <= frame_end F + 1)%Z ->
       theta_curr F theta f = Ok (azimuth f) /\
       keyframe_at "position" f c'
       = Some (VVec3 (xyz_curr (azimuth f) phi radius))) /\
    (forall f g, (frame_start F - 1 <= f)%Z -> (f < g)%Z ->
                 (g <= frame_end F + 1)%Z ->
       (azimuth f < azimuth g)%R) /\
    (azimuth (frame_end F) - azimuth (frame_start F)
     = 2 * PI * IZR (num_frames F - 1) / IZR (num_frames F))%R /\
    (azimuth (frame_end F + 1)%Z - azimuth (frame_start F) = 2 * PI)%R.
Proof.
  intros Hrange.
  assert (0 < num_frames F)%Z as Hpos by (unfold num_frames; lia).
  assert (num_frames F <> 0%Z) as Hn by lia.
  assert (0 < IZR (num_frames F))%R as HposR by (apply IZR_lt; exact Hpos).
  pose proof PI_RGT_0 as Hpi.
  destruct (linear_orbit_log F theta phi radius c Hn) as (c' & Hrun & Hlog).
  exists c', (orbit_azimuth F theta). split; [exact Hrun|].
  split; [|split; [|split]].
  - intros f Hf. split; [apply theta_curr_closed_form; exact Hn|].
    rewrite keyframe_at_filter, Hlog.
    rewrite (filter_pose_log_position f
               (xyz_curr (orbit_azimuth F theta f) phi radius)).
    + reflexivity.
    + rewrite map_fst_graph. apply NoDup_range.
    + apply in_map_iff. exists f. split; [reflexivity|].
      apply in_padded_range. exact Hf.
  - intros f g _ Hfg _. unfold orbit_azimuth.
    assert (IZR (f - frame_start F + 1) < IZR (g - frame_start F + 1))%R as Hlt
      by (apply IZR_lt; lia).
    apply Rplus_lt_compat_l. unfold Rdiv.
    apply Rmult_lt_compat_r; [apply Rinv_0_lt_compat; exact HposR|].
    apply Rmult_lt_compat_r; [lra|exact Hlt].
  - unfold orbit_azimuth.
    replace (frame_start F - frame_start F + 1)%Z with 1%Z by lia.
    replace (frame_end F - frame_start F + 1)%Z with (num_frames F)
      by reflexivity.
    rewrite minus_IZR. field. lra.
  - unfold orbit_azimuth.
    replace (frame_start F - frame_start F + 1)%Z with 1%Z by lia.
    replace (frame_end F + 1 - frame_start F + 1)%Z with (num_frames F + 1)%Z
      by (unfold num_frames; lia).
    rewrite plus_IZR. field. lra.
Qed.

Lemma linear_orbit_azimuth_increasing_witness :
  (frame_start default_flags <= frame_end default_flags)%Z /\
  exists c' (azimuth : Z -> R),
    @linear_orbit reference_collaborators default_flags 0 (PI / 4) 15
                  (@PerspectiveCamera reference_collaborators 35 32) = Ok c' /\
    keyframe_at "position" 1 c'
    = Some (VVec3 (xyz_curr (azimuth 1%Z) (PI / 4) 15)) /\
    keyframe_at "position" 24 c'
    = Some (VVec3 (xyz_curr (azimuth 24%Z) (PI / 4) 15)) /\
    (azimuth 1%Z < azimuth 24%Z)%R /\
    (azimuth 24%Z - azimuth 1%Z = 2 * PI * 23 / 24)%R.
Proof.
  assert (frame_start default_flags <= frame_end default_flags)%Z as Hrange
    by (simpl; lia).
  split; [exact Hrange|].
  destruct (@linear_orbit_azimuth_increasing reference_collaborators
              default_flags 0%R (PI / 4)%R 15%R
              (@PerspectiveCamera reference_collaborators 35 32) Hrange)
    as (c' & azimuth & Hrun & Hkey & Hincr & Hspan & _).
  exists c', azimuth. split; [exact Hrun|].
  split; [apply (Hkey 1%Z); simpl; lia|].
  split; [apply (Hkey 24%Z); simpl; lia|].
  split; [apply (Hincr 1%Z 24%Z); simpl; lia|].
  exact Hspan.
Defined.

(** C6, as stated, fails: with both radius bounds at 4 the volume drawn
    is 64 and the radius is [64.0 ** (1/3.)], which is below
    [min_radius] even where the power is exact, the exponent [1/3.]
    being below one third. *)
Lemma radius_below_min_radius :
  exists theta phi radius rng',
    @sample_orbit exact_libm tight_flags half_rng
    = Ok (theta, phi, Float radius, rng') /\
    (radius < min_radius tight_flags)%R.
Proof.
  assert (Rpower 4 3 = 4 ^ 3)%R as Hcube by (apply Rpower_cube; lra).
  assert (0 < 4 ^ 3)%R as Hpos by lra.
  do 4 eexists. split.
  - unfold sample_orbit, uniform, random_sample.
    cbn [draws cursor half_rng min_radius max_radius tight_flags].
    rewrite (pow_positive_exact 4 3) by lra.
    cbn [Py.bind Py.as_float]. rewrite Hcube.
    replace (4 ^ 3 + (4 ^ 3 - 4 ^ 3) * (1 / 2))%R with (4 ^ 3)%R by ring.
    rewrite (pow_positive_exact (4 ^ 3) one_third);
      [reflexivity|exact Hpos|unfold one_third; lra].
  - cbn [min_radius tight_flags]. rewrite Rpower_cube_third by lra.
    assert (0 < ln 4)%R as Hln.
    { rewrite <- ln_1. apply ln_increasing; lra. }
    assert (exp (- / 18014398509481984 * ln 4) < 1)%R as Hexp.
    { rewrite <- exp_0. apply exp_increasing. nra. }
    nra.
Qed.

(** C6 (amended): the radius of the linear orbit is the power [1/3.] of a
    volume drawn uniformly between the cubes of the radius flags, the
    third draw of the generator mapped affinely between [min_radius ** 3]
    and [max_radius ** 3]: uniform in volume, not in radius. The cubes and
    the power are doubles, and [1/3.] is below one third: where the
    radius flags are between [2^-64] and [2^64] and the power of the C
    library is accurate to one unit in the last place, the radius lies
    within the relative tolerance [2^-40] of the interval
    [[min_radius, max_radius]], not always in it. *)
Theorem radius_uniform_in_volume `{Libm} (F : Flags) (rng : RandomState) :
  unit_draws rng -> pow_accurate ->
  (/ 2 ^ 64 <= min_radius F)%R -> (min_radius F <= max_radius F)%R ->
  (max_radius F <= 2 ^ 64)%R ->
  exists theta phi low high radius,
    sample_orbit F rng = Ok (theta, phi, Float radius, advance 3 rng) /\
    Py.pow (min_radius F) 3 = Ok (Float low) /\
    Py.pow (max_radius F) 3 = Ok (Float high) /\
    (Rabs (low - min_radius F ^ 3) <= pow_ulp * min_radius F ^ 3)%R /\
    (Rabs (high - max_radius F ^ 3) <= pow_ulp * max_radius F ^ 3)%R /\
    let volume := (low + (high - low) * draws rng (cursor rng + 2))%R in
    Py.pow volume one_third = Ok (Float radius) /\
    (Rabs (radius - Rpower volume one_third)
     <= pow_ulp * Rpower volume one_third)%R /\
    (min_radius F * (1 - radius_tolerance) <= radius
     <= max_radius F * (1 + radius_tolerance))%R.
Proof.
  intros Hu Hacc Hlo Hle Hhi.
  destruct (sample_orbit_radius F rng Hu Hacc Hlo Hle Hhi)
    as (low & high & radius & Hlow & Hhigh & Hlowacc & Hhighacc & Hradius
        & Hradiusacc & Hbounds & Hrun).
  replace (S (S (cursor rng))) with (cursor rng + 2)%nat in * by lia.
  do 2 eexists. exists low, high, radius.
  split; [exact Hrun|]. split; [exact Hlow|]. split; [exact Hhigh|].
  split; [exact Hlowacc|]. split; [exact Hhighacc|].
  cbv zeta. split; [exact Hradius|]. split; [exact Hradiusacc|exact Hbounds].
Qed.

Lemma radius_uniform_in_volume_witness :
  unit_draws half_rng /\ @pow_accurate exact_libm /\
  (/ 2 ^ 64 <= min_radius default_flags)%R /\
  (min_radius default_flags <= max_radius default_flags)%R /\
  (max_radius default_flags <= 2 ^ 64)%R /\
  exists theta phi radius,
    @sample_orbit exact_libm default_flags half_rng
    = Ok (theta, phi, Float radius, advance 3 half_rng) /\
    (15 * (1 - radius_tolerance) <= radius <= 20 * (1 + radius_tolerance))%R.
Proof.
  assert (/ 2 ^ 64 <= min_radius default_flags)%R as Hlo by (simpl; lra).
  assert (min_radius default_flags <= max_radius default_flags)%R as Hle
    by (simpl; lra).
  assert (max_radius default_flags <= 2 ^ 64)%R as Hhi by (simpl; lra).
  split; [exact half_rng_unit|]. split; [exact exact_libm_accurate|].
  split; [exact Hlo|]. split; [exact Hle|]. split; [exact Hhi|].
  destruct (@radius_uniform_in_volume exact_libm default_flags half_rng
              half_rng_unit exact_libm_accurate Hlo Hle Hhi)
    as (theta & phi & low & high & radius & Hrun & _ & _ & _ & _ & _ & _
        & Hbounds).
  exists theta, phi, radius. split; [exact Hrun|exact Hbounds].
Defined.

(* ===================================================================== *)
(** ** The fixed list of camera positions of the gso script *)
(* ===================================================================== *)

Lemma getitem_nth {A : Type} (l : list A) (i : Z) (d : A) :
  (0 <= i < Z.of_nat (List.length l))%Z ->
  Py.getitem l i = Ok (List.nth (Z.to_nat i) l d).
Proof.
  intros Hi. unfold Py.getitem.
  destruct (Z.ltb_spec i 0) as [|_]; [lia|].
  destruct (Z.leb_spec 0 i) as [_|]; [|lia].
  destruct (Z.ltb_spec i (Z.of_nat (List.length l))) as [_|]; [|lia].
  simpl.
  destruct (l !! Z.to_nat i) as [x|] eqn:Hl.
  - f_equal. symmetry. apply nth_lookup_Some with (d := d) in Hl. exact Hl.
  - apply lookup_ge_None in Hl. lia.
Qed.

Section Fixed_list.
Context `{Collaborators}.

Lemma set_cameras_log (sync_dreamer_camera : list Vec3) (s : Scene) :
  List.length sync_dreamer_camera = 16%nat ->
  exists s',
    Gso.set_cameras sync_dreamer_camera s = Ok s' /\
    heap s' = heap s /\ next_ref s' = next_ref s /\ assets s' = assets s /\
    Camera.keyframes (camera s')
    = pose_log
        (List.map (fun f => (f, listed_position sync_dreamer_camera f))
                  (Py.range 1 23))
        [].
Proof.
  intros Hlen. unfold Gso.set_cameras.
  rewrite (for_each_ok _ _
             (fun f => commit_pose (listed_position sync_dreamer_camera f) f)).
  - cbn [Py.bind]. eexists. split; [reflexivity|].
    unfold set_camera. cbn [heap next_ref assets camera].
    repeat (split; [reflexivity|]).
    rewrite keyframes_fold_commit, PerspectiveCamera_keyframes.
    reflexivity.
  - intros f c Hf. apply in_range in Hf. unfold Gso.set_cameras_body.
    rewrite (getitem_nth _ _ (0, 0, 0)%R).
    + reflexivity.
    + rewrite length_app, Hlen. simpl. lia.
Qed.
End Fixed_list.

(** C4, as stated, fails on the fixed list of the gso script: for its
    frame range [[1, 22]] the frames 0 and 23 of the padded range get no
    pose, nor does frame 24 of a longer range. *)
Lemma set_cameras_leaves_the_pad_unkeyed :
  exists s',
    @Gso.set_cameras reference_collaborators (List.repeat (0, 0, 1)%R 16)
      (mkScene (fun _ => @create reference_collaborators "") 0%nat []
               (@PerspectiveCamera reference_collaborators 35 32) None)
    = Ok s' /\
    keyframe_at "position" (1 - 1) (camera s') = None /\
    keyframe_at "position" (22 + 1) (camera s') = None /\
    keyframe_at "position" 24 (camera s') = None.
Proof.
  destruct (@set_cameras_log reference_collaborators (List.repeat (0, 0, 1)%R 16)
              (mkScene (fun _ => @create reference_collaborators "") 0%nat []
                       (@PerspectiveCamera reference_collaborators 35 32) None))
    as (s' & Hrun & _ & _ & _ & Hlog); [reflexivity|].
  exists s'. split; [exact Hrun|].
  rewrite !keyframe_at_filter, Hlog.
  repeat split.
  all: rewrite filter_pose_log_other; [reflexivity|].
  all: rewrite map_fst_graph, in_range; lia.
Qed.

(** C4 (amended): the linear orbit of the multicapture script, over a
    frame range with [start <= end] and on a new camera, commits exactly
    one position keyframe and one quaternion keyframe at every frame index
    of the padded range [[start - 1, end + 1]] and none at any other
    frame; [set_cameras] of the gso script commits exactly one position
    keyframe and one quaternion keyframe at each of the frame indices 1 to
    22, the position being the entry of that index in its list of 22
    positions, and none at any other frame, whatever the frame range; in
    both, the quaternion keyframed at a frame is the orientation that
    faces the target (0, 0, 0) from the position keyframed at that
    frame. *)
Theorem one_pose_per_frame `{Collaborators} :
  (forall (F : Flags) (theta phi radius : R),
     (frame_start F <= frame_end F)%Z ->
     exists c',
       linear_orbit F theta phi radius (PerspectiveCamera 35 32) = Ok c' /\
       forall f,
         ((frame_start F - 1 <= f <= frame_end F + 1)%Z ->
          exists p,
            List.filter (keyframe_matches "position" f) (Camera.keyframes c')
            = [("position"%string, f, VVec3 p)] /\
            List.filter (keyframe_matches "quaternion" f) (Camera.keyframes c')
            = [("quaternion"%string, f,
                VQuat (look_at_quaternion p (0, 0, 0)%R))]) /\
         (~ (frame_start F - 1 <= f <= frame_end F + 1)%Z ->
          keyframe_commits "position" f c' = 0%nat /\
          keyframe_commits "quaternion" f c' = 0%nat)) /\
  (forall (sync_dreamer_camera : list Vec3) (s : Scene),
     List.length sync_dreamer_camera = 16%nat ->
     exists s',
       Gso.set_cameras sync_dreamer_camera s = Ok s' /\
       forall f,
         ((1 <= f <= 22)%Z ->
          exists p,
            (sync_dreamer_camera ++ Gso.get_zero123pp_camera)
              !! Z.to_nat (f - 1) = Some p /\
            List.filter (keyframe_matches "position" f)
                        (Camera.keyframes (camera s'))
            = [("position"%string, f, VVec3 p)] /\
            List.filter (keyframe_matches "quaternion" f)
                        (Camera.keyframes (camera s'))
            = [("quaternion"%string, f,
                VQuat (look_at_quaternion p (0, 0, 0)%R))]) /\
         (~ (1 <= f <= 22)%Z ->
          keyframe_commits "position" f (camera s') = 0%nat /\
          keyframe_commits "quaternion" f (camera s') = 0%nat)).
Proof.
  split.
  - intros F theta phi radius Hrange.
    assert (num_frames F <> 0%Z) as Hn by (unfold num_frames; lia).
    destruct (linear_orbit_log F theta phi radius (PerspectiveCamera 35 32) Hn)
      as (c' & Hrun & Hlog).
    rewrite PerspectiveCamera_keyframes in Hlog.
    exists c'. split; [exact Hrun|]. intros f. split.
    + intros Hf.
      set (p := xyz_curr (orbit_azimuth F theta f) phi radius).
      exists p.
      assert (In (f, p)
                 (List.map (fun f => (f, xyz_curr (orbit_azimuth F theta f)
                                                  phi radius))
                           (padded_range F))) as Hin.
      { apply in_map_iff. exists f. split; [reflexivity|].
        apply in_padded_range. exact Hf. }
      rewrite Hlog. split.
      * rewrite (filter_pose_log_position f p); [reflexivity| |exact Hin].
        rewrite map_fst_graph. apply NoDup_range.
      * rewrite (filter_pose_log_quaternion f p); [reflexivity| |exact Hin].
        rewrite map_fst_graph. apply NoDup_range.
    + intros Hf. rewrite !keyframe_commits_filter, Hlog.
      rewrite !filter_pose_log_other; [split; reflexivity| |].
      all: rewrite map_fst_graph, in_padded_range; exact Hf.
  - intros sync s Hlen.
    destruct (set_cameras_log sync s Hlen) as (s' & Hrun & _ & _ & _ & Hlog).
    exists s'. split; [exact Hrun|]. intros f. split.
    + intros Hf. set (p := listed_position sync f). exists p.
      assert (In (f, p)
                 (List.map (fun f => (f, listed_position sync f))
                           (Py.range 1 23))) as Hin.
      { apply in_map_iff. exists f. split; [reflexivity|].
        apply in_range. lia. }
      rewrite Hlog. split; [|split].
      * unfold p, listed_position.
        destruct (nth_lookup_or_length
                    (sync ++ Gso.get_zero123pp_camera) (Z.to_nat (f - 1))
                    (0, 0, 0)%R) as [Hsome|Hlong]; [exact Hsome|].
        rewrite length_app, Hlen in Hlong. simpl in Hlong. lia.
      * rewrite (filter_pose_log_position f p); [reflexivity| |exact Hin].
        rewrite map_fst_graph. apply NoDup_range.
      * rewrite (filter_pose_log_quaternion f p); [reflexivity| |exact Hin].
        rewrite map_fst_graph. apply NoDup_range.
    + intros Hf. rewrite !keyframe_commits_filter, Hlog.
      rewrite !filter_pose_log_other; [split; reflexivity| |].
      all: rewrite map_fst_graph, in_range; lia.
Qed.

Lemma one_pose_per_frame_witness :
  (frame_start default_flags <= frame_end default_flags)%Z /\
  List.length (List.repeat (0, 0, 1)%R 16) = 16%nat /\
  (exists c',
     @linear_orbit reference_collaborators default_flags 0 (PI / 4) 15
                   (@PerspectiveCamera reference_collaborators 35 32) = Ok c' /\
     keyframe_commits "position" 0 c' = 1%nat /\
     keyframe_commits "quaternion" 25 c' = 1%nat /\
     keyframe_commits "position" 26 c' = 0%nat) /\
  (exists s',
     @Gso.set_cameras reference_collaborators (List.repeat (0, 0, 1)%R 16)
                      empty_scene = Ok s' /\
     keyframe_commits "position" 1 (camera s') = 1%nat /\
     keyframe_commits "quaternion" 22 (camera s') = 1%nat /\
     keyframe_commits "position" 0 (camera s') = 0%nat).
Proof.
  assert (frame_start default_flags <= frame_end default_flags)%Z as Hrange
    by (simpl; lia).
  split; [exact Hrange|]. split; [reflexivity|].
  destruct (@one_pose_per_frame reference_collaborators) as [Horbit Hlist].
  split.
  - destruct (Horbit default_flags 0%R (PI / 4)%R 15%R Hrange) as (c' & Hrun & Hc').
    exists c'. split; [exact Hrun|].
    destruct (proj1 (Hc' 0%Z)) as (p0 & Hp0 & _); [simpl; lia|].
    destruct (proj1 (Hc' 25%Z)) as (p25 & _ & Hq25); [simpl; lia|].
    destruct (proj2 (Hc' 26%Z)) as (Hnone & _); [simpl; lia|].
    unfold keyframe_commits at 1 2. rewrite Hp0, Hq25.
    split; [reflexivity|]. split; [reflexivity|exact Hnone].
  - destruct (Hlist (List.repeat (0, 0, 1)%R 16) empty_scene eq_refl)
      as (s' & Hrun & Hs').
    exists s'. split; [exact Hrun|].
    destruct (proj1 (Hs' 1%Z)) as (p1 & _ & Hp1 & _); [lia|].
    destruct (proj1 (Hs' 22%Z)) as (p22 & _ & _ & Hq22); [lia|].
    destruct (proj2 (Hs' 0%Z)) as (Hnone & _); [lia|].
    unfold keyframe_commits at 1 2. rewrite Hp1, Hq22.
    split; [reflexivity|]. split; [reflexivity|exact Hnone].
Defined.

(* ===================================================================== *)
(** ** The two loops over the test camera *)
(* ===================================================================== *)

Section Test_camera.
Context `{Collaborators}.

Lemma map_fst_poses_from (pose : nat -> Vec3) (i : nat) (xs : list Z) :
  List.map fst (poses_from pose i xs) = xs.
Proof.
  revert i. induction xs as [|f xs IH]; intros i; simpl; [reflexivity|].
  rewrite IH. reflexivity.
Qed.

Lemma in_poses_from (pose : nat -> Vec3) (i j : nat) (xs : list Z) (f : Z) :
  xs !! j = Some f -> In (f, pose (i + j)%nat) (poses_from pose i xs).
Proof.
  revert i j. induction xs as [|x xs IH]; intros i j Hj.
  - discriminate.
  - destruct j as [|j]; simpl in Hj.
    + inversion Hj; subst. left. rewrite Nat.add_0_r. reflexivity.
    + right. replace (i + S j)%nat with (S i + j)%nat by lia.
      apply IH. exact Hj.
Qed.

Lemma random_loop_log (phi radius : R) (xs : list Z) (c : Camera.t)
    (rng : RandomState) (i : nat) (rng0 : RandomState) :
  rng = advance i rng0 ->
  exists c',
    for_each xs (random_lookat_body phi radius) (c, rng)
    = Ok (c', advance (List.length xs + i) rng0) /\
    Camera.keyframes c'
    = pose_log (poses_from (azimuth_pose phi radius rng0) i xs)
               (Camera.keyframes c).
Proof.
  revert c rng i. induction xs as [|f xs IH]; intros c rng i Hrng.
  - exists c. subst rng. split; reflexivity.
  - subst rng.
    destruct (IH (commit_pose (azimuth_pose phi radius rng0 i) f c)
                 (advance (S i) rng0) (S i) eq_refl) as (c' & Hrun & Hlog).
    exists c'. split.
    + cbn [for_each]. unfold random_lookat_body at 1.
      unfold uniform, random_sample, advance. cbn [draws cursor Py.bind].
      unfold azimuth_pose, phi_curr in Hrun.
      replace (cursor rng0 + i)%nat with (i + cursor rng0)%nat in Hrun by lia.
      unfold advance in Hrun. cbn [Py.bind].
      replace (List.length (f :: xs) + i)%nat
        with (List.length xs + S i)%nat by (simpl; lia).
      exact Hrun.
    + rewrite Hlog. reflexivity.
Qed.

Lemma shell_loop_log (F : Flags) (xs : list Z) (c : Camera.t)
    (calls i : nat) :
  exists c',
    for_each xs (shell_body F) (c, (calls + i)%nat)
    = Ok (c', (calls + (List.length xs + i))%nat) /\
    Camera.keyframes c'
    = pose_log (poses_from (shell_pose F calls) i xs) (Camera.keyframes c).
Proof.
  revert c i. induction xs as [|f xs IH]; intros c i.
  - exists c. split; reflexivity.
  - destruct (IH (commit_pose (shell_pose F calls i) f c) (S i))
      as (c' & Hrun & Hlog).
    exists c'. split.
    + cbn [for_each]. unfold shell_body at 1. cbn [Py.bind].
      replace (S (calls + i)) with (calls + S i)%nat by lia.
      replace (List.length (f :: xs) + i)%nat
        with (List.length xs + S i)%nat by (simpl; lia).
      exact Hrun.
    + rewrite Hlog. reflexivity.
Qed.

Lemma padded_range_lookup (F : Flags) (f : Z) :
  (frame_start F - 1 <= f <= frame_end F + 1)%Z ->
  padded_range F !! Z.to_nat (f - (frame_start F - 1)) = Some f.
Proof.
  intros Hf. unfold padded_range, Py.range.
  rewrite lookup_seqZ_lt by lia. f_equal. lia.
Qed.
End Test_camera.

(** C9: in the camera block of the test scene every frame index of the
    padded range gets a position keyframe and a quaternion keyframe
    twice: first the pose of the random azimuth, then, over the same
    range, the point sampled in the half-sphere shell; the keyframe the
    renderer reads at every frame is the one of the shell point, never
    the one of the random azimuth. *)
Theorem test_camera_keyed_twice `{Collaborators} (F : Flags) (phi radius : R)
    (rng : RandomState) (calls : nat) (s : Scene) :
  exists s' rng' calls',
    test_camera F phi radius rng calls s = Ok (s', rng', calls') /\
    forall f, (frame_start F - 1 <= f <= frame_end F + 1)%Z ->
      let i := Z.to_nat (f - (frame_start F - 1)) in
      let first := azimuth_pose phi radius rng i in
      let second := shell_pose F calls i in
      List.filter (keyframe_matches "position" f) (Camera.keyframes (camera s'))
      = [("position"%string, f, VVec3 second);
         ("position"%string, f, VVec3 first)] /\
      List.filter (keyframe_matches "quaternion" f)
                  (Camera.keyframes (camera s'))
      = [("quaternion"%string, f,
          VQuat (look_at_quaternion second (0, 0, 0)%R));
         ("quaternion"%string, f,
          VQuat (look_at_quaternion first (0, 0, 0)%R))] /\
      keyframe_at "position" f (camera s') = Some (VVec3 second) /\
      keyframe_at "quaternion" f (camera s')
      = Some (VQuat (look_at_quaternion second (0, 0, 0)%R)).
Proof.
  unfold test_camera.
  destruct (random_loop_log phi radius (padded_range F)
              (PerspectiveCamera 35 32) rng 0 rng) as (c1 & Hrun1 & Hlog1).
  { destruct rng; reflexivity. }
  destruct (shell_loop_log F (padded_range F) c1 calls 0) as (c2 & Hrun2 & Hlog2).
  rewrite Nat.add_0_r in Hrun2.
  cbn [set_camera camera]. rewrite Hrun1. cbn [Py.bind]. rewrite Hrun2.
  cbn [Py.bind]. do 3 eexists. split; [reflexivity|].
  intros f Hf.
  set (i := Z.to_nat (f - (frame_start F - 1))).
  set (first := azimuth_pose phi radius rng i).
  set (second := shell_pose F calls i).
  unfold set_camera. cbn [camera].
  rewrite !keyframe_at_filter, Hlog2, Hlog1, PerspectiveCamera_keyframes.
  pose proof (padded_range_lookup F f Hf) as Hlook. fold i in Hlook.
  assert (In (f, first) (poses_from (azimuth_pose phi radius rng) 0
                                    (padded_range F))) as Hin1.
  { apply (in_poses_from (azimuth_pose phi radius rng) 0 i). exact Hlook. }
  assert (In (f, second) (poses_from (shell_pose F calls) 0
                                     (padded_range F))) as Hin2.
  { apply (in_poses_from (shell_pose F calls) 0 i). exact Hlook. }
  assert (forall pose, List.NoDup
            (List.map fst (poses_from pose 0 (padded_range F)))) as Hnd.
  { intros pose. rewrite map_fst_poses_from. apply NoDup_range. }
  rewrite (filter_pose_log_position f second) by (apply Hnd || exact Hin2).
  rewrite (filter_pose_log_position f first) by (apply Hnd || exact Hin1).
  rewrite (filter_pose_log_quaternion f second) by (apply Hnd || exact Hin2).
  rewrite (filter_pose_log_quaternion f first) by (apply Hnd || exact Hin1).
  repeat split; reflexivity.
Qed.

Lemma test_camera_keyed_twice_witness :
  exists s' rng' calls',
    @test_camera reference_collaborators default_flags (PI / 4) 15 half_rng 0
                 empty_scene = Ok (s', rng', calls') /\
    keyframe_commits "position" 0 (camera s') = 2%nat /\
    keyframe_commits "quaternion" 0 (camera s') = 2%nat /\
    keyframe_at "position" 0 (camera s')
    = Some (VVec3 (0, 0, (15 + 20) / 2)%R).
Proof.
  destruct (@test_camera_keyed_twice reference_collaborators default_flags
              (PI / 4)%R 15%R half_rng 0%nat empty_scene)
    as (s' & rng' & calls' & Hrun & Hs').
  exists s', rng', calls'. split; [exact Hrun|].
  destruct (Hs' 0%Z) as (Hp & Hq & Hat & _); [simpl; lia|].
  unfold keyframe_commits. rewrite Hp, Hq.
  split; [reflexivity|]. split; [reflexivity|exact Hat].
Defined.

(* ===================================================================== *)
(** ** The reset between the two simulations *)
(* ===================================================================== *)

Section Resetting.

Lemma heap_stop_and_reset (s : Scene) (obj r : ref) :
  heap (stop_and_reset s obj) r
  = if decide (obj = r) then reset_object (heap s obj) else heap s r.
Proof.
  unfold stop_and_reset, reset_object.
  destruct (Asset.has_velocity (heap s obj)) eqn:Hv.
  - unfold setattr. cbn [heap set_heap].
    destruct (decide (obj = r)) as [->|Hne].
    + rewrite !fn_lookup_alter. reflexivity.
    + rewrite !fn_lookup_alter_ne by exact Hne. reflexivity.
  - destruct (decide (obj = r)) as [->|Hne]; reflexivity.
Qed.

Lemma assets_stop_and_reset (s : Scene) (obj : ref) :
  assets (stop_and_reset s obj) = assets s.
Proof.
  unfold stop_and_reset. destruct (Asset.has_velocity (heap s obj)); reflexivity.
Qed.

Lemma reset_object_idempotent (o : Asset.t) :
  reset_object (reset_object o) = reset_object o.
Proof.
  unfold reset_object. destruct (Asset.has_velocity o) eqn:Hv.
  - reflexivity.
  - rewrite Hv. reflexivity.
Qed.

Lemma heap_fold_reset (objs : list ref) (s : Scene) (r : ref) :
  heap (fold_left stop_and_reset objs s) r
  = if decide (r ∈ objs) then reset_object (heap s r) else heap s r.
Proof.
  revert s. induction objs as [|obj objs IH]; intros s.
  - reflexivity.
  - cbn [fold_left]. rewrite IH, heap_stop_and_reset.
    destruct (decide (r ∈ objs)) as [Hin|Hnin];
      destruct (decide (obj = r)) as [->|Hne];
      destruct (decide (r ∈ _ :: objs)) as [Hin'|Hnin'];
      try reflexivity;
      try (exfalso; apply Hnin'; apply elem_of_cons; auto; fail).
    + apply reset_object_idempotent.
    + exfalso. apply elem_of_cons in Hin' as [Heq|Hin'];
        [exact (Hne (eq_sym Heq))|exact (Hnin Hin')].
Qed.

Lemma assets_fold_reset (objs : list ref) (s : Scene) :
  assets (fold_left stop_and_reset objs s) = assets s.
Proof.
  revert s. induction objs as [|obj objs IH]; intros s; [reflexivity|].
  cbn [fold_left]. rewrite IH. apply assets_stop_and_reset.
Qed.

Lemma background_reset_object (o : Asset.t) :
  Asset.background (reset_object o) = Asset.background o.
Proof. unfold reset_object. destruct (Asset.has_velocity o); reflexivity. Qed.

Lemma has_velocity_reset_object (o : Asset.t) :
  Asset.has_velocity (reset_object o) = Asset.has_velocity o.
Proof.
  unfold reset_object. destruct (Asset.has_velocity o) eqn:Hv;
    [reflexivity|exact Hv].
Qed.

(** The store after the reset, object by object. *)
Lemma heap_resetting (F : Flags) (dome : ref) (s : Scene) (r : ref) :
  heap (resetting F dome s) r
  = let o := if decide (r ∈ foreground_assets s)
             then reset_object (heap s r) else heap s r in
    if decide (dome = r)
    then Asset.set_restitution (floor_restitution F)
           (Asset.set_friction (floor_friction F) o)
    else o.
Proof.
  unfold resetting, setattr. cbn [heap set_heap].
  destruct (decide (dome = r)) as [->|Hne].
  - rewrite !fn_lookup_alter, heap_fold_reset. reflexivity.
  - rewrite !fn_lookup_alter_ne by exact Hne. apply heap_fold_reset.
Qed.

Lemma in_foreground_assets (s : Scene) (r : ref) :
  In r (foreground_assets s)
  <-> In r (assets s) /\ Asset.background (heap s r) = false.
Proof.
  unfold foreground_assets. rewrite filter_In, negb_true_iff. reflexivity.
Qed.
End Resetting.

(** C3: after the reset that runs between the settle simulation and the
    placement of the dynamic objects, every foreground object of the scene
    that exposes a velocity has velocity (0, 0, 0), friction 0.5 and
    restitution 0.5, whatever they were before; the dome, a background
    object, has the friction and the restitution of the flags
    [floor_friction] and [floor_restitution]. The reset changes neither
    the objects of the scene nor which of them expose a velocity. *)
Theorem resetting_stops_and_calms (F : Flags) (dome : ref)
    (s : Scene) :
  Asset.background (heap s dome) = true ->
  let s' := resetting F dome s in
  (forall obj,
     In obj (foreground_assets s') ->
     Asset.has_velocity (heap s' obj) = true ->
     Asset.velocity (heap s' obj) = Some (0, 0, 0)%R /\
     Asset.friction (heap s' obj) = Some 0.5%R /\
     Asset.restitution (heap s' obj) = Some 0.5%R) /\
  Asset.friction (heap s' dome) = Some (floor_friction F) /\
  Asset.restitution (heap s' dome) = Some (floor_restitution F) /\
  foreground_assets s' = foreground_assets s /\
  (forall obj, Asset.has_velocity (heap s' obj)
               = Asset.has_velocity (heap s obj)).
Proof.
  intros Hdome s'.
  assert (forall r, Asset.background (heap s' r) = Asset.background (heap s r))
    as Hbg.
  { intros r. unfold s'. rewrite heap_resetting. cbn zeta.
    destruct (decide (dome = r)); destruct (decide (r ∈ foreground_assets s));
      cbn [Asset.background Asset.set_restitution Asset.set_friction];
      rewrite ?background_reset_object; reflexivity. }
  assert (assets s' = assets s) as Hassets.
  { unfold s', resetting, setattr. cbn [assets set_heap].
    apply assets_fold_reset. }
  assert (foreground_assets s' = foreground_assets s) as Hfg.
  { unfold foreground_assets. rewrite Hassets.
    apply filter_ext. intros r. rewrite Hbg. reflexivity. }
  assert (forall obj, Asset.has_velocity (heap s' obj)
                      = Asset.has_velocity (heap s obj)) as Hvel.
  { intros r. unfold s'. rewrite heap_resetting. cbn zeta.
    destruct (decide (dome = r)); destruct (decide (r ∈ foreground_assets s));
      unfold Asset.has_velocity at 1;
      cbn [Asset.velocity Asset.set_restitution Asset.set_friction];
      fold (Asset.has_velocity (reset_object (heap s r)));
      fold (Asset.has_velocity (heap s r));
      rewrite ?has_velocity_reset_object; reflexivity. }
  split; [|split; [|split; [|split]]].
  - intros obj Hin Hhas. rewrite Hfg in Hin. rewrite Hvel in Hhas.
    assert (dome <> obj) as Hne.
    { intros ->. apply in_foreground_assets in Hin as [_ Hfalse].
      rewrite Hdome in Hfalse. discriminate. }
    unfold s'. rewrite heap_resetting. cbn zeta.
    destruct (decide (dome = obj)) as [|_]; [contradiction|].
    destruct (decide (obj ∈ foreground_assets s)) as [_|Hnot];
      [|exfalso; apply Hnot, list_elem_of_In; exact Hin].
    unfold reset_object. rewrite Hhas. repeat split; reflexivity.
  - unfold s'. rewrite heap_resetting. cbn zeta.
    destruct (decide (dome = dome)) as [_|]; [reflexivity|contradiction].
  - unfold s'. rewrite heap_resetting. cbn zeta.
    destruct (decide (dome = dome)) as [_|]; [reflexivity|contradiction].
  - exact Hfg.
  - exact Hvel.
Qed.

Lemma resetting_stops_and_calms_witness :
  Asset.background (heap settled_scene 0%nat) = true /\
  Asset.velocity
    (heap (resetting default_flags 0%nat settled_scene)
          1%nat) = Some (0, 0, 0)%R /\
  Asset.friction
    (heap (resetting default_flags 0%nat settled_scene)
          1%nat) = Some 0.5%R /\
  Asset.restitution
    (heap (resetting default_flags 0%nat settled_scene)
          1%nat) = Some 0.5%R /\
  Asset.friction
    (heap (resetting default_flags 0%nat settled_scene)
          0%nat) = Some 0.3%R /\
  Asset.restitution
    (heap (resetting default_flags 0%nat settled_scene)
          0%nat) = Some 0.5%R.
Proof.
  split; [reflexivity|].
  destruct (resetting_stops_and_calms default_flags 0%nat settled_scene
                                      eq_refl)
    as (Hobjects & Hfriction & Hrestitution & Hforeground & Hvelocity).
  destruct (Hobjects 1%nat) as (Hv & Hf & Hr).
  - rewrite Hforeground. cbn. left. reflexivity.
  - rewrite Hvelocity. reflexivity.
  - repeat split; assumption.
Defined.

(* ===================================================================== *)
(** ** The placement of the dynamic objects *)
(* ===================================================================== *)

Section Dynamic_objects.
Context `{Collaborators}.

Lemma drawn_after_refl (rng : RandomState) : drawn_after rng rng.
Proof. split; [reflexivity|lia]. Qed.

Lemma drawn_after_trans (rng1 rng2 rng3 : RandomState) :
  drawn_after rng1 rng2 -> drawn_after rng2 rng3 -> drawn_after rng1 rng3.
Proof.
  intros [Hd1 Hc1] [Hd2 Hc2]. split; [congruence|lia].
Qed.

Lemma tossed_level (g : RandomState) (o : Asset.t) :
  tossed g o -> exists v, Asset.velocity o = Some v /\ vz v = 0%R.
Proof.
  intros Hv. eexists. split; [exact Hv|].
  unfold uniform3, uniform, random_sample, VELOCITY_RANGE, vsub, vz, vx, vy.
  simpl. lra.
Qed.

Lemma tossed_later (rng rng1 rng2 rng' : RandomState) (obj : ref)
    (o : Asset.t) :
  drawn_after rng rng1 -> drawn_after rng2 rng' ->
  tossed_at_placement rng1 rng2 obj o -> tossed_at_placement rng rng' obj o.
Proof.
  intros Hbefore [_ Hafter] (h & objs & g0 & g & Hmove & Hg & Hcur & Hv).
  exists h, objs, g0, g. split; [exact Hmove|].
  split; [exact (drawn_after_trans _ _ _ Hbefore Hg)|].
  split; [lia|exact Hv].
Qed.

Lemma uniform3_in_range (low high : Vec3) (rng : RandomState) :
  unit_draws rng ->
  (vx low <= vx high)%R -> (vy low <= vy high)%R -> (vz low <= vz high)%R ->
  let v := fst (uniform3 low high rng) in
  (vx low <= vx v <= vx high)%R /\ (vy low <= vy v <= vy high)%R /\
  (vz low <= vz v <= vz high)%R.
Proof.
  destruct low as [[lx ly] lz], high as [[hx hy] hz].
  unfold vx, vy, vz. cbn [fst snd]. intros Hu Hx Hy Hz.
  unfold uniform3, uniform, random_sample, vx, vy, vz.
  cbn [fst snd draws cursor].
  pose proof (Hu (cursor rng)). pose proof (Hu (S (cursor rng))).
  pose proof (Hu (S (S (cursor rng)))).
  repeat split; nra.
Qed.

Lemma add_dynamic_object_tossed (active_split : list string) (s : Scene)
    (rng : RandomState) :
  placement_succeeds active_split -> generator_threaded ->
  exists s' rng',
    add_dynamic_object active_split (s, rng) = Ok (s', rng') /\
    next_ref s' = S (next_ref s) /\
    assets s' = assets s ++ [next_ref s] /\
    (forall r, r <> next_ref s -> heap s' r = heap s r) /\
    drawn_after rng rng' /\
    tossed_at_placement rng rng' (next_ref s) (heap s' (next_ref s)).
Proof.
  intros [Hchoice Hmove] [Hkept1 Hkept2]. unfold add_dynamic_object.
  destruct (Hchoice rng) as (id & rng1 & Hid). rewrite Hid. cbn [Py.bind].
  pose proof (Hkept1 _ _ _ _ Hid) as Hrng1.
  unfold new, uniform, random_sample.
  cbn [heap next_ref assets setattr set_heap add draws cursor].
  match goal with
  | |- context [move_until_no_overlap ?h ?a ?o ?reg ?g] =>
      destruct (Hmove h a o g) as (p & rng2 & Hp);
      pose proof (Hkept2 _ _ _ _ _ _ _ Hp) as Hrng2;
      rewrite Hp
  end.
  cbn [Py.bind].
  assert (drawn_after rng rng2) as Hg.
  { apply (drawn_after_trans _ rng1); [exact Hrng1|].
    destruct Hrng2 as [Hd Hc]. cbn [draws cursor] in Hd, Hc.
    split; [exact Hd|lia]. }
  unfold uniform3, uniform, random_sample.
  cbn [draws cursor fst snd vx vy vz VELOCITY_RANGE].
  do 2 eexists. split; [reflexivity|].
  cbn [heap next_ref assets setattr set_heap add].
  split; [reflexivity|]. split; [reflexivity|]. split; [|split].
  - intros r Hr.
    rewrite !fn_lookup_alter_ne by (intros Heq; apply Hr; symmetry; exact Heq).
    apply fn_lookup_insert_ne. intros Heq; apply Hr; symmetry; exact Heq.
  - destruct Hg as [Hd Hc]. split; [exact Hd|]. cbn [cursor]. lia.
  - match type of Hp with
    | move_until_no_overlap ?h ?a ?o ?reg ?g = _ => exists h, a, g, rng2
    end.
    rewrite !fn_lookup_alter.
    split; [exact Hp|]. split; [exact Hg|]. split; [cbn [cursor]; lia|].
    unfold tossed, uniform3, uniform, random_sample.
    cbn [draws cursor fst snd vx vy vz VELOCITY_RANGE]. reflexivity.
Qed.

Lemma add_dynamic_objects_tossed (active_split : list string) (xs : list Z)
    (s : Scene) (rng : RandomState) :
  placement_succeeds active_split -> generator_threaded ->
  exists s' rng',
    for_each xs (fun _ => add_dynamic_object active_split) (s, rng)
    = Ok (s', rng') /\
    next_ref s' = (next_ref s + List.length xs)%nat /\
    assets s' = assets s ++ seq (next_ref s) (List.length xs) /\
    (forall r, (r < next_ref s)%nat -> heap s' r = heap s r) /\
    drawn_after rng rng' /\
    (forall obj, In obj (seq (next_ref s) (List.length xs)) ->
                 tossed_at_placement rng rng' obj (heap s' obj)).
Proof.
  intros Hok Hkept. revert s rng. induction xs as [|x xs IH]; intros s rng.
  - exists s, rng. cbn [for_each List.length seq].
    rewrite Nat.add_0_r, app_nil_r.
    split; [reflexivity|]. split; [reflexivity|]. split; [reflexivity|].
    split; [reflexivity|]. split; [apply drawn_after_refl|]. intros obj [].
  - destruct (add_dynamic_object_tossed active_split s rng Hok Hkept)
      as (s1 & rng1 & Hrun1 & Hnext1 & Hassets1 & Hheap1 & Hrng1 & Htossed1).
    destruct (IH s1 rng1)
      as (s' & rng' & Hrun & Hnext & Hassets & Hheap & Hrng & Htossed).
    exists s', rng'. cbn [for_each]. rewrite Hrun1. cbn [Py.bind].
    split; [exact Hrun|]. rewrite Hnext1 in *.
    split; [rewrite Hnext; simpl; lia|].
    split; [rewrite Hassets, Hassets1, <- app_assoc; reflexivity|].
    split; [|split].
    + intros r Hr. rewrite Hheap by lia. apply Hheap1. lia.
    + exact (drawn_after_trans _ _ _ Hrng1 Hrng).
    + intros obj Hin. cbn [List.length seq] in Hin.
      destruct Hin as [<-|Hin].
      * rewrite Hheap by lia.
        exact (tossed_later _ _ _ _ _ _ (drawn_after_refl rng) Hrng Htossed1).
      * exact (tossed_later _ _ _ _ _ _ Hrng1 (drawn_after_refl rng')
                 (Htossed obj Hin)).
Qed.
End Dynamic_objects.

(** C5: when placement succeeds and the collaborators thread the one
    generator, the loop that adds the dynamic objects returns, the objects
    it adds to the scene are the new ones, and each of them is at the
    position its placement found, with the velocity that is the draw from
    the fixed velocity range, the next three draws of the generator as the
    placement returned it, minus the vector (x, y, 0) of that position;
    the z component of the velocity is 0. *)
Theorem dynamic_objects_tossed_toward_center `{Collaborators}
    (num_dynamic_objects : Z) (active_split : list string) (s : Scene)
    (rng : RandomState) :
  placement_succeeds active_split -> generator_threaded ->
  exists s' rng',
    add_dynamic_objects num_dynamic_objects active_split (s, rng)
    = Ok (s', rng') /\
    assets s' = assets s ++ seq (next_ref s) (Z.to_nat num_dynamic_objects) /\
    drawn_after rng rng' /\
    forall obj, In obj (seq (next_ref s) (Z.to_nat num_dynamic_objects)) ->
      let o := heap s' obj in
      (exists h objs g0 g,
         move_until_no_overlap h objs obj DYNAMIC_SPAWN_REGION g0
         = Ok (Asset.position o, g) /\
         drawn_after rng g /\ (cursor g + 3 <= cursor rng')%nat /\
         let sample := fst (uniform3 (fst VELOCITY_RANGE) (snd VELOCITY_RANGE)
                                     g) in
         Asset.velocity o
         = Some (vsub sample
                      (vx (Asset.position o), vy (Asset.position o), 0)%R)) /\
      (exists v, Asset.velocity o = Some v /\ vz v = 0%R).
Proof.
  intros Hok Hkept. unfold add_dynamic_objects.
  destruct (add_dynamic_objects_tossed active_split
              (Py.range 0 num_dynamic_objects) s rng Hok Hkept)
    as (s' & rng' & Hrun & _ & Hassets & _ & Hrng & Htossed).
  unfold Py.range in Hassets, Htossed. rewrite length_seqZ in Hassets, Htossed.
  replace (Z.to_nat (num_dynamic_objects - 0)) with (Z.to_nat num_dynamic_objects)
    in Hassets, Htossed by lia.
  exists s', rng'. split; [exact Hrun|]. split; [exact Hassets|].
  split; [exact Hrng|].
  intros obj Hin. cbv zeta.
  destruct (Htossed obj Hin) as (h & objs & g0 & g & Hmove & Hg & Hcur & Hv).
  split.
  - exists h, objs, g0, g. repeat split; try assumption; apply Hg.
  - apply (tossed_level g). exact Hv.
Qed.

Lemma dynamic_objects_tossed_toward_center_witness :
  @placement_succeeds reference_collaborators ["shoe"%string] /\
  @generator_threaded reference_collaborators /\
  exists s' rng',
    @add_dynamic_objects reference_collaborators 2 ["shoe"%string]
                         (empty_scene, half_rng) = Ok (s', rng') /\
    assets s' = [0; 1]%nat /\
    (exists v, Asset.velocity (heap s' 0%nat) = Some v /\ vz v = 0%R) /\
    (exists v, Asset.velocity (heap s' 1%nat) = Some v /\ vz v = 0%R).
Proof.
  assert (@placement_succeeds reference_collaborators ["shoe"%string]) as Hok.
  { split.
    - intros rng. exists "shoe"%string, rng. reflexivity.
    - intros h objs obj rng. exists (fst DYNAMIC_SPAWN_REGION), rng. reflexivity. }
  assert (@generator_threaded reference_collaborators) as Hkept.
  { split.
    - intros ids rng id rng' Hc. cbn [choice reference_collaborators] in Hc.
      destruct ids; [discriminate|]. inversion Hc; subst. split; [reflexivity|lia].
    - intros h objs obj region rng p rng' Hm.
      cbn [move_until_no_overlap reference_collaborators] in Hm.
      inversion Hm; subst. split; [reflexivity|lia]. }
  split; [exact Hok|]. split; [exact Hkept|].
  destruct (@dynamic_objects_tossed_toward_center reference_collaborators 2
              ["shoe"%string] empty_scene half_rng Hok Hkept)
    as (s' & rng' & Hrun & Hassets & _ & Hobjs).
  exists s', rng'. split; [exact Hrun|]. split; [exact Hassets|].
  split.
  - apply (Hobjs 0%nat). left. reflexivity.
  - apply (Hobjs 1%nat). right. left. reflexivity.
Defined.

(* ===================================================================== *)
(** ** The visibility postprocessing *)
(* ===================================================================== *)

(** *** Counts *)

Lemma fold_max_positive (a : list nat) (x : nat) :
  (0 < fold_left Nat.max a x)%nat
  <-> (0 < x)%nat \/ exists c, In c a /\ c <> 0%nat.
Proof.
  revert x. induction a as [|y a IH]; intros x; cbn [fold_left].
  - split; [intros Hx; left; exact Hx|].
    intros [Hx|(c & [] & _)]. exact Hx.
  - rewrite IH. split.
    + intros [Hmax|(c & Hc & Hne)].
      * destruct (Nat.eq_dec x 0) as [->|Hx]; [|left; lia].
        right. exists y. split; [left; reflexivity|]. lia.
      * right. exists c. split; [right; exact Hc|exact Hne].
    + intros [Hx|(c & [<-|Hc] & Hne)].
      * left. lia.
      * left. lia.
      * right. exists c. split; assumption.
Qed.

Lemma fold_add_positive (a : list nat) (x : nat) :
  (0 < fold_left Nat.add a x)%nat
  <-> (0 < x)%nat \/ exists c, In c a /\ c <> 0%nat.
Proof.
  revert x. induction a as [|y a IH]; intros x; cbn [fold_left].
  - split; [intros Hx; left; exact Hx|].
    intros [Hx|(c & [] & _)]. exact Hx.
  - rewrite IH. split.
    + intros [Hsum|(c & Hc & Hne)].
      * destruct (Nat.eq_dec x 0) as [->|Hx]; [|left; lia].
        right. exists y. split; [left; reflexivity|]. lia.
      * right. exists c. split; [right; exact Hc|exact Hne].
    + intros [Hx|(c & [<-|Hc] & Hne)].
      * left. lia.
      * left. lia.
      * right. exists c. split; assumption.
Qed.

Lemma amax_positive (a : list nat) :
  a <> [] -> exists m, amax a = Ok m /\ ((0 < m)%nat <-> seen a).
Proof.
  destruct a as [|x a]; [contradiction|]. intros _.
  exists (fold_left Nat.max a x). split; [reflexivity|].
  rewrite fold_max_positive. unfold seen. split.
  - intros [Hx|(c & Hc & Hne)].
    + exists x. split; [left; reflexivity|lia].
    + exists c. split; [right; exact Hc|exact Hne].
  - intros (c & [<-|Hc] & Hne); [left; lia|].
    right. exists c. split; assumption.
Qed.

Lemma asum_positive (a : list nat) : (0 < asum a)%nat <-> seen a.
Proof.
  unfold asum. rewrite fold_add_positive. unfold seen. split.
  - intros [Hx|Hc]; [lia|exact Hc].
  - intros Hc. right. exact Hc.
Qed.

(** *** The stable sort *)

Section Stable_sort.
Variable key : ref -> nat.

Lemma insert_reverse_decorated (r : ref) (l : list ref) :
  insert_reverse (decorated key r) (List.map (decorated key) l)
  = List.map (decorated key) (insert_by key r l).
Proof.
  induction l as [|y l IH]; cbn [List.map insert_reverse insert_by].
  - reflexivity.
  - cbn [fst decorated]. destruct (key y <=? key r)%nat.
    + reflexivity.
    + cbn [List.map]. rewrite <- IH. reflexivity.
Qed.

Lemma sort_reverse_decorated (l : list ref) :
  sort_reverse (List.map (decorated key) l)
  = List.map (decorated key) (sort_by key l).
Proof.
  induction l as [|r l IH]; [reflexivity|].
  cbn [List.map]. unfold sort_reverse, sort_by in *. cbn [fold_right].
  rewrite IH. apply insert_reverse_decorated.
Qed.

Lemma map_snd_decorated (l : list ref) : List.map snd (List.map (decorated key) l) = l.
Proof.
  induction l as [|r l IH]; [reflexivity|]. cbn [List.map snd decorated].
  rewrite IH. reflexivity.
Qed.

Lemma insert_by_perm (r : ref) (l : list ref) :
  Permutation (insert_by key r l) (r :: l).
Proof.
  induction l as [|y l IH]; cbn [insert_by]; [reflexivity|].
  destruct (key y <=? key r)%nat; [reflexivity|].
  rewrite IH. apply perm_swap.
Qed.

Lemma sort_by_perm (l : list ref) : Permutation (sort_by key l) l.
Proof.
  induction l as [|r l IH]; [reflexivity|].
  unfold sort_by in *. cbn [fold_right].
  rewrite insert_by_perm, IH. reflexivity.
Qed.

Lemma insert_by_sorted (r : ref) (l : list ref) :
  StronglySorted (descending key) l ->
  StronglySorted (descending key) (insert_by key r l).
Proof.
  induction l as [|y l IH]; intros Hs; cbn [insert_by].
  - constructor; constructor.
  - destruct (Nat.leb_spec (key y) (key r)) as [Hle|Hlt].
    + constructor; [exact Hs|].
      apply StronglySorted_inv in Hs as [_ Hall].
      constructor; [exact Hle|].
      eapply Forall_impl; [|exact Hall].
      intros z Hz. unfold descending in *. lia.
    + apply StronglySorted_inv in Hs as [Hs Hall].
      constructor; [apply IH; exact Hs|].
      apply Forall_forall. intros z Hz.
      apply (Permutation_in _ (insert_by_perm r l)) in Hz.
      destruct Hz as [<-|Hz].
      * unfold descending. lia.
      * rewrite Forall_forall in Hall. apply Hall. exact Hz.
Qed.

Lemma sort_by_sorted (l : list ref) : StronglySorted (descending key) (sort_by key l).
Proof.
  induction l as [|r l IH]; [constructor|].
  unfold sort_by in *. cbn [fold_right]. apply insert_by_sorted. exact IH.
Qed.

Lemma insert_by_stable (t : nat) (r : ref) (l : list ref) :
  with_key key t (insert_by key r l) = with_key key t (r :: l).
Proof.
  induction l as [|y l IH]; cbn [insert_by]; [reflexivity|].
  destruct (Nat.leb_spec (key y) (key r)) as [Hle|Hlt]; [reflexivity|].
  unfold with_key in *. cbn [List.filter] in *. rewrite IH.
  destruct (Nat.eqb_spec (key r) t) as [Hr|Hr];
    destruct (Nat.eqb_spec (key y) t) as [Hy|Hy]; try reflexivity.
  lia.
Qed.

Lemma sort_by_stable (t : nat) (l : list ref) :
  with_key key t (sort_by key l) = with_key key t l.
Proof.
  induction l as [|r l IH]; [reflexivity|].
  unfold sort_by in *. cbn [fold_right]. rewrite insert_by_stable.
  unfold with_key in *. cbn [List.filter]. rewrite IH. reflexivity.
Qed.
End Stable_sort.

(** *** The visibility of the objects of a scene *)

Lemma compute_visibility_other (i : nat) (seg : Segmentation)
    (objs : list ref) (h : ref -> Asset.t) (r : ref) :
  ~ In r objs -> compute_visibility_from i seg objs h r = h r.
Proof.
  revert i h. induction objs as [|x objs IH]; intros i h Hnot.
  - reflexivity.
  - cbn [compute_visibility_from]. rewrite IH by (simpl in Hnot; tauto).
    apply fn_lookup_alter_ne. simpl in Hnot. tauto.
Qed.

Lemma compute_visibility_at (k : nat) (seg : Segmentation) (objs : list ref)
    (h : ref -> Asset.t) (i : nat) (r : ref) :
  List.NoDup objs -> objs !! i = Some r ->
  Asset.visibility (Asset.metadata (compute_visibility_from k seg objs h r))
  = Some (List.map (count_pixels (S (k + i))) seg).
Proof.
  revert k h i. induction objs as [|x objs IH]; intros k h i Hnd Hi.
  - discriminate.
  - apply List.NoDup_cons_iff in Hnd as [Hfresh Hnd].
    cbn [compute_visibility_from]. destruct i as [|i]; simpl in Hi.
    + inversion Hi; subst x. rewrite compute_visibility_other by exact Hfresh.
      rewrite fn_lookup_alter, Nat.add_0_r. reflexivity.
    + rewrite (IH (S k) _ i Hnd Hi).
      replace (S k + i)%nat with (k + S i)%nat by lia. reflexivity.
Qed.

Lemma compute_visibility_background (i : nat) (seg : Segmentation)
    (objs : list ref) (h : ref -> Asset.t) (r : ref) :
  Asset.background (compute_visibility_from i seg objs h r)
  = Asset.background (h r).
Proof.
  revert i h. induction objs as [|x objs IH]; intros i h.
  - reflexivity.
  - cbn [compute_visibility_from]. rewrite IH.
    destruct (decide (x = r)) as [->|Hne].
    + rewrite fn_lookup_alter. reflexivity.
    + rewrite fn_lookup_alter_ne by exact Hne. reflexivity.
Qed.

Lemma counts_at (seg : Segmentation) (s : Scene) (i : nat) (r : ref) :
  List.NoDup (assets s) -> assets s !! i = Some r ->
  counts seg s r = List.map (count_pixels (S i)) seg.
Proof.
  intros Hnd Hi. unfold counts, counts_of, compute_visibility.
  rewrite (compute_visibility_at 0 seg (assets s) (heap s) i r Hnd Hi).
  reflexivity.
Qed.

Lemma foreground_after_visibility (seg : Segmentation) (s : Scene) :
  foreground_assets
    (set_heap (compute_visibility seg (assets s) (heap s)) s)
  = foreground_assets s.
Proof.
  unfold foreground_assets. cbn [assets heap set_heap].
  apply filter_ext. intros r. unfold compute_visibility.
  rewrite compute_visibility_background. reflexivity.
Qed.

(** *** The filter and the sort of the script *)

Section Visible_assets.
Context `{Collaborators}.

Lemma is_visible_in_view (h : ref -> Asset.t) (r : ref) (v : list nat) :
  Asset.visibility (Asset.metadata (h r)) = Some v -> v <> [] ->
  is_visible h r = Ok (in_view h r).
Proof.
  intros Hv Hne. unfold is_visible, Asset.get_visibility, in_view, counts_of.
  rewrite Hv. cbn [Py.bind].
  destruct (amax_positive v Hne) as (m & -> & Hm). cbn [Py.bind].
  f_equal. pose proof (asum_positive v) as Hs.
  destruct (Nat.ltb_spec 0 m) as [Hpos|Hzero];
    destruct (Nat.ltb_spec 0 (asum v)) as [Hpos'|Hzero']; try reflexivity.
  - exfalso. apply Hm, Hs in Hpos. lia.
  - exfalso. apply Hs, Hm in Hpos'. lia.
Qed.

Lemma visible_only_filter (h : ref -> Asset.t) (l : list ref) :
  (forall r, In r l ->
     exists v, Asset.visibility (Asset.metadata (h r)) = Some v /\ v <> []) ->
  visible_only h l = Ok (List.filter (in_view h) l).
Proof.
  induction l as [|r l IH]; intros Hall; [reflexivity|].
  cbn [visible_only List.filter].
  destruct (Hall r (or_introl eq_refl)) as (v & Hv & Hne).
  rewrite (is_visible_in_view h r v Hv Hne). cbn [Py.bind].
  rewrite IH by (intros r' Hr'; apply Hall; right; exact Hr').
  reflexivity.
Qed.

Lemma decorate_decorated (h : ref -> Asset.t) (l : list ref) :
  (forall r, In r l ->
     exists v, Asset.visibility (Asset.metadata (h r)) = Some v) ->
  decorate h l
  = Ok (List.map (decorated (fun r => asum (counts_of h r))) l).
Proof.
  induction l as [|r l IH]; intros Hall; [reflexivity|].
  cbn [decorate List.map].
  destruct (Hall r (or_introl eq_refl)) as (v & Hv).
  unfold total_visibility, Asset.get_visibility, decorated at 1, counts_of at 1.
  rewrite Hv. cbn [Py.bind].
  rewrite IH by (intros r' Hr'; apply Hall; right; exact Hr').
  reflexivity.
Qed.

Lemma sorted_by_visibility_sort_by (h : ref -> Asset.t) (l : list ref) :
  (forall r, In r l ->
     exists v, Asset.visibility (Asset.metadata (h r)) = Some v) ->
  sorted_by_visibility h l
  = Ok (sort_by (fun r => asum (counts_of h r)) l).
Proof.
  intros Hall. unfold sorted_by_visibility.
  rewrite (decorate_decorated h l Hall). cbn [Py.bind].
  rewrite sort_reverse_decorated, map_snd_decorated. reflexivity.
Qed.

(** The postprocessing returns on a stack of at least one frame: it
    retains the foreground objects in view, sorted by their total. *)
Lemma postprocess_returns (seg : Segmentation) (s : Scene) :
  seg <> [] -> List.NoDup (assets s) ->
  exists out,
    postprocess seg s = Ok out /\
    visible_foreground_assets out
    = sort_by (total seg s)
              (List.filter (fun r => (0 <? total seg s r)%nat)
                           (foreground_assets s)) /\
    segmentation out
    = adjust_segmentation_idxs seg (assets s) (visible_foreground_assets out) /\
    num_instances (scene out)
    = Some (List.length (visible_foreground_assets out)) /\
    List.length (instances out) = List.length (visible_foreground_assets out).
Proof.
  intros Hseg Hnd. unfold postprocess.
  rewrite foreground_after_visibility. cbn [heap assets set_heap].
  set (h1 := compute_visibility seg (assets s) (heap s)).
  assert (forall r, In r (assets s) ->
            exists v, Asset.visibility (Asset.metadata (h1 r)) = Some v
                      /\ v <> []) as Hvis.
  { intros r Hr. apply list_elem_of_In, list_elem_of_lookup in Hr as [i Hi].
    eexists. split.
    - apply (compute_visibility_at 0 seg (assets s) (heap s) i r Hnd Hi).
    - destruct seg; [contradiction|discriminate]. }
  rewrite visible_only_filter.
  2:{ intros r Hr. apply Hvis. apply in_foreground_assets in Hr. tauto. }
  cbn [Py.bind]. rewrite sorted_by_visibility_sort_by.
  2:{ intros r Hr. apply filter_In in Hr as [Hr _].
      apply in_foreground_assets in Hr as [Hr _].
      destruct (Hvis r Hr) as (v & Hv & _). exists v. exact Hv. }
  cbn [Py.bind]. eexists. split; [reflexivity|].
  cbn [visible_foreground_assets segmentation num_instances scene instances
       set_heap set_num_instances].
  repeat split; try reflexivity.
  unfold get_instance_info. rewrite length_map. reflexivity.
Qed.
End Visible_assets.

(** *** The remap *)

Lemma index_of_absent (r : ref) (l : list ref) :
  ~ In r l -> index_of r l = None.
Proof.
  induction l as [|x l IH]; intros Hnot; [reflexivity|].
  cbn [index_of]. destruct (Nat.eqb_spec x r) as [->|_].
  - exfalso. apply Hnot. left. reflexivity.
  - rewrite IH by (simpl in Hnot; tauto). reflexivity.
Qed.

Lemma index_of_lookup (r : ref) (l : list ref) (j : nat) :
  List.NoDup l -> l !! j = Some r -> index_of r l = Some j.
Proof.
  revert j. induction l as [|x l IH]; intros j Hnd Hj; [discriminate|].
  apply List.NoDup_cons_iff in Hnd as [Hfresh Hnd]. cbn [index_of].
  destruct j as [|j]; simpl in Hj.
  - inversion Hj; subst. rewrite Nat.eqb_refl. reflexivity.
  - destruct (Nat.eqb_spec x r) as [->|_].
    + exfalso. apply Hfresh. apply list_elem_of_In.
      apply (list_elem_of_lookup_2 _ _ _ Hj).
    + rewrite (IH j Hnd Hj). reflexivity.
Qed.

Lemma remap_discarded (old_assets new_assets : list ref) (i : nat) (r : ref) :
  old_assets !! i = Some r -> ~ In r new_assets ->
  remap old_assets new_assets (S i) = 0%nat.
Proof.
  intros Hi Hnot. unfold remap. rewrite Hi, index_of_absent by exact Hnot.
  reflexivity.
Qed.

Lemma remap_retained (old_assets new_assets : list ref) (i j : nat) (r : ref) :
  List.NoDup new_assets -> old_assets !! i = Some r ->
  new_assets !! j = Some r ->
  remap old_assets new_assets (S i) = S j.
Proof.
  intros Hnd Hi Hj. unfold remap. rewrite Hi, (index_of_lookup r _ j Hnd Hj).
  reflexivity.
Qed.

Lemma remap_nothing_retained (old_assets : list ref) (label : nat) :
  remap old_assets [] label = 0%nat.
Proof.
  unfold remap. destruct label as [|i]; [reflexivity|].
  destruct (old_assets !! i); reflexivity.
Qed.

Lemma filter_key_in_view (key : ref -> nat) (t : nat) (l : list ref) :
  (0 < t)%nat ->
  with_key key t (List.filter (fun r => (0 <? key r)%nat) l) = with_key key t l.
Proof.
  intros Ht. unfold with_key. induction l as [|r l IH]; [reflexivity|].
  cbn [List.filter].
  destruct (Nat.ltb_spec 0 (key r)) as [Hpos|Hzero]; cbn [List.filter].
  - rewrite IH. reflexivity.
  - rewrite IH. destruct (Nat.eqb_spec (key r) t) as [Heq|_]; [lia|reflexivity].
Qed.

Lemma filter_none {A : Type} (f : A -> bool) (l : list A) :
  (forall x, In x l -> f x = false) -> List.filter f l = [].
Proof.
  induction l as [|x l IH]; intros Hall; [reflexivity|].
  cbn [List.filter]. rewrite (Hall x (or_introl eq_refl)).
  apply IH. intros y Hy. apply Hall. right. exact Hy.
Qed.

(** C2: on a stack of at least one frame the postprocessing returns; the
    per-frame counts of an object are the numbers of pixels that carry its
    index; the objects retained are exactly the foreground objects with a
    nonzero count in at least one frame; they are ordered by descending
    total over all frames, objects of equal total staying in their
    original order; every pixel of the segmentation is rewritten through
    the remap, which sends the index of a discarded object to the
    background index 0 and the index of a retained object to its rank;
    in particular three objects with totals 50, 0 and 120 give the
    retained list third, first, with the third object at index 1 and the
    first at index 2, and the second object rewritten to the
    background. *)
Theorem visibility_postprocessor `{Collaborators} (seg : Segmentation)
    (s : Scene) :
  seg <> [] -> List.NoDup (assets s) ->
  exists out,
    postprocess seg s = Ok out /\
    let visible := visible_foreground_assets out in
    (forall i r, assets s !! i = Some r ->
       counts seg s r = List.map (count_pixels (S i)) seg) /\
    (forall r, In r visible <->
       In r (foreground_assets s) /\
       exists c, In c (counts seg s r) /\ c <> 0%nat) /\
    StronglySorted (fun r1 r2 => (total seg s r2 <= total seg s r1)%nat)
                   visible /\
    (forall t, (0 < t)%nat ->
       List.filter (fun r => (total seg s r =? t)%nat) visible
       = List.filter (fun r => (total seg s r =? t)%nat) (foreground_assets s)) /\
    segmentation out = List.map (List.map (remap (assets s) visible)) seg /\
    (forall i r, assets s !! i = Some r -> ~ In r visible ->
       remap (assets s) visible (S i) = 0%nat) /\
    (forall i j r, assets s !! i = Some r -> visible !! j = Some r ->
       remap (assets s) visible (S i) = S j) /\
    (forall r1 r2 r3,
       assets s = [r1; r2; r3] -> foreground_assets s = [r1; r2; r3] ->
       total seg s r1 = 50%nat -> total seg s r2 = 0%nat ->
       total seg s r3 = 120%nat ->
       visible = [r3; r1] /\
       remap (assets s) visible 3 = 1%nat /\
       remap (assets s) visible 1 = 2%nat /\
       remap (assets s) visible 2 = 0%nat).
Proof.
  intros Hseg Hnd.
  destruct (postprocess_returns seg s Hseg Hnd)
    as (out & Hrun & Hvisible & Hsegm & _ & _).
  exists out. split; [exact Hrun|]. cbv zeta.
  set (visible := visible_foreground_assets out) in *.
  set (kept := List.filter (fun r => (0 <? total seg s r)%nat)
                           (foreground_assets s)) in *.
  assert (List.NoDup visible) as Hnd_visible.
  { rewrite Hvisible.
    apply (Permutation_NoDup (Permutation_sym (sort_by_perm _ kept))).
    apply List.NoDup_filter. apply List.NoDup_filter. exact Hnd. }
  split; [|split; [|split; [|split; [|split; [|split; [|split]]]]]].
  - intros i r Hi. apply counts_at; assumption.
  - intros r. rewrite Hvisible. split.
    + intros Hin. apply (Permutation_in _ (sort_by_perm _ kept)) in Hin.
      apply filter_In in Hin as [Hfg Hpos]. split; [exact Hfg|].
      apply Nat.ltb_lt in Hpos. apply asum_positive in Hpos. exact Hpos.
    + intros [Hfg Hseen].
      apply (Permutation_in _ (Permutation_sym (sort_by_perm _ kept))).
      apply filter_In. split; [exact Hfg|].
      apply Nat.ltb_lt. apply asum_positive. exact Hseen.
  - rewrite Hvisible. apply sort_by_sorted.
  - intros t Ht. rewrite Hvisible.
    change (with_key (total seg s) t (sort_by (total seg s) kept)
            = with_key (total seg s) t (foreground_assets s)).
    rewrite sort_by_stable. apply filter_key_in_view. exact Ht.
  - exact Hsegm.
  - intros i r Hi Hnot. apply (remap_discarded _ _ _ r); assumption.
  - intros i j r Hi Hj. apply (remap_retained _ _ _ _ r); assumption.
  - intros r1 r2 r3 Hassets Hfg H1 H2 H3.
    assert (visible = [r3; r1]) as Hlist.
    { rewrite Hvisible. unfold kept. rewrite Hfg. cbn [List.filter].
      rewrite H1, H2, H3. cbn [Nat.ltb Nat.leb].
      unfold sort_by. cbn [fold_right insert_by]. rewrite H1, H3. reflexivity. }
    split; [exact Hlist|].
    rewrite Hassets in Hnd.
    apply List.NoDup_cons_iff in Hnd as [Hr1 Hnd].
    apply List.NoDup_cons_iff in Hnd as [Hr2 _].
    rewrite Hlist, Hassets. unfold remap. cbn [lookup list_lookup index_of].
    rewrite Nat.eqb_refl.
    destruct (Nat.eqb_spec r3 r1) as [Heq|_];
      [exfalso; apply Hr1; subst; simpl; tauto|].
    destruct (Nat.eqb_spec r3 r2) as [Heq|_];
      [exfalso; apply Hr2; subst; simpl; tauto|].
    destruct (Nat.eqb_spec r1 r2) as [Heq|_];
      [exfalso; apply Hr1; subst; simpl; tauto|].
    rewrite Nat.eqb_refl. repeat split; reflexivity.
Qed.

Lemma visibility_postprocessor_witness :
  one_frame <> [] /\ List.NoDup (assets three_objects) /\
  exists out,
    @postprocess reference_collaborators one_frame three_objects = Ok out /\
    visible_foreground_assets out = [2; 0]%nat /\
    segmentation out
    = [List.repeat 2%nat 50 ++ List.repeat 0%nat 30 ++ List.repeat 1%nat 120].
Proof.
  assert (one_frame <> []) as Hseg by discriminate.
  assert (List.NoDup (assets three_objects)) as Hnd.
  { cbn [assets three_objects]. repeat constructor; simpl; lia. }
  split; [exact Hseg|]. split; [exact Hnd|].
  destruct (@visibility_postprocessor reference_collaborators one_frame
              three_objects Hseg Hnd)
    as (out & Hrun & _ & _ & _ & _ & Hsegm & _ & _ & Hexample).
  destruct (Hexample 0%nat 1%nat 2%nat) as (Hvisible & _);
    try reflexivity.
  exists out. split; [exact Hrun|]. split; [exact Hvisible|].
  rewrite Hsegm, Hvisible. reflexivity.
Defined.

(** C8: on a stack of at least one frame in which no foreground object
    is visible, the postprocessing returns without an error: the retained
    list is empty, [num_instances] is 0, the list of per-instance metadata
    is empty, and the rewritten segmentation has the frames and pixels of
    the input with every pixel at the background index 0. *)
Theorem postprocess_nothing_visible `{Collaborators} (seg : Segmentation)
    (s : Scene) :
  seg <> [] -> List.NoDup (assets s) ->
  (forall i r frame,
     assets s !! i = Some r -> In r (foreground_assets s) -> In frame seg ->
     count_pixels (S i) frame = 0%nat) ->
  exists out,
    postprocess seg s = Ok out /\
    visible_foreground_assets out = [] /\
    num_instances (scene out) = Some 0%nat /\
    instances out = [] /\
    segmentation out = List.map (List.map (fun _ => 0%nat)) seg /\
    (forall label, remap (assets s) (visible_foreground_assets out) label
                   = 0%nat).
Proof.
  intros Hseg Hnd Hunseen.
  destruct (postprocess_returns seg s Hseg Hnd)
    as (out & Hrun & Hvisible & Hsegm & Hnum & Hinst).
  assert (visible_foreground_assets out = []) as Hnone.
  { rewrite Hvisible, filter_none; [reflexivity|].
    intros r Hfg. apply Nat.ltb_ge.
    destruct (Nat.eq_dec (total seg s r) 0) as [->|Hpos]; [lia|].
    exfalso. assert (0 < total seg s r)%nat as Hlt by lia.
    apply asum_positive in Hlt as (c & Hc & Hne).
    pose proof Hfg as Hin. apply in_foreground_assets in Hin as [Hin _].
    apply list_elem_of_In, list_elem_of_lookup in Hin as [i Hi].
    rewrite (counts_at seg s i r Hnd Hi) in Hc.
    apply in_map_iff in Hc as (frame & <- & Hframe).
    apply Hne. exact (Hunseen i r frame Hi Hfg Hframe). }
  exists out. rewrite Hnone in *.
  split; [exact Hrun|]. split; [reflexivity|]. split; [exact Hnum|].
  split; [destruct (instances out); [reflexivity|discriminate]|].
  split.
  - rewrite Hsegm. unfold adjust_segmentation_idxs.
    apply map_ext. intros frame. apply map_ext. intros label.
    apply remap_nothing_retained.
  - intros label. apply remap_nothing_retained.
Qed.

Lemma postprocess_nothing_visible_witness :
  empty_frames <> [] /\ List.NoDup (assets three_objects) /\
  exists out,
    @postprocess reference_collaborators empty_frames three_objects = Ok out /\
    visible_foreground_assets out = [] /\
    num_instances (scene out) = Some 0%nat /\
    instances out = [] /\
    segmentation out = empty_frames.
Proof.
  assert (empty_frames <> []) as Hseg by discriminate.
  assert (List.NoDup (assets three_objects)) as Hnd.
  { cbn [assets three_objects]. repeat constructor; simpl; lia. }
  split; [exact Hseg|]. split; [exact Hnd|].
  destruct (@postprocess_nothing_visible reference_collaborators empty_frames
              three_objects Hseg Hnd)
    as (out & Hrun & Hvisible & Hnum & Hinst & Hsegm & _).
  { intros i r frame _ _ [<-|[<-|[]]]; reflexivity. }
  exists out. repeat (split; [assumption|]). rewrite Hsegm. reflexivity.
Defined.

(* ===================================================================== *)
(** ** The object of the gso script *)
(* ===================================================================== *)

Section Gso_render.
Context `{Collaborators}.

End Gso_render.



(* ===================================================================== *)
(** ** Further properties: the geometry of the camera paths *)
(* ===================================================================== *)

Lemma norm2_xyz_curr (th ph radius : R) :
  norm2 (xyz_curr th ph radius) = (radius * radius)%R.
Proof.
  unfold norm2, xyz_curr, vscale, direction, vx, vy, vz. cbn [fst snd].
  pose proof (sin2_cos2 th) as Hth. pose proof (sin2_cos2 ph) as Hph.
  unfold Rsqr in Hth, Hph.
  replace (cos th * sin ph * radius * (cos th * sin ph * radius)
           + sin th * sin ph * radius * (sin th * sin ph * radius)
           + cos ph * radius * (cos ph * radius))%R
    with (radius * radius
          * ((sin th * sin th + cos th * cos th) * (sin ph * sin ph)
             + cos ph * cos ph))%R by ring.
  rewrite Hth. replace (1 * (sin ph * sin ph) + cos ph * cos ph)%R
    with (sin ph * sin ph + cos ph * cos ph)%R by ring.
  rewrite Hph. ring.
Qed.

Lemma xyz_curr_full_turn (th ph radius : R) :
  xyz_curr (th + 2 * PI) ph radius = xyz_curr th ph radius.
Proof.
  unfold xyz_curr, direction.
  rewrite cos_plus, sin_plus, cos_2PI, sin_2PI.
  repeat f_equal; ring.
Qed.

Section Orbit_reads.
Context `{Collaborators}.

(** What the renderer reads at a frame of the padded range after a
    linear orbit. *)
Lemma linear_orbit_reads (F : Flags) (theta phi radius : R) (c : Camera.t) :
  num_frames F <> 0%Z ->
  exists c',
    linear_orbit F theta phi radius c = Ok c' /\
    forall f, (frame_start F - 1 <= f <= frame_end F + 1)%Z ->
      let p := xyz_curr (orbit_azimuth F theta f) phi radius in
      keyframe_at "position" f c' = Some (VVec3 p) /\
      keyframe_at "quaternion" f c'
      = Some (VQuat (look_at_quaternion p (0, 0, 0)%R)).
Proof.
  intros Hn.
  destruct (linear_orbit_log F theta phi radius c Hn) as (c' & Hrun & Hlog).
  exists c'. split; [exact Hrun|]. intros f Hf p.
  assert (In (f, p) (List.map (fun f => (f, xyz_curr (orbit_azimuth F theta f)
                                                     phi radius))
                              (padded_range F))) as Hin.
  { apply in_map_iff. exists f. split; [reflexivity|].
    apply in_padded_range. exact Hf. }
  rewrite !keyframe_at_filter, Hlog. split.
  - rewrite (filter_pose_log_position f p); [reflexivity| |exact Hin].
    rewrite map_fst_graph. apply NoDup_range.
  - rewrite (filter_pose_log_quaternion f p); [reflexivity| |exact Hin].
    rewrite map_fst_graph. apply NoDup_range.
Qed.
End Orbit_reads.

Lemma orbit_azimuth_after_last (F : Flags) (theta : R) :
  (frame_start F <= frame_end F)%Z ->
  orbit_azimuth F theta (frame_end F + 1)
  = (orbit_azimuth F theta (frame_start F) + 2 * PI)%R.
Proof.
  intros Hrange. unfold orbit_azimuth.
  assert (0 < IZR (num_frames F))%R as Hpos
    by (apply IZR_lt; unfold num_frames; lia).
  replace (frame_end F + 1 - frame_start F + 1)%Z with (num_frames F + 1)%Z
    by (unfold num_frames; lia).
  replace (frame_start F - frame_start F + 1)%Z with 1%Z by lia.
  rewrite plus_IZR. field. lra.
Qed.

Lemma orbit_azimuth_before_first (F : Flags) (theta : R) :
  (frame_start F <= frame_end F)%Z ->
  orbit_azimuth F theta (frame_end F)
  = (orbit_azimuth F theta (frame_start F - 1) + 2 * PI)%R.
Proof.
  intros Hrange. unfold orbit_azimuth.
  assert (0 < IZR (num_frames F))%R as Hpos
    by (apply IZR_lt; unfold num_frames; lia).
  replace (frame_end F - frame_start F + 1)%Z with (num_frames F)
    by reflexivity.
  replace (frame_start F - 1 - frame_start F + 1)%Z with 0%Z by lia.
  field. lra.
Qed.

(** X1: the two padding frames of the linear orbit close the loop: the
    pose keyframed one frame after the last requested frame is the pose
    of the first requested frame, and the pose keyframed one frame before
    the first is the pose of the last, position and orientation alike. *)
Theorem linear_orbit_wraps_around `{Collaborators} (F : Flags)
    (theta phi radius : R) (c : Camera.t) :
  (frame_start F <= frame_end F)%Z ->
  exists c' first last,
    linear_orbit F theta phi radius c = Ok c' /\
    keyframe_at "position" (frame_start F) c' = Some (VVec3 first) /\
    keyframe_at "position" (frame_end F + 1) c' = Some (VVec3 first) /\
    keyframe_at "quaternion" (frame_end F + 1) c'
    = keyframe_at "quaternion" (frame_start F) c' /\
    keyframe_at "position" (frame_end F) c' = Some (VVec3 last) /\
    keyframe_at "position" (frame_start F - 1) c' = Some (VVec3 last) /\
    keyframe_at "quaternion" (frame_start F - 1) c'
    = keyframe_at "quaternion" (frame_end F) c'.
Proof.
  intros Hrange.
  assert (num_frames F <> 0%Z) as Hn by (unfold num_frames; lia).
  destruct (linear_orbit_reads F theta phi radius c Hn) as (c' & Hrun & Hread).
  exists c', (xyz_curr (orbit_azimuth F theta (frame_start F)) phi radius),
         (xyz_curr (orbit_azimuth F theta (frame_start F - 1)) phi radius).
  split; [exact Hrun|].
  destruct (Hread (frame_start F)) as [Hp1 Hq1]; [lia|].
  destruct (Hread (frame_end F + 1)%Z) as [Hp2 Hq2]; [lia|].
  destruct (Hread (frame_end F)) as [Hp3 Hq3]; [lia|].
  destruct (Hread (frame_start F - 1)%Z) as [Hp4 Hq4]; [lia|].
  cbv zeta in *.
  rewrite (orbit_azimuth_after_last F theta Hrange), xyz_curr_full_turn
    in Hp2, Hq2.
  rewrite (orbit_azimuth_before_first F theta Hrange), xyz_curr_full_turn
    in Hp3, Hq3.
  rewrite Hq1, Hq2, Hq3, Hq4. repeat split; try assumption; reflexivity.
Qed.

Lemma linear_orbit_wraps_around_witness :
  (frame_start default_flags <= frame_end default_flags)%Z /\
  exists c' first last,
    @linear_orbit reference_collaborators default_flags 0 (PI / 4) 15
                  (@PerspectiveCamera reference_collaborators 35 32) = Ok c' /\
    keyframe_at "position" 1 c' = Some (VVec3 first) /\
    keyframe_at "position" 25 c' = Some (VVec3 first) /\
    keyframe_at "position" 24 c' = Some (VVec3 last) /\
    keyframe_at "position" 0 c' = Some (VVec3 last).
Proof.
  assert (frame_start default_flags <= frame_end default_flags)%Z as Hrange
    by (simpl; lia).
  split; [exact Hrange|].
  destruct (@linear_orbit_wraps_around reference_collaborators default_flags
              0%R (PI / 4)%R 15%R
              (@PerspectiveCamera reference_collaborators 35 32) Hrange)
    as (c' & first & last & Hrun & H1 & H2 & _ & H3 & H4 & _).
  exists c', first, last. repeat split; assumption.
Defined.

(** X2: every position the linear orbit keyframes lies on the sphere of
    the sampled radius about the origin, at the height
    [radius * cos phi], the same at every frame. *)
Theorem linear_orbit_on_sphere `{Collaborators} (F : Flags)
    (theta phi radius : R) (c : Camera.t) :
  num_frames F <> 0%Z ->
  exists c',
    linear_orbit F theta phi radius c = Ok c' /\
    forall f, (frame_start F - 1 <= f <= frame_end F + 1)%Z ->
      exists p,
        keyframe_at "position" f c' = Some (VVec3 p) /\
        norm2 p = (radius * radius)%R /\
        vz p = (cos phi * radius)%R.
Proof.
  intros Hn.
  destruct (linear_orbit_reads F theta phi radius c Hn) as (c' & Hrun & Hread).
  exists c'. split; [exact Hrun|]. intros f Hf.
  destruct (Hread f Hf) as [Hp _].
  eexists. split; [exact Hp|]. split.
  - apply norm2_xyz_curr.
  - reflexivity.
Qed.

Lemma linear_orbit_on_sphere_witness :
  num_frames default_flags <> 0%Z /\
  exists c',
    @linear_orbit reference_collaborators default_flags 0 (PI / 4) 15
                  (@PerspectiveCamera reference_collaborators 35 32) = Ok c' /\
    exists p,
      keyframe_at "position" 7 c' = Some (VVec3 p) /\
      norm2 p = (15 * 15)%R.
Proof.
  assert (num_frames default_flags <> 0%Z) as Hn by (cbv; discriminate).
  split; [exact Hn|].
  destruct (@linear_orbit_on_sphere reference_collaborators default_flags
              0%R (PI / 4)%R 15%R
              (@PerspectiveCamera reference_collaborators 35 32) Hn)
    as (c' & Hrun & Hc').
  exists c'. split; [exact Hrun|].
  destruct (Hc' 7%Z) as (p & Hp & Hnorm & _); [simpl; lia|].
  exists p. split; assumption.
Defined.

Lemma cos_between_thirds (phi : R) :
  (PI / 6 <= phi <= PI / 3)%R -> (1 / 2 <= cos phi <= sqrt 3 / 2)%R.
Proof.
  intros [Hlo Hhi]. pose proof PI_RGT_0 as Hpi.
  rewrite <- cos_PI3, <- cos_PI6. split.
  - apply cos_decr_1; lra.
  - apply cos_decr_1; lra.
Qed.

(** X3: the train camera, where the radius flags are between [2^-64] and
    [2^64], the power of the C library is accurate to one unit in the
    last place and the frame range has [start <= end]: the draws return
    after exactly three draws of the generator, with an elevation between
    30 and 60 degrees and a radius within the relative tolerance [2^-40]
    of [[min_radius, max_radius]]; the linear orbit of these draws on a
    new camera keyframes, at every frame of the padded range, a position
    at the distance of the radius from the origin and at a height between
    half the radius and [sqrt 3 / 2] of it, so above the ground. *)
Theorem train_camera_above_ground `{Libm} `{Collaborators} (F : Flags)
    (rng : RandomState) :
  unit_draws rng -> pow_accurate ->
  (/ 2 ^ 64 <= min_radius F)%R -> (min_radius F <= max_radius F)%R ->
  (max_radius F <= 2 ^ 64)%R ->
  (frame_start F <= frame_end F)%Z ->
  exists theta phi radius c',
    sample_orbit F rng = Ok (theta, phi, Float radius, advance 3 rng) /\
    (PI / 6 <= phi <= PI / 3)%R /\
    (min_radius F * (1 - radius_tolerance) <= radius
     <= max_radius F * (1 + radius_tolerance))%R /\
    linear_orbit F theta phi radius (PerspectiveCamera 35 32) = Ok c' /\
    forall f, (frame_start F - 1 <= f <= frame_end F + 1)%Z ->
      exists p,
        keyframe_at "position" f c' = Some (VVec3 p) /\
        norm2 p = (radius * radius)%R /\
        (radius / 2 <= vz p <= radius * (sqrt 3 / 2))%R /\
        (0 < vz p)%R.
Proof.
  intros Hu Hacc Hlo Hle Hhi Hrange.
  assert (num_frames F <> 0%Z) as Hn by (unfold num_frames; lia).
  destruct (sample_orbit_radius F rng Hu Hacc Hlo Hle Hhi)
    as (low & high & radius & _ & _ & _ & _ & _ & _ & Hbounds & Hdraws).
  set (theta := (0 + (2 * PI - 0) * draws rng (cursor rng))%R) in Hdraws.
  set (phi := (deg2rad 30 + (deg2rad 60 - deg2rad 30)
                            * draws rng (S (cursor rng)))%R) in Hdraws.
  destruct (linear_orbit_reads F theta phi radius (PerspectiveCamera 35 32) Hn)
    as (c' & Hrun & Hread).
  pose proof (Hu (S (cursor rng))) as Hu2. pose proof PI_RGT_0 as Hpi.
  assert (PI / 6 <= phi <= PI / 3)%R as Hphi
    by (unfold phi, deg2rad; nra).
  assert (0 < radius)%R as Hpos.
  { unfold radius_tolerance in Hbounds. lra. }
  exists theta, phi, radius, c'.
  split; [exact Hdraws|]. split; [exact Hphi|]. split; [exact Hbounds|].
  split; [exact Hrun|].
  intros f Hf. destruct (Hread f Hf) as [Hp _].
  eexists. split; [exact Hp|]. split; [apply norm2_xyz_curr|].
  pose proof (cos_between_thirds phi Hphi) as Hcos.
  pose proof (sqrt_pos 3) as Hsqrt.
  change (vz (xyz_curr (orbit_azimuth F theta f) phi radius))
    with (cos phi * radius)%R.
  split; [split; nra|nra].
Qed.

Lemma train_camera_above_ground_witness :
  unit_draws half_rng /\ @pow_accurate exact_libm /\
  (/ 2 ^ 64 <= min_radius default_flags)%R /\
  (min_radius default_flags <= max_radius default_flags)%R /\
  (max_radius default_flags <= 2 ^ 64)%R /\
  (frame_start default_flags <= frame_end default_flags)%Z /\
  exists theta phi radius c' p,
    @sample_orbit exact_libm default_flags half_rng
    = Ok (theta, phi, Float radius, advance 3 half_rng) /\
    @linear_orbit reference_collaborators default_flags theta phi radius
                  (@PerspectiveCamera reference_collaborators 35 32) = Ok c' /\
    keyframe_at "position" 1 c' = Some (VVec3 p) /\
    (0 < vz p)%R.
Proof.
  assert (/ 2 ^ 64 <= min_radius default_flags)%R as Hlo by (simpl; lra).
  assert (min_radius default_flags <= max_radius default_flags)%R as Hle
    by (simpl; lra).
  assert (max_radius default_flags <= 2 ^ 64)%R as Hhi by (simpl; lra).
  assert (frame_start default_flags <= frame_end default_flags)%Z as Hrange
    by (simpl; lia).
  split; [exact half_rng_unit|]. split; [exact exact_libm_accurate|].
  split; [exact Hlo|]. split; [exact Hle|]. split; [exact Hhi|].
  split; [exact Hrange|].
  destruct (@train_camera_above_ground exact_libm reference_collaborators
              default_flags half_rng half_rng_unit exact_libm_accurate
              Hlo Hle Hhi Hrange)
    as (theta & phi & radius & c' & Hdraws & _ & _ & Hrun & Hc').
  destruct (Hc' 1%Z) as (p & Hp & _ & _ & Hz); [simpl; lia|].
  exists theta, phi, radius, c', p.
  split; [exact Hdraws|]. split; [exact Hrun|]. split; [exact Hp|exact Hz].
Defined.

(** X4: the linear orbit divides by [num_frames]: for a frame range with
    [frame_end = frame_start - 1] it raises ZeroDivisionError and commits
    nothing; for [frame_end < frame_start - 2] the padded range is empty
    and the camera is left as it was; for [frame_end = frame_start - 2]
    the single padded frame is keyframed at the start azimuth. *)
Theorem linear_orbit_short_ranges `{Collaborators} (F : Flags)
    (theta phi radius : R) (c : Camera.t) :
  (num_frames F = 0%Z ->
   linear_orbit F theta phi radius c = Raise ZeroDivisionError) /\
  ((frame_end F < frame_start F - 2)%Z ->
   linear_orbit F theta phi radius c = Ok c) /\
  (frame_end F = (frame_start F - 2)%Z ->
   linear_orbit F theta phi radius c
   = Ok (commit_pose (xyz_curr theta phi radius) (frame_start F - 1) c)).
Proof.
  unfold linear_orbit, padded_range, Py.range. split; [|split].
  - intros Hn.
    replace (frame_end F + 2 - (frame_start F - 1))%Z with 2%Z
      by (unfold num_frames in Hn; lia).
    assert (seqZ (frame_start F - 1) 2
            = [(frame_start F - 1)%Z; frame_start F]) as ->
      by (unfold seqZ; simpl; repeat f_equal; lia).
    cbn [for_each]. unfold orbit_body at 1, theta_curr, Py.truediv.
    rewrite Hn. reflexivity.
  - intros Hshort. unfold seqZ.
    replace (Z.to_nat (frame_end F + 2 - (frame_start F - 1))) with 0%nat
      by lia.
    reflexivity.
  - intros Hone.
    replace (frame_end F + 2 - (frame_start F - 1))%Z with 1%Z by lia.
    assert (seqZ (frame_start F - 1) 1 = [(frame_start F - 1)%Z]) as ->
      by (unfold seqZ; simpl; repeat f_equal; lia).
    cbn [for_each].
    assert (num_frames F <> 0%Z) as Hn by (unfold num_frames; lia).
    rewrite (orbit_body_commit F theta phi radius _ c Hn). cbn [Py.bind].
    unfold orbit_azimuth.
    replace (frame_start F - 1 - frame_start F + 1)%Z with 0%Z by lia.
    replace (theta + 0 * (2 * PI) / IZR (num_frames F))%R with theta
      by (unfold Rdiv; ring).
    reflexivity.
Qed.

Lemma linear_orbit_short_ranges_witness :
  num_frames (mkFlags 1 0 15 20 0.3 0.5) = 0%Z /\
  @linear_orbit reference_collaborators (mkFlags 1 0 15 20 0.3 0.5) 0 (PI / 4)
                15 (@PerspectiveCamera reference_collaborators 35 32)
  = Raise ZeroDivisionError.
Proof.
  split; [reflexivity|].
  apply (@linear_orbit_short_ranges reference_collaborators
           (mkFlags 1 0 15 20 0.3 0.5)).
  reflexivity.
Defined.

(** X5: the camera block of the test scene returns for every frame
    range, also where the linear orbit raises: it draws once from the
    generator and calls the shell sampler once per frame of the padded
    range, and it changes no object of the scene. *)
Theorem test_camera_always_returns `{Collaborators} (F : Flags)
    (phi radius : R) (rng : RandomState) (calls : nat) (s : Scene) :
  let n := Z.to_nat (frame_end F - frame_start F + 3) in
  exists s',
    test_camera F phi radius rng calls s
    = Ok (s', advance n rng, (calls + n)%nat) /\
    forall r, heap s' r = heap s r.
Proof.
  intros n. unfold test_camera.
  assert (List.length (padded_range F) = n) as Hlen.
  { unfold padded_range, Py.range. rewrite length_seqZ. unfold n. f_equal. lia. }
  destruct (random_loop_log phi radius (padded_range F)
              (PerspectiveCamera 35 32) rng 0 rng) as (c1 & Hrun1 & _).
  { destruct rng; reflexivity. }
  destruct (shell_loop_log F (padded_range F) c1 calls 0) as (c2 & Hrun2 & _).
  rewrite Hlen in Hrun1, Hrun2.
  rewrite Nat.add_0_r in Hrun1. rewrite (Nat.add_0_r n), (Nat.add_0_r calls) in Hrun2.
  cbn [set_camera camera]. rewrite Hrun1. cbn [Py.bind]. rewrite Hrun2.
  cbn [Py.bind]. eexists. split; [reflexivity|].
  intros r. reflexivity.
Qed.

(* ===================================================================== *)
(** ** Further properties: the gso script *)
(* ===================================================================== *)

Lemma radians_full_turn (d : R) :
  Gso.radians (d + 360) = (Gso.radians d + 2 * PI)%R.
Proof. unfold Gso.radians. field. Qed.

Lemma norm2_azimuth_elevation (azimuth elevation radius : R) :
  norm2 (Gso.azimuth_elevation_to_cartesian azimuth elevation radius)
  = (radius * radius)%R.
Proof.
  unfold norm2, Gso.azimuth_elevation_to_cartesian, vx, vy, vz. cbn [fst snd].
  set (a := Gso.radians azimuth). set (e := Gso.radians elevation).
  pose proof (sin2_cos2 a) as Ha. pose proof (sin2_cos2 e) as He.
  unfold Rsqr in Ha, He.
  replace (radius * cos e * cos a * (radius * cos e * cos a)
           + radius * cos e * sin a * (radius * cos e * sin a)
           + radius * sin e * (radius * sin e))%R
    with (radius * radius
          * ((sin a * sin a + cos a * cos a) * (cos e * cos e)
             + sin e * sin e))%R by ring.
  rewrite Ha. replace (1 * (cos e * cos e) + sin e * sin e)%R
    with (sin e * sin e + cos e * cos e)%R by ring.
  rewrite He. ring.
Qed.

(** X6: [azimuth_elevation_to_cartesian] gives a point at the distance
    [radius] from the origin and at the height [radius * sin elevation];
    a full turn of 360 degrees of azimuth gives the same point, the
    opposite elevation gives the point mirrored in the ground plane, and
    the point is the position of the multicapture orbit at the azimuth
    and at the polar angle of 90 degrees minus the elevation. *)
Theorem azimuth_elevation_on_sphere (azimuth elevation radius : R) :
  let p := Gso.azimuth_elevation_to_cartesian azimuth elevation radius in
  norm2 p = (radius * radius)%R /\
  vz p = (radius * sin (Gso.radians elevation))%R /\
  Gso.azimuth_elevation_to_cartesian (azimuth + 360) elevation radius = p /\
  Gso.azimuth_elevation_to_cartesian azimuth (- elevation) radius
  = (vx p, vy p, - vz p)%R /\
  p = xyz_curr (Gso.radians azimuth) (PI / 2 - Gso.radians elevation) radius.
Proof.
  cbv zeta. split; [apply norm2_azimuth_elevation|].
  split; [reflexivity|]. split; [|split].
  - unfold Gso.azimuth_elevation_to_cartesian.
    rewrite radians_full_turn, cos_plus, sin_plus, cos_2PI, sin_2PI.
    repeat f_equal; ring.
  - unfold Gso.azimuth_elevation_to_cartesian, vx, vy, vz. cbn [fst snd].
    replace (Gso.radians (- elevation)) with (- Gso.radians elevation)%R
      by (unfold Gso.radians; ring).
    rewrite cos_neg, sin_neg. repeat f_equal; ring.
  - unfold Gso.azimuth_elevation_to_cartesian, xyz_curr, direction, vscale,
      vx, vy, vz. cbn [fst snd].
    rewrite sin_shift, cos_shift. f_equal; [f_equal|]; ring.
Qed.

Lemma zero123pp_on_sphere (p : Vec3) :
  In p Gso.get_zero123pp_camera -> norm2 p = (1.3 * 1.3)%R.
Proof.
  unfold Gso.get_zero123pp_camera. cbn [combine List.map In].
  intros Hin.
  repeat (destruct Hin as [<-|Hin]; [apply norm2_azimuth_elevation|]).
  destruct Hin.
Qed.

Section Fixed_list_reads.
Context `{Collaborators}.

Lemma set_cameras_reads (sync_dreamer_camera : list Vec3) (s : Scene) :
  List.length sync_dreamer_camera = 16%nat ->
  exists s',
    Gso.set_cameras sync_dreamer_camera s = Ok s' /\
    forall f, (1 <= f <= 22)%Z ->
      let p := listed_position sync_dreamer_camera f in
      keyframe_at "position" f (camera s') = Some (VVec3 p) /\
      keyframe_at "quaternion" f (camera s')
      = Some (VQuat (look_at_quaternion p (0, 0, 0)%R)).
Proof.
  intros Hlen.
  destruct (set_cameras_log sync_dreamer_camera s Hlen)
    as (s' & Hrun & _ & _ & _ & Hlog).
  exists s'. split; [exact Hrun|]. intros f Hf p.
  assert (In (f, p) (List.map (fun f => (f, listed_position sync_dreamer_camera f))
                              (Py.range 1 23))) as Hin.
  { apply in_map_iff. exists f. split; [reflexivity|]. apply in_range. lia. }
  rewrite !keyframe_at_filter, Hlog. split.
  - rewrite (filter_pose_log_position f p); [reflexivity| |exact Hin].
    rewrite map_fst_graph. apply NoDup_range.
  - rewrite (filter_pose_log_quaternion f p); [reflexivity| |exact Hin].
    rewrite map_fst_graph. apply NoDup_range.
Qed.
End Fixed_list_reads.

(** X7: after [set_cameras] the frames 1 to 16 read the 16 positions of
    the pose archive in their order, and the frames 17 to 22 read the six
    positions of [get_zero123pp_camera], each at the distance 1.3 from
    the origin whatever the archive holds; the views of the frames 17, 19
    and 21 are above the horizon at the height 0.65, those of the frames
    18, 20 and 22 below it. *)
Theorem set_cameras_views `{Collaborators} (sync_dreamer_camera : list Vec3)
    (s : Scene) :
  List.length sync_dreamer_camera = 16%nat ->
  exists s',
    Gso.set_cameras sync_dreamer_camera s = Ok s' /\
    (forall f, (1 <= f <= 16)%Z ->
       exists p,
         sync_dreamer_camera !! Z.to_nat (f - 1) = Some p /\
         keyframe_at "position" f (camera s') = Some (VVec3 p)) /\
    (forall f, (17 <= f <= 22)%Z ->
       exists p,
         Gso.get_zero123pp_camera !! Z.to_nat (f - 17) = Some p /\
         keyframe_at "position" f (camera s') = Some (VVec3 p) /\
         norm2 p = (1.3 * 1.3)%R /\
         (Z.odd f = true -> vz p = 0.65%R) /\
         (Z.odd f = false -> (vz p < 0)%R)).
Proof.
  intros Hlen.
  destruct (set_cameras_reads sync_dreamer_camera s Hlen) as (s' & Hrun & Hread).
  exists s'. split; [exact Hrun|]. split.
  - intros f Hf. destruct (Hread f) as [Hp _]; [lia|].
    exists (listed_position sync_dreamer_camera f). split; [|exact Hp].
    unfold listed_position.
    rewrite app_nth1 by lia.
    destruct (nth_lookup_or_length sync_dreamer_camera (Z.to_nat (f - 1))
                (0, 0, 0)%R) as [Hsome|Hlong]; [exact Hsome|lia].
  - intros f Hf. destruct (Hread f) as [Hp _]; [lia|].
    exists (listed_position sync_dreamer_camera f).
    assert (listed_position sync_dreamer_camera f
            = List.nth (Z.to_nat (f - 17)) Gso.get_zero123pp_camera
                       (0, 0, 0)%R) as Hnth.
    { unfold listed_position. rewrite app_nth2 by lia. f_equal. lia. }
    assert (Gso.get_zero123pp_camera !! Z.to_nat (f - 17)
            = Some (listed_position sync_dreamer_camera f)) as Hlook.
    { rewrite Hnth.
      destruct (nth_lookup_or_length Gso.get_zero123pp_camera
                  (Z.to_nat (f - 17)) (0, 0, 0)%R) as [Hsome|Hlong];
        [exact Hsome|].
      unfold Gso.get_zero123pp_camera in Hlong. simpl in Hlong. lia. }
    split; [exact Hlook|]. split; [exact Hp|]. split.
    + apply zero123pp_on_sphere. apply list_elem_of_In.
      apply (list_elem_of_lookup_2 _ _ _ Hlook).
    + rewrite Hnth.
      assert (sin (Gso.radians 30) = (1 / 2)%R) as Hup.
      { replace (Gso.radians 30) with (PI / 6)%R
          by (unfold Gso.radians; field).
        apply sin_PI6. }
      assert (sin (Gso.radians (-20)) < 0)%R as Hdown.
      { replace (Gso.radians (-20)) with (- (PI / 9))%R
          by (unfold Gso.radians; field).
        rewrite sin_neg. pose proof PI_RGT_0 as Hpi.
        assert (0 < sin (PI / 9))%R by (apply sin_gt_0; lra). lra. }
      assert (f = 17 \/ f = 18 \/ f = 19 \/ f = 20 \/ f = 21 \/ f = 22)%Z
        as Hcases by lia.
      unfold Gso.get_zero123pp_camera, Gso.azimuth_elevation_to_cartesian.
      cbn [combine List.map]. unfold vz.
      destruct Hcases as [-> | [-> | [-> | [-> | [-> | ->]]]]];
        match goal with
        | |- context [Z.to_nat ?z] =>
            let n := eval vm_compute in (Z.to_nat z) in
            change (Z.to_nat z) with n
        end;
        cbn [List.nth snd Z.odd];
        (split; intros Hodd;
         [try discriminate Hodd; rewrite Hup; lra
         |try discriminate Hodd; nra]).
Qed.

Lemma set_cameras_views_witness :
  List.length (List.repeat (0, 0, 1)%R 16) = 16%nat /\
  exists s' p,
    @Gso.set_cameras reference_collaborators (List.repeat (0, 0, 1)%R 16)
                     empty_scene = Ok s' /\
    keyframe_at "position" 16 (camera s') = Some (VVec3 (0, 0, 1)%R) /\
    keyframe_at "position" 17 (camera s') = Some (VVec3 p) /\
    norm2 p = (1.3 * 1.3)%R /\ vz p = 0.65%R.
Proof.
  split; [reflexivity|].
  destruct (@set_cameras_views reference_collaborators
              (List.repeat (0, 0, 1)%R 16) empty_scene eq_refl)
    as (s' & Hrun & Harchive & Hviews).
  destruct (Harchive 16%Z) as (q & Hq & Hread16); [lia|].
  destruct (Hviews 17%Z) as (p & _ & Hread17 & Hnorm & Hup & _); [lia|].
  exists s', p. split; [exact Hrun|].
  split; [|split; [exact Hread17|split; [exact Hnorm|apply Hup; reflexivity]]].
  rewrite Hread16. simpl in Hq. inversion Hq. reflexivity.
Defined.

Lemma getitem_out_of_range {A : Type} (l : list A) (i : Z) :
  (i < - Z.of_nat (List.length l) \/ Z.of_nat (List.length l) <= i)%Z ->
  Py.getitem l i = Raise IndexError.
Proof.
  intros Hi. unfold Py.getitem.
  destruct (Z.ltb_spec i 0) as [Hneg|Hpos].
  - destruct (Z.leb_spec 0 (i + Z.of_nat (List.length l))) as [Hle|Hlt];
      [|reflexivity].
    destruct (Z.ltb_spec (i + Z.of_nat (List.length l))
                (Z.of_nat (List.length l))) as [Hlt|Hge]; [|reflexivity].
    lia.
  - destruct (Z.leb_spec 0 i) as [_|]; [|lia].
    destruct (Z.ltb_spec i (Z.of_nat (List.length l))) as [Hlt|Hge];
      [lia|reflexivity].
Qed.

Lemma getitem_negative {A : Type} (l : list A) (i : Z) :
  (- Z.of_nat (List.length l) <= i < 0)%Z ->
  Py.getitem l i = Py.getitem l (i + Z.of_nat (List.length l)).
Proof.
  intros Hi. unfold Py.getitem.
  destruct (Z.ltb_spec i 0) as [_|]; [|lia].
  destruct (Z.ltb_spec (i + Z.of_nat (List.length l)) 0) as [|_]; [lia|].
  reflexivity.
Qed.

(** X8: [render] selects the asset with Python's indexing: an index of
    the job directory at or beyond the number of assets, or below its
    negation, raises IndexError; a negative index within the range selects
    from the end, as the index plus the number of assets does. *)
Theorem render_asset_index `{Collaborators} (lights : list Asset.t)
    (sync_dreamer_camera : list Vec3) (asset_ids : list string)
    (asset_index : Z) (s : Scene) :
  List.length sync_dreamer_camera = 16%nat ->
  let n := Z.of_nat (List.length asset_ids) in
  ((asset_index < - n \/ n <= asset_index)%Z ->
   Gso.render lights sync_dreamer_camera asset_ids asset_index s
   = Raise IndexError) /\
  ((- n <= asset_index < 0)%Z ->
   Gso.render lights sync_dreamer_camera asset_ids asset_index s
   = Gso.render lights sync_dreamer_camera asset_ids (asset_index + n) s).
Proof.
  intros Hlen n. unfold Gso.render.
  destruct (set_cameras_log sync_dreamer_camera (Gso.add_all lights s) Hlen)
    as (s1 & Hrun & _).
  rewrite Hrun. cbn [Py.bind]. split.
  - intros Hout. rewrite (getitem_out_of_range asset_ids asset_index Hout).
    reflexivity.
  - intros Hneg. rewrite (getitem_negative asset_ids asset_index Hneg).
    reflexivity.
Qed.

Lemma render_asset_index_witness :
  List.length (List.repeat (0, 0, 1)%R 16) = 16%nat /\
  @Gso.render reference_collaborators [] (List.repeat (0, 0, 1)%R 16)
              ["bowl"; "shoe"]%string 2 empty_scene = Raise IndexError /\
  @Gso.render reference_collaborators [] (List.repeat (0, 0, 1)%R 16)
              ["bowl"; "shoe"]%string (-1) empty_scene
  = @Gso.render reference_collaborators [] (List.repeat (0, 0, 1)%R 16)
                ["bowl"; "shoe"]%string 1 empty_scene.
Proof.
  split; [reflexivity|].
  split.
  - destruct (@render_asset_index reference_collaborators []
                (List.repeat (0, 0, 1)%R 16) ["bowl"; "shoe"]%string 2
                empty_scene eq_refl) as [Hout _].
    apply Hout. simpl. lia.
  - destruct (@render_asset_index reference_collaborators []
                (List.repeat (0, 0, 1)%R 16) ["bowl"; "shoe"]%string (-1)
                empty_scene eq_refl) as [_ Hneg].
    apply Hneg. simpl. lia.
Defined.

Lemma vmax_vabs_scaled (v : Vec3) (k : R) :
  (0 <= k)%R -> vmax (vabs (vscale v k)) = (k * vmax (vabs v))%R.
Proof.
  intros Hk. unfold vmax, vabs, vscale, vx, vy, vz. cbn [fst snd].
  rewrite !Rabs_mult, (Rabs_pos_eq k Hk).
  rewrite <- !RmaxRmult by exact Hk.
  f_equal; [f_equal|]; ring.
Qed.

Lemma abs_max_scaled (box : Vec3 * Vec3) (k : R) :
  (0 <= k)%R -> Gso.abs_max (scale_box k box) = (k * Gso.abs_max box)%R.
Proof.
  intros Hk. unfold Gso.abs_max, scale_box. cbn [fst snd].
  rewrite !vmax_vabs_scaled by exact Hk.
  rewrite RmaxRmult by exact Hk. reflexivity.
Qed.

Lemma abs_max_nonneg (box : Vec3 * Vec3) : (0 <= Gso.abs_max box)%R.
Proof.
  unfold Gso.abs_max, vmax, vabs, vx, vy, vz. cbn [fst snd].
  eapply Rle_trans; [|apply Rmax_l].
  eapply Rle_trans; [|apply Rmax_l].
  eapply Rle_trans; [|apply Rmax_l].
  apply Rabs_pos.
Qed.

(** X9: where the bounding box of the selected asset grows in proportion
    to the scale and is not the single point of the origin, the object
    [render] adds to the scene is normalized: the maximum absolute
    coordinate of its bounding box is [1.3 * 0.30 = 0.39], whatever the
    size of the asset. *)
Theorem render_normalizes_object `{Collaborators} (lights : list Asset.t)
    (sync_dreamer_camera : list Vec3) (asset_ids : list string)
    (asset_index : Z) (id : string) (s : Scene) :
  List.length sync_dreamer_camera = 16%nat ->
  Py.getitem asset_ids asset_index = Ok id ->
  aabbox_scales id ->
  Gso.abs_max (aabbox (Asset.set_scale 1 (create id))) <> 0%R ->
  exists s' obj,
    Gso.render lights sync_dreamer_camera asset_ids asset_index s
    = Ok (s', obj) /\
    In obj (assets s') /\
    Gso.abs_max (aabbox (heap s' obj)) = 0.39%R.
Proof.
  intros Hlen Hid Hscales Hbox. unfold Gso.render.
  destruct (set_cameras_log sync_dreamer_camera (Gso.add_all lights s) Hlen)
    as (s1 & Hrun & _).
  rewrite Hrun. cbn [Py.bind]. rewrite Hid. cbn [Py.bind].
  unfold new, add. cbn [heap next_ref assets].
  rewrite fn_lookup_insert.
  set (bbox_max := Gso.abs_max (aabbox (Asset.set_scale 1 (create id)))) in *.
  do 2 eexists. split; [reflexivity|]. cbn [heap assets]. split.
  - apply in_app_iff. right. left. reflexivity.
  - rewrite fn_lookup_insert.
    pose proof (abs_max_nonneg (aabbox (Asset.set_scale 1 (create id))))
      as Hpos. fold bbox_max in Hpos.
    assert (0 < bbox_max)%R as Hlt by lra.
    assert (0 <= 1.3 / bbox_max * 0.30)%R as Hk.
    { apply Rmult_le_pos; [|lra]. apply Rlt_le, Rdiv_lt_0_compat; lra. }
    rewrite (Hscales _ Hk), abs_max_scaled by exact Hk.
    fold bbox_max.
    assert (forall a b, (a / bbox_max * b * bbox_max = a * b)%R) as Hcancel
      by (intros a b; field; lra).
    rewrite Hcancel. lra.
Qed.

Lemma render_normalizes_object_witness :
  List.length (List.repeat (0, 0, 1)%R 16) = 16%nat /\
  Py.getitem ["bowl"; "shoe"]%string 1 = Ok "shoe"%string /\
  @aabbox_scales reference_collaborators "shoe" /\
  Gso.abs_max (@aabbox reference_collaborators
                 (Asset.set_scale 1 (@create reference_collaborators "shoe")))
  <> 0%R /\
  exists s' obj,
    @Gso.render reference_collaborators
      [@create reference_collaborators "sun"]
      (List.repeat (0, 0, 1)%R 16) ["bowl"; "shoe"]%string 1 empty_scene
    = Ok (s', obj) /\
    In obj (assets s') /\
    Gso.abs_max (@aabbox reference_collaborators (heap s' obj)) = 0.39%R.
Proof.
  assert (@aabbox_scales reference_collaborators "shoe") as Hscales.
  { intros k Hk.
    cbn [aabbox reference_collaborators create Asset.bounds Asset.scale
         Asset.set_scale].
    unfold scale_box, vscale, vx, vy, vz. cbn [fst snd].
    repeat match goal with
           | |- (_, _) = (_, _) => apply f_equal2
           end; ring. }
  assert (Gso.abs_max (@aabbox reference_collaborators
                         (Asset.set_scale 1
                            (@create reference_collaborators "shoe")))
          <> 0%R) as Hbox.
  { cbn [aabbox reference_collaborators create Asset.bounds Asset.scale
         Asset.set_scale].
    unfold Gso.abs_max, vmax, vabs, vscale, vx, vy, vz. cbn [fst snd].
    rewrite !Rmult_0_l, !Rmult_1_l, Rabs_R0, Rabs_R1. unfold Rmax.
    repeat (destruct (Rle_dec _ _)); lra. }
  split; [reflexivity|]. split; [reflexivity|].
  split; [exact Hscales|]. split; [exact Hbox|].
  exact (@render_normalizes_object reference_collaborators
           [@create reference_collaborators "sun"]
           (List.repeat (0, 0, 1)%R 16) ["bowl"; "shoe"]%string 1
           "shoe"%string empty_scene eq_refl eq_refl Hscales Hbox).
Defined.

(* ===================================================================== *)
(** ** Further properties: the placement of the objects *)
(* ===================================================================== *)

Section Placement_loops.
Context `{Collaborators}.

Lemma unit_draws_kept (rng rng' : RandomState) :
  draws rng' = draws rng -> unit_draws rng -> unit_draws rng'.
Proof. intros Heq Hu n. rewrite Heq. apply Hu. Qed.

(** A loop whose body creates one object, adds it to the scene and
    leaves the others alone. *)
Lemma placement_loop
    (body : Scene * RandomState -> result (Scene * RandomState))
    (P : Asset.t -> Prop) :
  (forall s rng, unit_draws rng ->
     exists s' rng',
       body (s, rng) = Ok (s', rng') /\
       draws rng' = draws rng /\
       next_ref s' = S (next_ref s) /\
       assets s' = assets s ++ [next_ref s] /\
       (forall r, r <> next_ref s -> heap s' r = heap s r) /\
       P (heap s' (next_ref s))) ->
  forall (xs : list Z) s rng, unit_draws rng ->
    exists s' rng',
      for_each xs (fun _ => body) (s, rng) = Ok (s', rng') /\
      draws rng' = draws rng /\
      next_ref s' = (next_ref s + List.length xs)%nat /\
      assets s' = assets s ++ seq (next_ref s) (List.length xs) /\
      (forall r, (r < next_ref s)%nat -> heap s' r = heap s r) /\
      (forall obj, In obj (seq (next_ref s) (List.length xs)) ->
                   P (heap s' obj)).
Proof.
  intros Hbody xs. induction xs as [|x xs IH]; intros s rng Hu.
  - exists s, rng. cbn [for_each List.length seq].
    rewrite Nat.add_0_r, app_nil_r.
    repeat split; try reflexivity. intros obj [].
  - destruct (Hbody s rng Hu)
      as (s1 & rng1 & Hrun1 & Hdraws1 & Hnext1 & Hassets1 & Hheap1 & HP1).
    destruct (IH s1 rng1 (unit_draws_kept rng rng1 Hdraws1 Hu))
      as (s' & rng' & Hrun & Hdraws & Hnext & Hassets & Hheap & HP).
    exists s', rng'. cbn [for_each]. rewrite Hrun1. cbn [Py.bind].
    split; [exact Hrun|]. rewrite Hnext1 in *.
    split; [rewrite Hdraws; exact Hdraws1|].
    split; [rewrite Hnext; simpl; lia|].
    split; [rewrite Hassets, Hassets1, <- app_assoc; reflexivity|].
    split.
    + intros r Hr. rewrite Hheap by lia. apply Hheap1. lia.
    + intros obj Hin. cbn [List.length seq] in Hin.
      destruct Hin as [<-|Hin].
      * rewrite Hheap by lia. exact HP1.
      * apply HP. exact Hin.
Qed.

Lemma scaled_by_draw (o : Asset.t) (u : R) :
  (0 <= u < 1)%R -> longest_side o <> 0%R ->
  Asset.target_scale (Asset.metadata o) = Some (0.75 + (3.0 - 0.75) * u)%R ->
  Asset.scale o = ((0.75 + (3.0 - 0.75) * u) / longest_side o)%R ->
  scaled_to_target o.
Proof.
  intros Hu Hside Htarget Hscale. exists (0.75 + (3.0 - 0.75) * u)%R.
  split; [exact Htarget|]. split; [lra|].
  rewrite Hscale. field. exact Hside.
Qed.

Lemma add_static_object_placed (active_split : list string) (s : Scene)
    (rng : RandomState) :
  placement_succeeds_in STATIC_SPAWN_REGION active_split ->
  generator_kept -> creates_objects -> unit_draws rng ->
  exists s' rng',
    add_static_object active_split (s, rng) = Ok (s', rng') /\
    draws rng' = draws rng /\
    next_ref s' = S (next_ref s) /\
    assets s' = assets s ++ [next_ref s] /\
    (forall r, r <> next_ref s -> heap s' r = heap s r) /\
    placed_static (heap s' (next_ref s)).
Proof.
  intros [Hchoice Hmove] [Hkept_choice Hkept_move] Hcreate Hu.
  unfold add_static_object.
  destruct (Hchoice rng) as (id & rng1 & Hid). rewrite Hid. cbn [Py.bind].
  pose proof (Hkept_choice _ _ _ _ Hid) as Hdraws1.
  unfold new, uniform, random_sample.
  cbn [heap next_ref assets setattr set_heap add draws cursor].
  match goal with
  | |- context [move_until_no_overlap ?h ?a ?o ?reg ?g] =>
      destruct (Hmove h a o g) as (p & rng2 & Hp);
      pose proof (Hkept_move _ _ _ _ _ _ _ Hp) as Hdraws2
  end.
  rewrite Hp. cbn [Py.bind draws] in *.
  do 2 eexists. split; [reflexivity|].
  cbn [heap next_ref assets setattr set_heap add].
  split; [rewrite Hdraws2; exact Hdraws1|].
  split; [reflexivity|]. split; [reflexivity|]. split.
  - intros r Hr.
    rewrite !fn_lookup_alter_ne by (intros Heq; apply Hr; symmetry; exact Heq).
    apply fn_lookup_insert_ne. intros Heq; apply Hr; symmetry; exact Heq.
  - rewrite !fn_lookup_alter, !fn_lookup_insert.
    destruct (Hcreate id) as (Hbg & Hvel & Hside).
    unfold placed_static.
    split; [reflexivity|]. split; [reflexivity|]. split; [reflexivity|].
    split; [exact Hbg|]. split; [exact Hvel|].
    apply (scaled_by_draw _ (draws rng1 (cursor rng1))).
    + rewrite Hdraws1. apply Hu.
    + exact Hside.
    + reflexivity.
    + reflexivity.
Qed.

Lemma add_dynamic_object_placed (active_split : list string) (s : Scene)
    (rng : RandomState) :
  placement_succeeds active_split ->
  generator_kept -> creates_objects -> unit_draws rng ->
  exists s' rng',
    add_dynamic_object active_split (s, rng) = Ok (s', rng') /\
    draws rng' = draws rng /\
    next_ref s' = S (next_ref s) /\
    assets s' = assets s ++ [next_ref s] /\
    (forall r, r <> next_ref s -> heap s' r = heap s r) /\
    placed_dynamic (heap s' (next_ref s)).
Proof.
  intros [Hchoice Hmove] [Hkept_choice Hkept_move] Hcreate Hu.
  unfold add_dynamic_object.
  destruct (Hchoice rng) as (id & rng1 & Hid). rewrite Hid. cbn [Py.bind].
  pose proof (Hkept_choice _ _ _ _ Hid) as Hdraws1.
  unfold new, uniform3, uniform, random_sample.
  cbn [heap next_ref assets setattr set_heap add draws cursor].
  match goal with
  | |- context [move_until_no_overlap ?h ?a ?o ?reg ?g] =>
      destruct (Hmove h a o g) as (p & rng2 & Hp);
      pose proof (Hkept_move _ _ _ _ _ _ _ Hp) as Hdraws2
  end.
  rewrite Hp. cbn [Py.bind draws cursor] in *.
  do 2 eexists. split; [reflexivity|].
  cbn [heap next_ref assets setattr set_heap add draws].
  split; [rewrite Hdraws2; exact Hdraws1|].
  split; [reflexivity|]. split; [reflexivity|]. split.
  - intros r Hr.
    rewrite !fn_lookup_alter_ne by (intros Heq; apply Hr; symmetry; exact Heq).
    apply fn_lookup_insert_ne. intros Heq; apply Hr; symmetry; exact Heq.
  - rewrite !fn_lookup_alter, !fn_lookup_insert.
    destruct (Hcreate id) as (Hbg & Hvel & Hside).
    unfold placed_dynamic.
    split; [exists id; split; reflexivity|].
    split; [reflexivity|]. split; [exact Hbg|]. split; [reflexivity|].
    apply (scaled_by_draw _ (draws rng1 (cursor rng1))).
    + rewrite Hdraws1. apply Hu.
    + exact Hside.
    + reflexivity.
    + reflexivity.
Qed.
End Placement_loops.

(** X10: when placement succeeds the loop that adds the static objects
    returns; it adds [num_static_objects] new objects to the scene, after
    the assets the scene had, and changes no object that existed; each
    new object has friction 1.0, restitution 0.0, is marked not dynamic,
    and is scaled so that its longest side has the size drawn into its
    metadata, between 0.75 and 3.0. *)
Theorem static_objects_placed `{Collaborators} (num_static_objects : Z)
    (active_split : list string) (s : Scene) (rng : RandomState) :
  placement_succeeds_in STATIC_SPAWN_REGION active_split ->
  generator_kept -> creates_objects -> unit_draws rng ->
  exists s' rng',
    add_static_objects num_static_objects active_split (s, rng)
    = Ok (s', rng') /\
    assets s' = assets s ++ seq (next_ref s) (Z.to_nat num_static_objects) /\
    (forall r, (r < next_ref s)%nat -> heap s' r = heap s r) /\
    forall obj, In obj (seq (next_ref s) (Z.to_nat num_static_objects)) ->
      let o := heap s' obj in
      Asset.friction o = Some 1.0%R /\
      Asset.restitution o = Some 0.0%R /\
      Asset.is_dynamic (Asset.metadata o) = Some false /\
      exists target,
        Asset.target_scale (Asset.metadata o) = Some target /\
        (0.75 <= target < 3.0)%R /\
        (Asset.scale o * longest_side o = target)%R.
Proof.
  intros Hok Hkept Hcreate Hu. unfold add_static_objects.
  destruct (placement_loop (add_static_object active_split) placed_static
              (fun s0 rng0 => add_static_object_placed active_split s0 rng0
                                Hok Hkept Hcreate)
              (Py.range 0 num_static_objects) s rng Hu)
    as (s' & rng' & Hrun & _ & _ & Hassets & Hheap & Hplaced).
  unfold Py.range in Hassets, Hplaced. rewrite length_seqZ in Hassets, Hplaced.
  replace (Z.to_nat (num_static_objects - 0))
    with (Z.to_nat num_static_objects) in Hassets, Hplaced by lia.
  exists s', rng'. split; [exact Hrun|]. split; [exact Hassets|].
  split; [exact Hheap|]. intros obj Hin. cbv zeta.
  destruct (Hplaced obj Hin) as (Hf & Hr & Hd & _ & _ & Hscaled).
  repeat (split; [assumption|]). exact Hscaled.
Qed.

(** X11: when placement succeeds the loop that adds the dynamic objects
    changes no object that existed, so the objects the reset has calmed
    stay calmed; it sets neither the friction nor the restitution of the
    objects it adds, which keep those the asset source created them with;
    each new object is marked dynamic and is scaled so that its longest
    side has the size drawn into its metadata, between 0.75 and 3.0. *)
Theorem dynamic_objects_placed `{Collaborators} (num_dynamic_objects : Z)
    (active_split : list string) (s : Scene) (rng : RandomState) :
  placement_succeeds active_split ->
  generator_kept -> creates_objects -> unit_draws rng ->
  exists s' rng',
    add_dynamic_objects num_dynamic_objects active_split (s, rng)
    = Ok (s', rng') /\
    (forall r, (r < next_ref s)%nat -> heap s' r = heap s r) /\
    forall obj, In obj (seq (next_ref s) (Z.to_nat num_dynamic_objects)) ->
      let o := heap s' obj in
      (exists id,
          Asset.friction o = Asset.friction (create id) /\
          Asset.restitution o = Asset.restitution (create id)) /\
      Asset.is_dynamic (Asset.metadata o) = Some true /\
      exists target,
        Asset.target_scale (Asset.metadata o) = Some target /\
        (0.75 <= target < 3.0)%R /\
        (Asset.scale o * longest_side o = target)%R.
Proof.
  intros Hok Hkept Hcreate Hu. unfold add_dynamic_objects.
  destruct (placement_loop (add_dynamic_object active_split) placed_dynamic
              (fun s0 rng0 => add_dynamic_object_placed active_split s0 rng0
                                Hok Hkept Hcreate)
              (Py.range 0 num_dynamic_objects) s rng Hu)
    as (s' & rng' & Hrun & _ & _ & _ & Hheap & Hplaced).
  unfold Py.range in Hplaced. rewrite length_seqZ in Hplaced.
  replace (Z.to_nat (num_dynamic_objects - 0))
    with (Z.to_nat num_dynamic_objects) in Hplaced by lia.
  exists s', rng'. split; [exact Hrun|]. split; [exact Hheap|].
  intros obj Hin. cbv zeta.
  destruct (Hplaced obj Hin) as (Hf & Hd & _ & _ & Hscaled).
  split; [exact Hf|]. split; [exact Hd|exact Hscaled].
Qed.

(** *** The reference collaborators place objects *)

Lemma reference_generator_kept : @generator_kept reference_collaborators.
Proof.
  split.
  - intros [|id0 ids] rng id rng' Hc; simpl in Hc; [discriminate|].
    inversion Hc. reflexivity.
  - intros h objs obj region rng p rng' Hm. simpl in Hm.
    inversion Hm. reflexivity.
Qed.

Lemma reference_creates_objects : @creates_objects reference_collaborators.
Proof.
  intros id. split; [reflexivity|]. split; [reflexivity|].
  unfold longest_side, vmax, vsub, vx, vy, vz.
  cbn [create reference_collaborators Asset.bounds fst snd].
  unfold Rmax. repeat (destruct (Rle_dec _ _)); lra.
Qed.

Lemma reference_placement (region : Vec3 * Vec3) (id : string)
    (ids : list string) :
  @placement_succeeds_in reference_collaborators region (id :: ids).
Proof.
  split.
  - intros rng. exists id, rng. reflexivity.
  - intros h objs obj rng. exists (fst region), rng. reflexivity.
Qed.

Lemma static_objects_placed_witness :
  @placement_succeeds_in reference_collaborators STATIC_SPAWN_REGION
                         ["shoe"%string] /\
  @generator_kept reference_collaborators /\
  @creates_objects reference_collaborators /\
  unit_draws half_rng /\
  exists s' rng',
    @add_static_objects reference_collaborators 2 ["shoe"%string]
                        (empty_scene, half_rng) = Ok (s', rng') /\
    assets s' = [0; 1]%nat /\
    Asset.friction (heap s' 1%nat) = Some 1.0%R /\
    Asset.restitution (heap s' 1%nat) = Some 0.0%R.
Proof.
  pose proof (reference_placement STATIC_SPAWN_REGION "shoe" []) as Hok.
  split; [exact Hok|]. split; [exact reference_generator_kept|].
  split; [exact reference_creates_objects|]. split; [exact half_rng_unit|].
  destruct (@static_objects_placed reference_collaborators 2 ["shoe"%string]
              empty_scene half_rng Hok reference_generator_kept
              reference_creates_objects half_rng_unit)
    as (s' & rng' & Hrun & Hassets & _ & Hobjs).
  exists s', rng'. split; [exact Hrun|]. split; [exact Hassets|].
  destruct (Hobjs 1%nat) as (Hf & Hr & _).
  - right. left. reflexivity.
  - split; assumption.
Defined.

Lemma dynamic_objects_placed_witness :
  @placement_succeeds reference_collaborators ["shoe"%string] /\
  @generator_kept reference_collaborators /\
  @creates_objects reference_collaborators /\
  unit_draws half_rng /\
  exists s' rng',
    @add_dynamic_objects reference_collaborators 2 ["shoe"%string]
                         (settled_scene, half_rng) = Ok (s', rng') /\
    heap s' 1%nat = heap settled_scene 1%nat /\
    Asset.is_dynamic (Asset.metadata (heap s' 3%nat)) = Some true.
Proof.
  pose proof (reference_placement DYNAMIC_SPAWN_REGION "shoe" []) as Hok.
  split; [exact Hok|]. split; [exact reference_generator_kept|].
  split; [exact reference_creates_objects|]. split; [exact half_rng_unit|].
  destruct (@dynamic_objects_placed reference_collaborators 2 ["shoe"%string]
              settled_scene half_rng Hok reference_generator_kept
              reference_creates_objects half_rng_unit)
    as (s' & rng' & Hrun & Hheap & Hobjs).
  exists s', rng'. split; [exact Hrun|].
  split; [apply Hheap; simpl; lia|].
  destruct (Hobjs 3%nat) as (_ & Hd & _).
  - right. left. reflexivity.
  - exact Hd.
Defined.

(* ===================================================================== *)
(** ** Further properties: the reset and the settle phase *)
(* ===================================================================== *)

Lemma background_resetting (F : Flags) (dome : ref) (s : Scene) (r : ref) :
  Asset.background (heap (resetting F dome s) r)
  = Asset.background (heap s r).
Proof.
  rewrite heap_resetting. cbn zeta.
  destruct (decide (dome = r)); destruct (decide (r ∈ foreground_assets s));
    cbn [Asset.background Asset.set_restitution Asset.set_friction];
    rewrite ?background_reset_object; reflexivity.
Qed.

Lemma assets_resetting (F : Flags) (dome : ref) (s : Scene) :
  assets (resetting F dome s) = assets s.
Proof.
  unfold resetting, setattr. cbn [assets set_heap]. apply assets_fold_reset.
Qed.

Lemma foreground_assets_resetting (F : Flags) (dome : ref) (s : Scene) :
  foreground_assets (resetting F dome s) = foreground_assets s.
Proof.
  unfold foreground_assets. rewrite assets_resetting.
  apply filter_ext. intros r. rewrite background_resetting. reflexivity.
Qed.

(** X12: the reset writes velocity, friction and restitution only: the
    identifier, the background flag, the scale, the position, the bounds
    and the metadata of every object stay as they were; an object other
    than the dome that is background, or not an asset of the scene, or
    exposes no velocity, is not changed at all; and a second reset
    changes nothing. *)
Theorem resetting_writes_physics_only (F : Flags) (dome : ref) (s : Scene)
    (r : ref) :
  let o := heap s r in
  let o' := heap (resetting F dome s) r in
  Asset.asset_id o' = Asset.asset_id o /\
  Asset.background o' = Asset.background o /\
  Asset.scale o' = Asset.scale o /\
  Asset.position o' = Asset.position o /\
  Asset.bounds o' = Asset.bounds o /\
  Asset.metadata o' = Asset.metadata o /\
  (r <> dome ->
   ~ In r (foreground_assets s) \/ Asset.has_velocity o = false ->
   o' = o) /\
  heap (resetting F dome (resetting F dome s)) r = o'.
Proof.
  cbv zeta.
  assert (forall o, Asset.asset_id (reset_object o) = Asset.asset_id o /\
                    Asset.scale (reset_object o) = Asset.scale o /\
                    Asset.position (reset_object o) = Asset.position o /\
                    Asset.bounds (reset_object o) = Asset.bounds o /\
                    Asset.metadata (reset_object o) = Asset.metadata o)
    as Hkeep.
  { intros o. unfold reset_object.
    destruct (Asset.has_velocity o); repeat split; reflexivity. }
  repeat split.
  - rewrite heap_resetting. cbn zeta. destruct (Hkeep (heap s r)) as (Hk & _).
    destruct (decide (dome = r)); destruct (decide (r ∈ foreground_assets s));
      cbn [Asset.asset_id Asset.set_restitution Asset.set_friction];
      rewrite ?Hk; reflexivity.
  - apply background_resetting.
  - rewrite heap_resetting. cbn zeta.
    destruct (Hkeep (heap s r)) as (_ & Hk & _).
    destruct (decide (dome = r)); destruct (decide (r ∈ foreground_assets s));
      cbn [Asset.scale Asset.set_restitution Asset.set_friction];
      rewrite ?Hk; reflexivity.
  - rewrite heap_resetting. cbn zeta.
    destruct (Hkeep (heap s r)) as (_ & _ & Hk & _).
    destruct (decide (dome = r)); destruct (decide (r ∈ foreground_assets s));
      cbn [Asset.position Asset.set_restitution Asset.set_friction];
      rewrite ?Hk; reflexivity.
  - rewrite heap_resetting. cbn zeta.
    destruct (Hkeep (heap s r)) as (_ & _ & _ & Hk & _).
    destruct (decide (dome = r)); destruct (decide (r ∈ foreground_assets s));
      cbn [Asset.bounds Asset.set_restitution Asset.set_friction];
      rewrite ?Hk; reflexivity.
  - rewrite heap_resetting. cbn zeta.
    destruct (Hkeep (heap s r)) as (_ & _ & _ & _ & Hk).
    destruct (decide (dome = r)); destruct (decide (r ∈ foreground_assets s));
      cbn [Asset.metadata Asset.set_restitution Asset.set_friction];
      rewrite ?Hk; reflexivity.
  - intros Hne Hskip. rewrite heap_resetting. cbn zeta.
    destruct (decide (dome = r)) as [Heq|_]; [exfalso; apply Hne; auto|].
    destruct (decide (r ∈ foreground_assets s)) as [Hin|_]; [|reflexivity].
    destruct Hskip as [Hnot|Hnovel].
    + exfalso. apply Hnot, list_elem_of_In. exact Hin.
    + unfold reset_object. rewrite Hnovel. reflexivity.
  - rewrite (heap_resetting F dome (resetting F dome s)).
    rewrite foreground_assets_resetting, heap_resetting. cbn zeta.
    destruct (decide (dome = r)); destruct (decide (r ∈ foreground_assets s));
      unfold reset_object, Asset.has_velocity;
      destruct (heap s r) as [id bg sc pos bnd [v|] fr re md]; reflexivity.
Qed.

(** X13: the settle phase end to end. The dome is created as a background
    object with friction 1.0 and restitution 0.0, and the static objects
    are placed after it with friction 1.0 and restitution 0.0; after any
    settle simulation, which may move the objects, the reset leaves every
    static object with velocity (0, 0, 0), friction 0.5 and restitution
    0.5, and the dome, which the loop over the foreground objects never
    visits, with the friction and the restitution of the flags. *)
Theorem settle_phase `{Collaborators} (F : Flags) (num_static_objects : Z)
    (active_split : list string) (s0 : Scene) (rng : RandomState) :
  placement_succeeds_in STATIC_SPAWN_REGION active_split ->
  generator_kept -> creates_objects -> unit_draws rng ->
  let dome := fst (add_dome s0) in
  let statics := seq (S dome) (Z.to_nat num_static_objects) in
  exists s2 rng',
    add_static_objects num_static_objects active_split
                       (snd (add_dome s0), rng) = Ok (s2, rng') /\
    assets s2 = assets s0 ++ dome :: statics /\
    Asset.background (heap s2 dome) = true /\
    Asset.friction (heap s2 dome) = Some 1.0%R /\
    Asset.restitution (heap s2 dome) = Some 0.0%R /\
    (forall obj, In obj statics ->
       Asset.friction (heap s2 obj) = Some 1.0%R /\
       Asset.restitution (heap s2 obj) = Some 0.0%R) /\
    forall s3, settles s2 s3 ->
      let s4 := resetting F dome s3 in
      (forall obj, In obj statics ->
         Asset.velocity (heap s4 obj) = Some (0, 0, 0)%R /\
         Asset.friction (heap s4 obj) = Some 0.5%R /\
         Asset.restitution (heap s4 obj) = Some 0.5%R) /\
      Asset.friction (heap s4 dome) = Some (floor_friction F) /\
      Asset.restitution (heap s4 dome) = Some (floor_restitution F).
Proof.
  intros Hok Hkept Hcreate Hu. cbv zeta.
  unfold add_dome, new, add. cbn [fst snd].
  set (dome := next_ref s0).
  set (s1 := mkScene _ _ _ _ _).
  destruct (placement_loop (add_static_object active_split) placed_static
              (fun s rng0 => add_static_object_placed active_split s rng0
                               Hok Hkept Hcreate)
              (Py.range 0 num_static_objects) s1 rng Hu)
    as (s2 & rng' & Hrun & _ & _ & Hassets & Hheap & Hplaced).
  unfold Py.range in Hassets, Hplaced. rewrite length_seqZ in Hassets, Hplaced.
  replace (Z.to_nat (num_static_objects - 0))
    with (Z.to_nat num_static_objects) in Hassets, Hplaced by lia.
  cbn [next_ref assets s1] in Hassets, Hplaced, Hheap. fold dome in Hassets, Hplaced, Hheap.
  assert (heap s2 dome
          = Asset.set_background true
              (Asset.set_restitution 0.0
                 (Asset.set_friction 1.0 (create "dome")))) as Hdome.
  { rewrite Hheap by lia. unfold s1. cbn [heap]. apply fn_lookup_insert. }
  exists s2, rng'. split; [exact Hrun|].
  split; [rewrite Hassets, <- app_assoc; reflexivity|].
  rewrite Hdome. split; [reflexivity|]. split; [reflexivity|].
  split; [reflexivity|]. split.
  - intros obj Hin. destruct (Hplaced obj Hin) as (Hf & Hr & _).
    split; assumption.
  - intros s3 [Hassets3 Hkeeps]. split; [|split].
    + intros obj Hin.
      destruct (Hplaced obj Hin) as (_ & _ & _ & Hbg & Hvel & _).
      destruct (Hkeeps obj) as [Hbg3 Hvel3].
      rewrite Hbg in Hbg3. rewrite Hvel in Hvel3.
      assert (dome <> obj) as Hne by (apply in_seq in Hin; lia).
      assert (In obj (foreground_assets s3)) as Hfg.
      { apply in_foreground_assets. split; [|exact Hbg3].
        rewrite Hassets3, Hassets, <- app_assoc.
        apply in_app_iff. right. right. exact Hin. }
      assert (heap (resetting F dome s3) obj = reset_object (heap s3 obj))
        as ->.
      { rewrite heap_resetting. cbn zeta.
        destruct (decide (dome = obj)) as [|_]; [contradiction|].
        match goal with
        | |- context [@decide ?P ?d] => destruct (@decide P d) as [_|Hnot]
        end; [reflexivity|].
        exfalso. apply Hnot, list_elem_of_In. exact Hfg. }
      unfold reset_object. rewrite Hvel3. repeat split; reflexivity.
    + rewrite heap_resetting. cbn zeta.
      destruct (decide (dome = dome)) as [_|]; [reflexivity|contradiction].
    + rewrite heap_resetting. cbn zeta.
      destruct (decide (dome = dome)) as [_|]; [reflexivity|contradiction].
Qed.

Lemma settle_phase_witness :
  @placement_succeeds_in reference_collaborators STATIC_SPAWN_REGION
                         ["shoe"%string] /\
  @generator_kept reference_collaborators /\
  @creates_objects reference_collaborators /\
  unit_draws half_rng /\
  exists s2 rng',
    @add_static_objects reference_collaborators 2 ["shoe"%string]
      (snd (@add_dome reference_collaborators empty_scene), half_rng)
    = Ok (s2, rng') /\
    assets s2 = [0; 1; 2]%nat /\
    Asset.friction (heap s2 2%nat) = Some 1.0%R /\
    Asset.friction (heap (resetting default_flags 0%nat s2) 2%nat)
    = Some 0.5%R /\
    Asset.friction (heap (resetting default_flags 0%nat s2) 0%nat)
    = Some 0.3%R.
Proof.
  pose proof (reference_placement STATIC_SPAWN_REGION "shoe" []) as Hok.
  split; [exact Hok|]. split; [exact reference_generator_kept|].
  split; [exact reference_creates_objects|]. split; [exact half_rng_unit|].
  destruct (@settle_phase reference_collaborators default_flags 2
              ["shoe"%string] empty_scene half_rng Hok
              reference_generator_kept reference_creates_objects
              half_rng_unit)
    as (s2 & rng' & Hrun & Hassets & _ & _ & _ & Hplaced & Hreset).
  exists s2, rng'. split; [exact Hrun|]. split; [exact Hassets|].
  destruct (Hplaced 2%nat) as [Hf _]; [right; left; reflexivity|].
  split; [exact Hf|].
  destruct (Hreset s2) as (Hstatics & Hdome & _).
  { split; [reflexivity|]. intros r. split; reflexivity. }
  destruct (Hstatics 2%nat) as (_ & Hf5 & _); [right; left; reflexivity|].
  split; [exact Hf5|exact Hdome].
Defined.

(* ===================================================================== *)
(** ** Further properties: the visibility postprocessing *)
(* ===================================================================== *)

Lemma visible_only_raises (h : ref -> Asset.t) (before after : list ref)
    (r : ref) (e : exn) :
  (forall x, In x before ->
     exists v, Asset.visibility (Asset.metadata (h x)) = Some v /\ v <> []) ->
  is_visible h r = Raise e ->
  visible_only h (before ++ r :: after) = Raise e.
Proof.
  intros Hbefore Hr. induction before as [|x before IH].
  - cbn [app visible_only]. rewrite Hr. reflexivity.
  - cbn [app visible_only].
    destruct (Hbefore x (or_introl eq_refl)) as (v & Hv & Hne).
    rewrite (is_visible_in_view h x v Hv Hne). cbn [Py.bind].
    rewrite IH by (intros y Hy; apply Hbefore; right; exact Hy).
    reflexivity.
Qed.

(** X14: the filter of the visible assets reads the visibility of the
    assets in their order: it returns when every asset has a visibility
    array of at least one frame, and then keeps exactly the assets whose
    total is not zero; the first asset without a visibility entry in its
    metadata makes it raise KeyError, the first with an array of no frame
    ValueError. *)
Theorem visible_only_errors (h : ref -> Asset.t) (before after : list ref)
    (r : ref) :
  (forall x, In x before ->
     exists v, Asset.visibility (Asset.metadata (h x)) = Some v /\ v <> []) ->
  (Asset.visibility (Asset.metadata (h r)) = None ->
   visible_only h (before ++ r :: after) = Raise KeyError) /\
  (Asset.visibility (Asset.metadata (h r)) = Some [] ->
   visible_only h (before ++ r :: after) = Raise ValueError) /\
  visible_only h before
  = Ok (List.filter (fun x => (0 <? asum (counts_of h x))%nat) before).
Proof.
  intros Hbefore. split; [|split].
  - intros Hnone. apply visible_only_raises; [exact Hbefore|].
    unfold is_visible, Asset.get_visibility. rewrite Hnone. reflexivity.
  - intros Hempty. apply visible_only_raises; [exact Hbefore|].
    unfold is_visible, Asset.get_visibility. rewrite Hempty. reflexivity.
  - apply visible_only_filter. exact Hbefore.
Qed.

Lemma visible_only_errors_witness :
  (forall x, In x (@nil ref) ->
     exists v, Asset.visibility (Asset.metadata (unlabelled_store x)) = Some v
               /\ v <> []) /\
  visible_only unlabelled_store [0; 1]%nat = Raise KeyError /\
  visible_only frameless_store [0; 1]%nat = Raise ValueError.
Proof.
  split; [intros x []|]. split.
  - apply (visible_only_errors unlabelled_store [] [1%nat] 0%nat).
    + intros x [].
    + reflexivity.
  - apply (visible_only_errors frameless_store [] [1%nat] 0%nat).
    + intros x [].
    + reflexivity.
Defined.

(** *** Sorting by keys that agree *)

Lemma insert_by_ext (key1 key2 : ref -> nat) (r : ref) (l : list ref) :
  key1 r = key2 r -> (forall x, In x l -> key1 x = key2 x) ->
  insert_by key1 r l = insert_by key2 r l.
Proof.
  intros Hr. induction l as [|y l IH]; intros Hl; [reflexivity|].
  cbn [insert_by]. rewrite Hr, (Hl y (or_introl eq_refl)).
  rewrite IH by (intros x Hx; apply Hl; right; exact Hx). reflexivity.
Qed.

Lemma sort_by_ext (key1 key2 : ref -> nat) (l : list ref) :
  (forall x, In x l -> key1 x = key2 x) ->
  sort_by key1 l = sort_by key2 l.
Proof.
  induction l as [|r l IH]; intros Hl; [reflexivity|].
  unfold sort_by in *. cbn [fold_right].
  rewrite IH by (intros x Hx; apply Hl; right; exact Hx).
  apply insert_by_ext.
  - apply Hl. left. reflexivity.
  - intros x Hx. apply Hl. right.
    apply (Permutation_in _ (sort_by_perm key2 l)). exact Hx.
Qed.

Section Postprocess_output.
Context `{Collaborators}.

(** The output of the postprocessing, in full. *)
Lemma postprocess_output (seg : Segmentation) (s : Scene) :
  seg <> [] -> List.NoDup (assets s) ->
  let h1 := compute_visibility seg (assets s) (heap s) in
  let visible :=
    sort_by (total seg s)
            (List.filter (fun r => (0 <? total seg s r)%nat)
                         (foreground_assets s)) in
  let seg' := adjust_segmentation_idxs seg (assets s) visible in
  let s' := set_heap (compute_bboxes seg' visible h1)
                     (set_num_instances (List.length visible)
                                        (set_heap h1 s)) in
  postprocess seg s
  = Ok (mkOutput seg' visible (get_instance_info s' visible) s').
Proof.
  intros Hseg Hnd. cbv zeta. unfold postprocess.
  rewrite foreground_after_visibility. cbn [heap assets set_heap].
  set (h1 := compute_visibility seg (assets s) (heap s)).
  assert (forall r, In r (assets s) ->
            exists v, Asset.visibility (Asset.metadata (h1 r)) = Some v
                      /\ v <> []) as Hvis.
  { intros r Hr. apply list_elem_of_In, list_elem_of_lookup in Hr as [i Hi].
    eexists. split.
    - apply (compute_visibility_at 0 seg (assets s) (heap s) i r Hnd Hi).
    - destruct seg; [contradiction|discriminate]. }
  rewrite visible_only_filter.
  2:{ intros r Hr. apply Hvis. apply in_foreground_assets in Hr. tauto. }
  cbn [Py.bind]. rewrite sorted_by_visibility_sort_by.
  2:{ intros r Hr. apply filter_In in Hr as [Hr _].
      apply in_foreground_assets in Hr as [Hr _].
      destruct (Hvis r Hr) as (v & Hv & _). exists v. exact Hv. }
  reflexivity.
Qed.
End Postprocess_output.

Lemma total_at (seg : Segmentation) (s1 s2 : Scene) (r : ref) :
  assets s1 = assets s2 -> List.NoDup (assets s2) -> In r (assets s2) ->
  total seg s1 r = total seg s2 r.
Proof.
  intros Hassets Hnd Hr.
  apply list_elem_of_In, list_elem_of_lookup in Hr as [i Hi].
  unfold total.
  rewrite (counts_at seg s2 i r Hnd Hi).
  rewrite (counts_at seg s1 i r); [reflexivity| |].
  - rewrite Hassets. exact Hnd.
  - rewrite Hassets. exact Hi.
Qed.

(** X15: the script postprocesses twice, the train rendering and then the
    test rendering of the same scene. Where the bounding-box pass keeps
    the background flags, the second postprocessing owes nothing to the
    first: it retains the same objects in the same order, rewrites the
    segmentation to the same maps and counts the same instances as on the
    scene the first never touched. *)
Theorem postprocess_twice `{Collaborators} (seg1 seg2 : Segmentation)
    (s : Scene) :
  seg1 <> [] -> seg2 <> [] -> List.NoDup (assets s) ->
  bboxes_keep_background ->
  exists out1 out2 fresh,
    postprocess seg1 s = Ok out1 /\
    postprocess seg2 (scene out1) = Ok out2 /\
    postprocess seg2 s = Ok fresh /\
    visible_foreground_assets out2 = visible_foreground_assets fresh /\
    segmentation out2 = segmentation fresh /\
    num_instances (scene out2) = num_instances (scene fresh).
Proof.
  intros Hseg1 Hseg2 Hnd Hkeep.
  pose proof (postprocess_output seg1 s Hseg1 Hnd) as Hout1. cbv zeta in Hout1.
  pose proof (postprocess_output seg2 s Hseg2 Hnd) as Hfresh.
  cbv zeta in Hfresh.
  eexists. eexists. eexists. split; [exact Hout1|].
  cbn [scene].
  match goal with
  | |- postprocess seg2 ?s1 = _ /\ _ => set (s1' := s1)
  end.
  assert (assets s1' = assets s) as Hassets by reflexivity.
  assert (List.NoDup (assets s1')) as Hnd1 by (rewrite Hassets; exact Hnd).
  pose proof (postprocess_output seg2 s1' Hseg2 Hnd1) as Hout2.
  cbv zeta in Hout2.
  assert (foreground_assets s1' = foreground_assets s) as Hfg.
  { unfold foreground_assets. rewrite Hassets.
    apply filter_ext. intros r. unfold s1'. cbn [heap set_heap].
    rewrite Hkeep. unfold compute_visibility.
    rewrite compute_visibility_background. reflexivity. }
  assert (forall r, In r (foreground_assets s) ->
                    total seg2 s1' r = total seg2 s r) as Htotal.
  { intros r Hr. apply in_foreground_assets in Hr as [Hr _].
    apply total_at; assumption. }
  assert (sort_by (total seg2 s1')
            (List.filter (fun r => (0 <? total seg2 s1' r)%nat)
                         (foreground_assets s1'))
          = sort_by (total seg2 s)
              (List.filter (fun r => (0 <? total seg2 s r)%nat)
                           (foreground_assets s))) as Hsame.
  { rewrite Hfg.
    rewrite (filter_ext_in (fun r => (0 <? total seg2 s1' r)%nat)
                           (fun r => (0 <? total seg2 s r)%nat))
      by (intros r Hr; rewrite (Htotal r Hr); reflexivity).
    apply sort_by_ext. intros r Hr. apply filter_In in Hr as [Hr _].
    apply Htotal. exact Hr. }
  rewrite Hsame, Hassets in Hout2.
  split; [exact Hout2|]. split; [exact Hfresh|].
  cbn [visible_foreground_assets segmentation scene num_instances
       set_heap set_num_instances].
  repeat split; reflexivity.
Qed.

Lemma postprocess_twice_witness :
  empty_frames <> [] /\ one_frame <> [] /\
  List.NoDup (assets three_objects) /\
  @bboxes_keep_background reference_collaborators /\
  exists out1 out2,
    @postprocess reference_collaborators empty_frames three_objects
    = Ok out1 /\
    @postprocess reference_collaborators one_frame (scene out1) = Ok out2 /\
    visible_foreground_assets out1 = [] /\
    visible_foreground_assets out2 = [2; 0]%nat.
Proof.
  assert (empty_frames <> []) as Hseg1 by discriminate.
  assert (one_frame <> []) as Hseg2 by discriminate.
  assert (List.NoDup (assets three_objects)) as Hnd.
  { cbn [assets three_objects]. repeat constructor; simpl; lia. }
  assert (@bboxes_keep_background reference_collaborators) as Hkeep
    by (intros seg objs h r; reflexivity).
  split; [exact Hseg1|]. split; [exact Hseg2|]. split; [exact Hnd|].
  split; [exact Hkeep|].
  destruct (@postprocess_twice reference_collaborators empty_frames one_frame
              three_objects Hseg1 Hseg2 Hnd Hkeep)
    as (out1 & out2 & fresh & Hrun1 & Hrun2 & Hfresh & Hvisible & _).
  exists out1, out2. split; [exact Hrun1|]. split; [exact Hrun2|].
  split.
  - rewrite (@postprocess_output reference_collaborators empty_frames
               three_objects Hseg1 Hnd) in Hrun1.
    inversion Hrun1. reflexivity.
  - rewrite Hvisible.
    rewrite (@postprocess_output reference_collaborators one_frame
               three_objects Hseg2 Hnd) in Hfresh.
    inversion Hfresh. reflexivity.
Defined.

(** *** The labels of the rewritten segmentation *)

Lemma index_of_bound (r : ref) (l : list ref) (j : nat) :
  index_of r l = Some j -> (j < List.length l)%nat.
Proof.
  revert j. induction l as [|x l IH]; intros j Hj; [discriminate|].
  cbn [index_of] in Hj. destruct (Nat.eqb x r).
  - inversion Hj. simpl. lia.
  - destruct (index_of r l) as [k|]; [|discriminate].
    inversion Hj. specialize (IH k eq_refl). simpl. lia.
Qed.

Lemma remap_bound (old_assets new_assets : list ref) (label : nat) :
  (remap old_assets new_assets label <= List.length new_assets)%nat.
Proof.
  unfold remap. destruct label as [|i]; [lia|].
  destruct (old_assets !! i) as [r|]; [|lia].
  destruct (index_of r new_assets) as [j|] eqn:Hj; [|lia].
  apply index_of_bound in Hj. lia.
Qed.

(** X16: on a stack of at least one frame the postprocessing returns a
    consistent output: the retained objects are distinct foreground assets
    of the scene, [num_instances] is their number and the per-instance
    list has one entry for each; the rewritten segmentation has the frames
    and the pixels of the input, and every label in it is between 0 and
    [num_instances]. *)
Theorem postprocess_labels `{Collaborators} (seg : Segmentation) (s : Scene) :
  seg <> [] -> List.NoDup (assets s) ->
  exists out n,
    postprocess seg s = Ok out /\
    num_instances (scene out) = Some n /\
    List.length (visible_foreground_assets out) = n /\
    List.length (instances out) = n /\
    (n <= List.length (foreground_assets s))%nat /\
    List.NoDup (visible_foreground_assets out) /\
    (forall r, In r (visible_foreground_assets out) ->
               In r (foreground_assets s)) /\
    List.length (segmentation out) = List.length seg /\
    (forall i frame, segmentation out !! i = Some frame ->
       exists old, seg !! i = Some old /\
                   List.length frame = List.length old /\
                   forall label, In label frame -> (label <= n)%nat).
Proof.
  intros Hseg Hnd.
  pose proof (postprocess_output seg s Hseg Hnd) as Hout. cbv zeta in Hout.
  set (kept := List.filter (fun r => (0 <? total seg s r)%nat)
                           (foreground_assets s)) in *.
  set (visible := sort_by (total seg s) kept) in *.
  pose proof (sort_by_perm (total seg s) kept) as Hperm.
  fold visible in Hperm.
  eexists. exists (List.length visible). split; [exact Hout|].
  cbn [scene num_instances set_heap set_num_instances
       visible_foreground_assets instances segmentation].
  split; [reflexivity|]. split; [reflexivity|].
  split; [unfold get_instance_info; apply length_map|].
  split.
  { rewrite (Permutation_length Hperm). apply filter_length_le. }
  split.
  { apply (Permutation_NoDup (Permutation_sym Hperm)).
    apply List.NoDup_filter. unfold foreground_assets.
    apply List.NoDup_filter. exact Hnd. }
  split.
  { intros r Hr. apply (Permutation_in _ Hperm) in Hr.
    apply filter_In in Hr as [Hr _]. exact Hr. }
  split.
  { unfold adjust_segmentation_idxs. apply length_map. }
  intros i frame Hframe. unfold adjust_segmentation_idxs in Hframe.
  rewrite list_lookup_fmap_Some in Hframe.
  destruct Hframe as (old & -> & Hold).
  exists old. split; [exact Hold|]. split; [apply length_map|].
  intros label Hlabel. apply in_map_iff in Hlabel as (l0 & <- & _).
  apply remap_bound.
Qed.

Lemma postprocess_labels_witness :
  one_frame <> [] /\ List.NoDup (assets three_objects) /\
  exists out,
    @postprocess reference_collaborators one_frame three_objects = Ok out /\
    num_instances (scene out) = Some 2%nat.
Proof.
  assert (one_frame <> []) as Hseg by discriminate.
  assert (List.NoDup (assets three_objects)) as Hnd.
  { cbn [assets three_objects]. repeat constructor; simpl; lia. }
  split; [exact Hseg|]. split; [exact Hnd|].
  destruct (@postprocess_labels reference_collaborators one_frame
              three_objects Hseg Hnd)
    as (out & n & Hrun & Hcount & Hlen & _).
  exists out. split; [exact Hrun|].
  rewrite Hcount. f_equal. rewrite <- Hlen.
  rewrite (@postprocess_output reference_collaborators one_frame
             three_objects Hseg Hnd) in Hrun.
  inversion Hrun. reflexivity.
Defined.
